(** * Student portal: import pipeline, rollback and grade grids

    A shallow embedding of [app.py]: the column normaliser, the three
    importers with their provenance bookkeeping, [delete_upload], the
    routes that change the store, and the two views of a student: the marks
    grid with [letter_grade] and the attendance grid.

    Modelling conventions.
    - A Python [str] is the sequence of its UTF-8 bytes ([string]); SQLite's
      BINARY collation and Python's code-point order agree on such strings.
      [str.strip] and [str.lower], which follow the Unicode tables of the
      interpreter, are taken from it (class [Py.Builtins]).
    - A DataFrame is the list of its rows; the dtype of a column is the one
      pandas' readers infer from its cells (int64, float64 or object), and
      [fillna] and [iterrows] treat the cells as pandas does for that dtype.
    - A Python [float] is a binary64 value, Rocq's primitive [float].
    - A Python [int] is a [Z]; SQLite INTEGER columns hold signed 64-bit
      values and the binding of a larger one raises [OverflowError].
    - A table is the list of its rows in rowid order; UNIQUE and FOREIGN KEY
      declarations are enforced by the statements that write the table.
    - An exception is an [Err] result; a transaction that raises leaves the
      store as it was when the transaction began. *)

From Stdlib Require Import ZArith List String Ascii Bool Lia Floats.
From Stdlib Require Import DecimalString Sorted OrdersEx Permutation.
Import ListNotations.

Local Open Scope string_scope.
Local Open Scope Z_scope.

(* Decimal literals such as 84.9 denote the nearest binary64, as in Python. *)
Set Warnings "-inexact-float".

(** ** Results of fallible code *)

Inductive exn : Type :=
| ValueError (msg : string)
| OverflowError (msg : string)
| KeyError (label : string)
| IntegrityError (msg : string)
| OperationalError (msg : string).

Inductive res (A : Type) : Type :=
| Ok (a : A)
| Err (e : exn).

Arguments Ok {A} a.
Arguments Err {A} e.

Definition bind {A B : Type} (m : res A) (k : A -> res B) : res B :=
  match m with
  | Ok a => k a
  | Err e => Err e
  end.

Notation "x <- m ;; k" := (bind m (fun x => k))
  (at level 61, m at next level, right associativity).

(** ** Letter grades (section "Wide views") *)

Module Grade.

(** [letter_grade(pct)]: the comparisons [pct >= 85] of a float with an
    integer literal are exact, so they are the binary64 comparisons with the
    (exactly representable) thresholds. *)
Definition letter_grade (pct : float) : string :=
  if (85 <=? pct)%float then "A+"
  else if (75 <=? pct)%float then "A"
  else if (65 <=? pct)%float then "B+"
  else if (55 <=? pct)%float then "B"
  else if (45 <=? pct)%float then "C"
  else if (35 <=? pct)%float then "D"
  else "F".

(** [float(n)] for an integer: the nearest binary64, ties to even. *)
Definition float_of_Z (z : Z) : float :=
  SF2Prim (binary_normalize prec emax z 0 false).

(** The percentage of a marks cell, line 348:
    [(100.0 * r["marks_obtained"] / r["max_marks"]) if r["max_marks"] else 0.0].
    Both operands are stored SQLite integers, whose conversion to a float
    cannot overflow. *)
Definition percentage (marks_obtained max_marks : Z) : float :=
  if max_marks =? 0 then 0%float
  else (100 * float_of_Z marks_obtained / float_of_Z max_marks)%float.

(** The position of a grade in the order F < D < C < B < B+ < A < A+. *)
Definition band (g : string) : nat :=
  if String.eqb g "A+" then 6%nat
  else if String.eqb g "A" then 5%nat
  else if String.eqb g "B+" then 4%nat
  else if String.eqb g "B" then 3%nat
  else if String.eqb g "C" then 2%nat
  else if String.eqb g "D" then 1%nat
  else 0%nat.

Definition grades : list string := ["A+"; "A"; "B+"; "B"; "C"; "D"; "F"].

End Grade.

(** ** Python strings and numbers *)

Module Py.

(** [str(n)] for an integer. *)
Definition str_of_Z (z : Z) : string := NilZero.string_of_int (Z.to_int z).

(** [int(x)] for a float: truncation toward zero; NaN raises [ValueError]
    and an infinity raises [OverflowError]. *)
Definition int_of_float (f : float) : res Z :=
  match Prim2SF f with
  | S754_zero _ => Ok 0
  | S754_infinity _ => Err (OverflowError "cannot convert float infinity to integer")
  | S754_nan => Err (ValueError "cannot convert float NaN to integer")
  | S754_finite s m e =>
      let a := Z.shiftl (Zpos m) e in
      Ok (if s then - a else a)
  end.

(** [float(n)] for an integer: [OverflowError] when out of range. *)
Definition float_of_int (z : Z) : res float :=
  let f := Grade.float_of_Z z in
  if is_infinity f then Err (OverflowError "int too large to convert to float")
  else Ok f.

(** What the installation fixes, taken as an interface: CPython's [repr]
    of a float and [float] of a string ([None]: [ValueError]); [s.strip()]
    and [s.lower()], which follow the interpreter's Unicode tables; and
    SQLITE_MAX_VARIABLE_NUMBER, the number of [?] parameters the SQLite
    library accepts in one statement (999 before SQLite 3.32, 32766 since,
    or what the library was built with). The statements the program
    writes out bind at most eight parameters (the INSERT on [marks]); the
    library is one that runs them. *)
Class Builtins : Type := {
  float_repr : float -> string;
  float_of_str : string -> option float;
  strip : string -> string;
  lower : string -> string;
  max_variable_number : N;
  max_variable_number_fixed : (8 <=? max_variable_number)%N = true
}.

(** [x or None] for a string. *)
Definition or_None (s : string) : option string :=
  if String.eqb s "" then None else Some s.

(** The value bound to an INTEGER column must fit SQLite's 64 bits. *)
Definition sqlite_int (z : Z) : res Z :=
  if (- 2 ^ 63 <=? z) && (z <? 2 ^ 63) then Ok z
  else Err (OverflowError "Python int too large to convert to SQLite INTEGER").

Definition sqlite_int_opt (o : option Z) : res (option Z) :=
  match o with
  | Some z => z' <- sqlite_int z;; Ok (Some z')
  | None => Ok None
  end.

End Py.

(** ** Tables read from a file *)

Module Frame.

(** A cell of a loaded table: text, an integer, or a float; a blank of the
    file is the float NaN. *)
Inductive cell : Type :=
| CStr (s : string)
| CInt (z : Z)
| CFloat (f : float).

Definition isna (c : cell) : bool :=
  match c with
  | CFloat f => is_nan f
  | _ => false
  end.

(** A DataFrame: its column labels and its rows, each row holding one cell
    per column. *)
Record DataFrame : Type := mkFrame {
  columns : list string;
  rows : list (list cell)
}.

(** The dtype of a column. [read_csv] and [read_excel] infer it from the
    cells: int64 when all are integers, float64 when all are floats (a
    column of numbers with a blank or a fraction is read as floats),
    object otherwise. *)
Inductive dtype : Type :=
| Int64
| Float64
| Object.

Definition is_int (c : cell) : bool :=
  match c with
  | CInt _ => true
  | _ => false
  end.

Definition is_float (c : cell) : bool :=
  match c with
  | CFloat _ => true
  | _ => false
  end.

Definition dtype_of (cells : list cell) : dtype :=
  if forallb is_int cells then Int64
  else if forallb is_float cells then Float64
  else Object.

(** The cells of column [i]. *)
Definition column_cells (i : nat) (rs : list (list cell)) : list cell :=
  flat_map (fun r => match nth_error r i with
                     | Some c => [c]
                     | None => []
                     end) rs.

(** [df.dtypes] *)
Definition dtypes (df : DataFrame) : list dtype :=
  map (fun i => dtype_of (column_cells i (rows df)))
      (seq 0 (List.length (columns df))).

Definition mem (x : string) (l : list string) : bool :=
  existsb (String.eqb x) l.

Fixpoint index_of (x : string) (l : list string) : option nat :=
  match l with
  | [] => None
  | y :: l' => if String.eqb y x then Some O
               else option_map S (index_of x l')
  end.

Definition remove_nth {A : Type} (i : nat) (l : list A) : list A :=
  (firstn i l ++ skipn (S i) l)%list.

(** [df[v] = df.pop(k)]: column [k] leaves its place and comes back as the
    last column, labelled [v]. *)
Definition pop_assign (k v : string) (df : DataFrame) : DataFrame :=
  match index_of k (columns df) with
  | None => df
  | Some i =>
      {| columns := (remove_nth i (columns df) ++ [v])%list;
         rows := map (fun r => (remove_nth i r ++
                                match nth_error r i with
                                | Some c => [c]
                                | None => []
                                end)%list) (rows df) |}
  end.

Definition aliases : list (string * string) :=
  [ ("roll", "roll_no"); ("roll no", "roll_no"); ("rollno", "roll_no");
    ("rollnumber", "roll_no"); ("roll_no.", "roll_no");
    ("student name", "name"); ("student", "name"); ("name of student", "name");
    ("student email", "email"); ("mail", "email"); ("e-mail", "email");
    ("student phone number", "phone"); ("phone number", "phone");
    ("mobile", "phone"); ("student phone", "phone"); ("contact", "phone");
    ("father name", "father_name"); ("father's name", "father_name");
    ("guardian name", "father_name");
    ("father phone number", "father_phone"); ("father mobile", "father_phone");
    ("guardian phone", "father_phone");
    ("sem", "semester"); ("sub", "subject"); ("subject name", "subject");
    ("max", "max_marks"); ("maxmarks", "max_marks");
    ("marks", "marks_obtained"); ("obtained", "marks_obtained") ].

Definition apply_alias (df : DataFrame) (kv : string * string) : DataFrame :=
  let '(k, v) := kv in
  if mem k (columns df) && negb (mem v (columns df)) then pop_assign k v df
  else df.

(** What [fillna(v)] puts in place of a NaN of a column: a float64 column
    takes the number [v] as a float and stays float64; a float64 column
    that is given a text becomes an object column, which holds [v] as it
    is. An int64 column has no NaN. *)
Definition fill_value (v : cell) (t : dtype) : cell :=
  match t, v with
  | Float64, CInt z => CFloat (Grade.float_of_Z z)
  | _, _ => v
  end.

Fixpoint fill_row (v : cell) (ts : list dtype) (r : list cell) : list cell :=
  match r, ts with
  | c :: r', t :: ts' =>
      (if isna c then fill_value v t else c) :: fill_row v ts' r'
  | _, _ => r
  end.

(** [df.fillna(v)] *)
Definition fillna (v : cell) (df : DataFrame) : DataFrame :=
  {| columns := columns df;
     rows := map (fill_row v (dtypes df)) (rows df) |}.

(** The conversion of an integer cell to float64. *)
Definition to_float (c : cell) : cell :=
  match c with
  | CInt z => CFloat (Grade.float_of_Z z)
  | _ => c
  end.

Definition is_object (t : dtype) : bool :=
  match t with
  | Object => true
  | _ => false
  end.

Definition is_float64 (t : dtype) : bool :=
  match t with
  | Float64 => true
  | _ => false
  end.

(** The rows [df.iterrows()] yields. Each is a Series cut from
    [df.values], whose dtype is the common dtype of the columns: when all
    columns are numeric and one is float64 the integers of the row arrive
    as floats; with an object column every cell keeps its type. *)
Definition iterrows (df : DataFrame) : list (list cell) :=
  if forallb (fun t => negb (is_object t)) (dtypes df) &&
     existsb is_float64 (dtypes df)
  then map (map to_float) (rows df)
  else rows df.

Section Labels.
Context {B : Py.Builtins}.

(** [normalize_columns(df)] *)
Definition normalize_columns (df : DataFrame) : DataFrame :=
  let df := {| columns := map (fun c => Py.lower (Py.strip c)) (columns df);
               rows := rows df |} in
  fold_left apply_alias aliases df.

End Labels.

(** [r[col]] for a row of [df.iterrows()]. *)
Definition getitem (df : DataFrame) (r : list cell) (col : string) : res cell :=
  match index_of col (columns df) with
  | Some i => match nth_error r i with
              | Some c => Ok c
              | None => Err (KeyError col)
              end
  | None => Err (KeyError col)
  end.

(** The loop [for col in required: if col not in df.columns: raise ...]. *)
Fixpoint require_columns (kind : string) (required : list string)
    (df : DataFrame) : res unit :=
  match required with
  | [] => Ok tt
  | col :: rest =>
      if mem col (columns df) then require_columns kind rest df
      else Err (ValueError (kind ++ ": missing column '" ++ col ++ "'"))
  end.

Section Conversions.
Context {B : Py.Builtins}.

(** [str(c)] *)
Definition str (c : cell) : string :=
  match c with
  | CStr s => s
  | CInt z => Py.str_of_Z z
  | CFloat f => Py.float_repr f
  end.

(** [float(c)] *)
Definition float_of_cell (c : cell) : res float :=
  match c with
  | CStr s => match Py.float_of_str s with
              | Some f => Ok f
              | None => Err (ValueError "could not convert string to float")
              end
  | CInt z => Py.float_of_int z
  | CFloat f => Ok f
  end.

(** The nullable integers (semester, credits):
    [sr = str(c).strip()], then [int(float(sr))] inside [try], unless [sr]
    is empty or spells [nan]. *)
Definition nullable_int (c : cell) : option Z :=
  let sr := Py.strip (str c) in
  if String.eqb sr "" || String.eqb (Py.lower sr) "nan" then None
  else match Py.float_of_str sr with
       | Some f => match Py.int_of_float f with
                   | Ok z => Some z
                   | Err _ => None
                   end
       | None => None
       end.

(** The counts (attended, total, max_marks, marks_obtained):
    [int(float(c)) if str(c).strip() else 0]. *)
Definition count_int (c : cell) : res Z :=
  if String.eqb (Py.strip (str c)) "" then Ok 0
  else f <- float_of_cell c;; Py.int_of_float f.

End Conversions.

End Frame.

(** ** The relational store (the schema of [run_schema]) *)

Module Store.

Record upload_row : Type := mkUpload {
  up_id : Z;
  up_filename : string;
  up_upload_type : string;
  up_row_count : Z;
  up_created_at : string;
  up_uploader_username : string
}.

Record student_row : Type := mkStudent {
  st_roll_no : string;
  st_name : string;
  st_email : option string;
  st_phone : option string;
  st_father_name : option string;
  st_father_phone : option string;
  st_semester : option Z
}.

(** A row of [upload_students_map]; [created_new] is the INTEGER 0 or 1. *)
Record map_row : Type := mkMap {
  mp_upload_id : Z;
  mp_roll_no : string;
  mp_created_new : Z
}.

(** The surrogate [id] of the attendance, marks and remarks tables is read
    by no statement of the program and is left out of their rows. *)
Record attendance_row : Type := mkAttendance {
  at_roll_no : string;
  at_subject : string;
  at_attended : Z;
  at_total : Z;
  at_semester : option Z;
  at_source_upload_id : option Z
}.

Record marks_row : Type := mkMarks {
  mk_roll_no : string;
  mk_exam : string;
  mk_subject : string;
  mk_max_marks : Z;
  mk_marks_obtained : Z;
  mk_credits : option Z;
  mk_semester : option Z;
  mk_source_upload_id : option Z
}.

Record remark_row : Type := mkRemark {
  rm_roll_no : string;
  rm_remark_text : string;
  rm_author_username : string;
  rm_created_at : string
}.

(** The store. [uploads_seq] is the AUTOINCREMENT counter of [uploads] (the
    largest id ever given out). The [users] table belongs to the login
    pages and is left out. *)
Record DB : Type := mkDB {
  uploads : list upload_row;
  uploads_seq : Z;
  students : list student_row;
  upload_students_map : list map_row;
  attendance : list attendance_row;
  marks : list marks_row;
  remarks : list remark_row
}.

(** The store after [run_schema] on a new database file. *)
Definition empty_db : DB := mkDB [] 0 [] [] [] [] [].

Definition set_uploads (u : list upload_row) (q : Z) (db : DB) : DB :=
  mkDB u q (students db) (upload_students_map db) (attendance db) (marks db)
       (remarks db).

Definition set_students (s : list student_row) (db : DB) : DB :=
  mkDB (uploads db) (uploads_seq db) s (upload_students_map db) (attendance db)
       (marks db) (remarks db).

Definition set_map (m : list map_row) (db : DB) : DB :=
  mkDB (uploads db) (uploads_seq db) (students db) m (attendance db) (marks db)
       (remarks db).

Definition set_attendance (a : list attendance_row) (db : DB) : DB :=
  mkDB (uploads db) (uploads_seq db) (students db) (upload_students_map db) a
       (marks db) (remarks db).

Definition set_marks (m : list marks_row) (db : DB) : DB :=
  mkDB (uploads db) (uploads_seq db) (students db) (upload_students_map db)
       (attendance db) m (remarks db).

Definition set_remarks (r : list remark_row) (db : DB) : DB :=
  mkDB (uploads db) (uploads_seq db) (students db) (upload_students_map db)
       (attendance db) (marks db) r.

Definition eq_opt (o : option Z) (z : Z) : bool :=
  match o with
  | Some x => x =? z
  | None => false
  end.

(** [SELECT 1 FROM students WHERE roll_no=?] *)
Definition student_exists (roll : string) (db : DB) : bool :=
  existsb (fun s => String.eqb (st_roll_no s) roll) (students db).

(** [SELECT * FROM students WHERE roll_no=?], [fetchone]. *)
Definition find_student (roll : string) (db : DB) : option student_row :=
  find (fun s => String.eqb (st_roll_no s) roll) (students db).

(** [SELECT * FROM uploads WHERE id=?], [fetchone]. *)
Definition find_upload (id : Z) (db : DB) : option upload_row :=
  find (fun u => up_id u =? id) (uploads db).

Definition upload_exists (id : Z) (db : DB) : bool :=
  existsb (fun u => up_id u =? id) (uploads db).

Definition attendance_key (a : attendance_row) : string * string :=
  (at_roll_no a, at_subject a).

Definition marks_key (m : marks_row) : string * string * string :=
  (mk_roll_no m, mk_exam m, mk_subject m).

Definition same_attendance (roll subj : string) (a : attendance_row) : bool :=
  String.eqb (at_roll_no a) roll && String.eqb (at_subject a) subj.

Definition same_marks (roll exam subj : string) (m : marks_row) : bool :=
  String.eqb (mk_roll_no m) roll && String.eqb (mk_exam m) exam &&
  String.eqb (mk_subject m) subj.

Definition find_attendance (roll subj : string) (db : DB)
    : option attendance_row :=
  find (same_attendance roll subj) (attendance db).

Definition find_marks (roll exam subj : string) (db : DB) : option marks_row :=
  find (same_marks roll exam subj) (marks db).

(** [COALESCE(x, y)] *)
Definition coalesce {A : Type} (x y : option A) : option A :=
  match x with
  | Some _ => x
  | None => y
  end.

(** [INSERT INTO students ... ON CONFLICT(roll_no) DO UPDATE SET
    name=excluded.name, ..., semester=excluded.semester]. *)
Fixpoint upsert_student (new : student_row) (l : list student_row)
    : list student_row :=
  match l with
  | [] => [new]
  | old :: l' =>
      if String.eqb (st_roll_no old) (st_roll_no new) then
        {| st_roll_no := st_roll_no old;
           st_name := st_name new;
           st_email := st_email new;
           st_phone := st_phone new;
           st_father_name := st_father_name new;
           st_father_phone := st_father_phone new;
           st_semester := st_semester new |} :: l'
      else old :: upsert_student new l'
  end.

(** [INSERT INTO attendance ... ON CONFLICT(roll_no,subject) DO UPDATE SET
    attended=excluded.attended, total=excluded.total,
    semester=COALESCE(excluded.semester, attendance.semester),
    source_upload_id=excluded.source_upload_id]. *)
Fixpoint upsert_attendance (new : attendance_row) (l : list attendance_row)
    : list attendance_row :=
  match l with
  | [] => [new]
  | old :: l' =>
      if same_attendance (at_roll_no new) (at_subject new) old then
        {| at_roll_no := at_roll_no old;
           at_subject := at_subject old;
           at_attended := at_attended new;
           at_total := at_total new;
           at_semester := coalesce (at_semester new) (at_semester old);
           at_source_upload_id := at_source_upload_id new |} :: l'
      else old :: upsert_attendance new l'
  end.

(** [INSERT INTO marks ... ON CONFLICT(roll_no,exam,subject) DO UPDATE SET
    max_marks=excluded.max_marks, marks_obtained=excluded.marks_obtained,
    credits=COALESCE(excluded.credits, marks.credits),
    semester=COALESCE(excluded.semester, marks.semester),
    source_upload_id=excluded.source_upload_id]. *)
Fixpoint upsert_marks (new : marks_row) (l : list marks_row) : list marks_row :=
  match l with
  | [] => [new]
  | old :: l' =>
      if same_marks (mk_roll_no new) (mk_exam new) (mk_subject new) old then
        {| mk_roll_no := mk_roll_no old;
           mk_exam := mk_exam old;
           mk_subject := mk_subject old;
           mk_max_marks := mk_max_marks new;
           mk_marks_obtained := mk_marks_obtained new;
           mk_credits := coalesce (mk_credits new) (mk_credits old);
           mk_semester := coalesce (mk_semester new) (mk_semester old);
           mk_source_upload_id := mk_source_upload_id new |} :: l'
      else old :: upsert_marks new l'
  end.

(** [create_upload_record]: one committed INSERT; the new id is the
    AUTOINCREMENT successor, and when the counter has reached the largest
    64-bit integer the INSERT fails with SQLITE_FULL. [created_at] and the
    session's user name come from the caller. The result is what the call
    returns or raises, with the store it leaves. *)
Definition create_upload_record (filename upload_type created_at user : string)
    (db : DB) : res Z * DB :=
  if uploads_seq db <? 2 ^ 63 - 1 then
    let id := uploads_seq db + 1 in
    (Ok id,
     set_uploads
       (uploads db ++ [mkUpload id filename upload_type 0 created_at user])
       id db)
  else (Err (OperationalError "database or disk is full"), db).

(** [bump_rowcount]: [UPDATE uploads SET row_count=row_count+? WHERE id=?]. *)
Definition bump_rowcount (upload_id n : Z) (db : DB) : DB :=
  set_uploads
    (map (fun u =>
            if up_id u =? upload_id then
              mkUpload (up_id u) (up_filename u) (up_upload_type u)
                       (up_row_count u + n) (up_created_at u)
                       (up_uploader_username u)
            else u) (uploads db))
    (uploads_seq db) db.

End Store.

(** ** Importers (with provenance) *)

Module Importers.
Import Frame Store.

Section WithBuiltins.
Context {B : Py.Builtins}.

Definition students_required : list string :=
  ["roll_no"; "name"; "email"; "phone"; "father_name"; "father_phone";
   "semester"].

Definition attendance_required : list string :=
  ["roll_no"; "subject"; "attended"; "total"].

Definition marks_required : list string :=
  ["roll_no"; "exam"; "subject"; "max_marks"; "marks_obtained"].

(** The frame an importer iterates over. *)
Definition students_frame (df : DataFrame) : DataFrame :=
  fillna (CStr "") (normalize_columns df).

Definition attendance_frame (df : DataFrame) : DataFrame :=
  fillna (CInt 0) (normalize_columns df).

Definition marks_frame (df : DataFrame) : DataFrame :=
  fillna (CInt 0) (normalize_columns df).

(** [str(r[col]).strip()] *)
Definition text (df : DataFrame) (r : list cell) (col : string) : res string :=
  c <- getitem df r col;; Ok (Py.strip (str c)).

(** The optional integer column [col]: null when the frame has no such
    column. *)
Definition optional_int (df : DataFrame) (r : list cell) (col : string)
    : res (option Z) :=
  if mem col (columns df) then
    c <- getitem df r col;; Ok (nullable_int c)
  else Ok None.

(** One row of a Students frame: [None] when the row is skipped
    ([if not roll: continue]), the values to bind otherwise. *)
Definition student_of_row (df : DataFrame) (r : list cell)
    : res (option student_row) :=
  roll <- text df r "roll_no";;
  if String.eqb roll "" then Ok None
  else
    name <- text df r "name";;
    email <- text df r "email";;
    phone <- text df r "phone";;
    fname <- text df r "father_name";;
    fphone <- text df r "father_phone";;
    c <- getitem df r "semester";;
    Ok (Some {| st_roll_no := roll;
                st_name := name;
                st_email := Py.or_None email;
                st_phone := Py.or_None phone;
                st_father_name := Py.or_None fname;
                st_father_phone := Py.or_None fphone;
                st_semester := nullable_int c |}).

(** The three statements run for one Students row: the existence query,
    the upsert, and the provenance INSERT (whose [upload_id] references
    [uploads]). *)
Definition apply_student (upload_id : Z) (s : student_row) (db : DB) : res DB :=
  let existed := student_exists (st_roll_no s) db in
  _ <- Py.sqlite_int_opt (st_semester s);;
  let db1 := set_students (upsert_student s (students db)) db in
  if upload_exists upload_id db1 then
    Ok (set_map (upload_students_map db1 ++
                 [mkMap upload_id (st_roll_no s) (if existed then 0 else 1)])
                db1)
  else Err (IntegrityError "FOREIGN KEY constraint failed").

(** The loop [for _, r in df.iterrows()] of [import_students], with the
    counter [n]. *)
Fixpoint students_loop (df : DataFrame) (upload_id : Z) (rs : list (list cell))
    (db : DB) (n : Z) : res (DB * Z) :=
  match rs with
  | [] => Ok (db, n)
  | r :: rest =>
      o <- student_of_row df r;;
      match o with
      | None => students_loop df upload_id rest db n
      | Some s =>
          db' <- apply_student upload_id s db;;
          students_loop df upload_id rest db' (n + 1)
      end
  end.

(** [import_students(df, upload_id)]: the transaction commits only when the
    loop ends without an exception; [bump_rowcount] runs after it. *)
Definition import_students (df : DataFrame) (upload_id : Z) (db : DB) : res DB :=
  let df := students_frame df in
  _ <- require_columns "Students" students_required df;;
  st <- students_loop df upload_id (iterrows df) db 0;;
  Ok (bump_rowcount upload_id (snd st) (fst st)).

(** One row of an Attendance frame. *)
Definition attendance_of_row (df : DataFrame) (upload_id : Z) (r : list cell)
    : res (option attendance_row) :=
  roll <- text df r "roll_no";;
  subj <- text df r "subject";;
  if String.eqb roll "" || String.eqb subj "" then Ok None
  else
    ca <- getitem df r "attended";;
    attended <- count_int ca;;
    ct <- getitem df r "total";;
    total <- count_int ct;;
    semester <- optional_int df r "semester";;
    Ok (Some {| at_roll_no := roll;
                at_subject := subj;
                at_attended := attended;
                at_total := total;
                at_semester := semester;
                at_source_upload_id := Some upload_id |}).

(** The upsert of one Attendance row. A new row must reference an existing
    student, and the upload it names must exist. *)
Definition apply_attendance (a : attendance_row) (db : DB) : res DB :=
  _ <- Py.sqlite_int (at_attended a);;
  _ <- Py.sqlite_int (at_total a);;
  _ <- Py.sqlite_int_opt (at_semester a);;
  let parent_ok :=
    match at_source_upload_id a with
    | Some u => upload_exists u db
    | None => true
    end in
  let known :=
    existsb (same_attendance (at_roll_no a) (at_subject a)) (attendance db) in
  if parent_ok && (known || student_exists (at_roll_no a) db) then
    Ok (set_attendance (upsert_attendance a (attendance db)) db)
  else Err (IntegrityError "FOREIGN KEY constraint failed").

Fixpoint attendance_loop (df : DataFrame) (upload_id : Z)
    (rs : list (list cell)) (db : DB) (n : Z) : res (DB * Z) :=
  match rs with
  | [] => Ok (db, n)
  | r :: rest =>
      o <- attendance_of_row df upload_id r;;
      match o with
      | None => attendance_loop df upload_id rest db n
      | Some a =>
          db' <- apply_attendance a db;;
          attendance_loop df upload_id rest db' (n + 1)
      end
  end.

(** [import_attendance(df, upload_id)] *)
Definition import_attendance (df : DataFrame) (upload_id : Z) (db : DB)
    : res DB :=
  let df := attendance_frame df in
  _ <- require_columns "Attendance" attendance_required df;;
  st <- attendance_loop df upload_id (iterrows df) db 0;;
  Ok (bump_rowcount upload_id (snd st) (fst st)).

(** One row of a Marks frame. *)
Definition marks_of_row (df : DataFrame) (upload_id : Z) (r : list cell)
    : res (option marks_row) :=
  roll <- text df r "roll_no";;
  exam <- text df r "exam";;
  subj <- text df r "subject";;
  if String.eqb roll "" || String.eqb exam "" || String.eqb subj "" then Ok None
  else
    cm <- getitem df r "max_marks";;
    maxm <- count_int cm;;
    cg <- getitem df r "marks_obtained";;
    got <- count_int cg;;
    credits <- optional_int df r "credits";;
    semester <- optional_int df r "semester";;
    Ok (Some {| mk_roll_no := roll;
                mk_exam := exam;
                mk_subject := subj;
                mk_max_marks := maxm;
                mk_marks_obtained := got;
                mk_credits := credits;
                mk_semester := semester;
                mk_source_upload_id := Some upload_id |}).

Definition apply_marks (m : marks_row) (db : DB) : res DB :=
  _ <- Py.sqlite_int (mk_max_marks m);;
  _ <- Py.sqlite_int (mk_marks_obtained m);;
  _ <- Py.sqlite_int_opt (mk_credits m);;
  _ <- Py.sqlite_int_opt (mk_semester m);;
  let parent_ok :=
    match mk_source_upload_id m with
    | Some u => upload_exists u db
    | None => true
    end in
  let known :=
    existsb (same_marks (mk_roll_no m) (mk_exam m) (mk_subject m)) (marks db) in
  if parent_ok && (known || student_exists (mk_roll_no m) db) then
    Ok (set_marks (upsert_marks m (marks db)) db)
  else Err (IntegrityError "FOREIGN KEY constraint failed").

Fixpoint marks_loop (df : DataFrame) (upload_id : Z) (rs : list (list cell))
    (db : DB) (n : Z) : res (DB * Z) :=
  match rs with
  | [] => Ok (db, n)
  | r :: rest =>
      o <- marks_of_row df upload_id r;;
      match o with
      | None => marks_loop df upload_id rest db n
      | Some m =>
          db' <- apply_marks m db;;
          marks_loop df upload_id rest db' (n + 1)
      end
  end.

(** [import_marks(df, upload_id)] *)
Definition import_marks (df : DataFrame) (upload_id : Z) (db : DB) : res DB :=
  let df := marks_frame df in
  _ <- require_columns "Marks" marks_required df;;
  st <- marks_loop df upload_id (iterrows df) db 0;;
  Ok (bump_rowcount upload_id (snd st) (fst st)).

End WithBuiltins.

(** [delete_upload(upload_id)]. The DELETE on [students] cascades to the
    attendance, marks and remarks rows of the deleted students (ON DELETE
    CASCADE); the DELETE on [uploads] cascades to [upload_students_map] and
    nulls the [source_upload_id] that still names the upload. *)
Definition created_rolls (upload_id : Z) (db : DB) : list string :=
  map mp_roll_no
      (filter (fun m => (mp_upload_id m =? upload_id) && (mp_created_new m =? 1))
              (upload_students_map db)).

Definition delete_students (rolls : list string) (db : DB) : DB :=
  let keep (roll : string) := negb (mem roll rolls) in
  mkDB (uploads db) (uploads_seq db)
       (filter (fun s => keep (st_roll_no s)) (students db))
       (upload_students_map db)
       (filter (fun a => keep (at_roll_no a)) (attendance db))
       (filter (fun m => keep (mk_roll_no m)) (marks db))
       (filter (fun r => keep (rm_roll_no r)) (remarks db)).

Definition null_source_a (upload_id : Z) (a : attendance_row) : attendance_row :=
  if eq_opt (at_source_upload_id a) upload_id then
    mkAttendance (at_roll_no a) (at_subject a) (at_attended a) (at_total a)
                 (at_semester a) None
  else a.

Definition null_source_m (upload_id : Z) (m : marks_row) : marks_row :=
  if eq_opt (mk_source_upload_id m) upload_id then
    mkMarks (mk_roll_no m) (mk_exam m) (mk_subject m) (mk_max_marks m)
            (mk_marks_obtained m) (mk_credits m) (mk_semester m) None
  else m.

Definition delete_uploads_row (upload_id : Z) (db : DB) : DB :=
  mkDB (filter (fun u => negb (up_id u =? upload_id)) (uploads db))
       (uploads_seq db)
       (students db)
       (filter (fun m => negb (mp_upload_id m =? upload_id))
               (upload_students_map db))
       (map (null_source_a upload_id) (attendance db))
       (map (null_source_m upload_id) (marks db))
       (remarks db).

Section Rollback.
Context {B : Py.Builtins}.

(** The result is what the call returns or raises, with the store it
    leaves: an exception leaves the [with] block before [commit], so the
    store is the one before the call. The first SELECT binds [upload_id],
    which raises [OverflowError] outside 64 bits; the DELETE on [students]
    binds one parameter per created student, and SQLite refuses a
    statement with more than SQLITE_MAX_VARIABLE_NUMBER of them. *)
Definition delete_upload (upload_id : Z) (db : DB) : res bool * DB :=
  match Py.sqlite_int upload_id with
  | Err e => (Err e, db)
  | Ok _ =>
      match find_upload upload_id db with
      | None => (Ok false, db)
      | Some _ =>
          let db1 :=
            set_attendance
              (filter (fun a => negb (eq_opt (at_source_upload_id a) upload_id))
                      (attendance db)) db in
          let db2 :=
            set_marks
              (filter (fun m => negb (eq_opt (mk_source_upload_id m) upload_id))
                      (marks db1)) db1 in
          let created := created_rolls upload_id db2 in
          let deleted :=
            match created with
            | [] => Ok db2
            | _ =>
                if (Py.max_variable_number <? N.of_nat (List.length created))%N
                then Err (OperationalError "too many SQL variables")
                else Ok (delete_students created db2)
            end in
          match deleted with
          | Err e => (Err e, db)
          | Ok db3 =>
              let db4 :=
                set_map (filter (fun m => negb (mp_upload_id m =? upload_id))
                                (upload_students_map db3)) db3 in
              (Ok true, delete_uploads_row upload_id db4)
          end
      end
  end.

End Rollback.

End Importers.

(** ** Wide views *)

Module Grid.
Import Store.

Section Sorting.
Context {A : Type} (leb : A -> A -> bool).

Fixpoint insert (x : A) (l : list A) : list A :=
  match l with
  | [] => [x]
  | y :: l' => if leb x y then x :: l else y :: insert x l'
  end.

(** A stable sort. *)
Definition sort (l : list A) : list A := fold_right insert [] l.

End Sorting.

(** [ORDER BY exam, subject] *)
Definition exam_subject_leb (a b : marks_row) : bool :=
  match String.compare (mk_exam a) (mk_exam b) with
  | Lt => true
  | Gt => false
  | Eq => String.leb (mk_subject a) (mk_subject b)
  end.

(** [SELECT exam, subject, max_marks, marks_obtained FROM marks
     WHERE roll_no=? ORDER BY exam, subject] *)
Definition marks_of (roll : string) (db : DB) : list marks_row :=
  sort exam_subject_leb
       (filter (fun m => String.eqb (mk_roll_no m) roll) (marks db)).

(** [sorted({r["subject"] for r in rows})] *)
Definition sorted_set (l : list string) : list string :=
  sort String.leb (nodup string_dec l).

(** The loop that collects the exams in first-seen order. *)
Definition first_seen (l : list string) : list string :=
  fold_left (fun acc e => if Frame.mem e acc then acc else (acc ++ [e])%list)
            l [].

(** A Python dict with string keys, in insertion order. *)
Definition dict : Type := list (string * string).

Fixpoint dict_set (k v : string) (d : dict) : dict :=
  match d with
  | [] => [(k, v)]
  | (k', v') :: d' =>
      if String.eqb k' k then (k', v) :: d' else (k', v') :: dict_set k v d'
  end.

Fixpoint dict_get (k : string) (d : dict) : option string :=
  match d with
  | [] => None
  | (k', v') :: d' => if String.eqb k' k then Some v' else dict_get k d'
  end.

(** The string literal of line 351, byte for byte: c3 a2, e2 82 ac,
    e2 80 9d. *)
Definition placeholder : string :=
  string_of_list_ascii
    (map ascii_of_nat [195; 162; 226; 130; 172; 226; 128; 157]%nat).

(** An em dash (U+2014) in UTF-8: e2 80 94. *)
Definition em_dash : string :=
  string_of_list_ascii (map ascii_of_nat [226; 128; 148]%nat).

(** [f"{letter_grade(pct)} ({r['marks_obtained']}/{r['max_marks']})"] *)
Definition render (r : marks_row) : string :=
  Grade.letter_grade (Grade.percentage (mk_marks_obtained r) (mk_max_marks r))
  ++ " (" ++ Py.str_of_Z (mk_marks_obtained r) ++ "/"
  ++ Py.str_of_Z (mk_max_marks r) ++ ")".

Definition cell_of (rows : list marks_row) (ex sub : string) : string :=
  match filter (fun r => String.eqb (mk_exam r) ex && String.eqb (mk_subject r) sub)
               rows with
  | r :: _ => render r
  | [] => placeholder
  end.

Definition grid_row (rows : list marks_row) (subjects : list string)
    (ex : string) : dict :=
  fold_left (fun row sub => dict_set sub (cell_of rows ex sub) row)
            subjects [("Exam", ex)].

(** [build_marks_grid(roll)] *)
Definition build_marks_grid (roll : string) (db : DB)
    : list string * list dict :=
  let rows := marks_of roll db in
  match rows with
  | [] => ([], [])
  | _ =>
      let subjects := sorted_set (map mk_subject rows) in
      let exams := first_seen (map mk_exam rows) in
      ("Exam" :: subjects, map (grid_row rows subjects) exams)
  end.

End Grid.

(** ** The attendance view *)

Module AttendanceGrid.
Import Store Grid.

(** The integer nearest to [m * 2^e], the even one of two that are equally
    near. *)
Definition round_half_even (m : positive) (e : Z) : Z :=
  if 0 <=? e then Z.shiftl (Zpos m) e
  else
    let d := Z.shiftl 1 (- e) in
    let q := Zpos m / d in
    let r := Zpos m mod d in
    match 2 * r ?= d with
    | Lt => q
    | Gt => q + 1
    | Eq => if Z.even q then q else q + 1
    end.

(** [f"{x:.0f}"] for a float: the nearest integer in decimal, ties to
    even, with the sign of the float, also before a zero. *)
Definition format_0f (x : float) : string :=
  match Prim2SF x with
  | S754_zero s => if s then "-0" else "0"
  | S754_infinity s => if s then "-inf" else "inf"
  | S754_nan => "nan"
  | S754_finite s m e =>
      (if s then "-" else "") ++ Py.str_of_Z (round_half_even m e)
  end.

Definition subject_leb (a b : attendance_row) : bool :=
  String.leb (at_subject a) (at_subject b).

(** [SELECT subject, attended, total FROM attendance WHERE roll_no=?
     ORDER BY subject] *)
Definition attendance_of (roll : string) (db : DB) : list attendance_row :=
  sort subject_leb
       (filter (fun a => String.eqb (at_roll_no a) roll) (attendance db)).

(** [f"{r['attended']}/{r['total']} ({pct:.0f}%)"], with
    [pct = (100.0 * r["attended"] / r["total"]) if r["total"] else 0.0]. *)
Definition render (r : attendance_row) : string :=
  Py.str_of_Z (at_attended r) ++ "/" ++ Py.str_of_Z (at_total r) ++ " (" ++
  format_0f (Grade.percentage (at_attended r) (at_total r)) ++ "%)".

(** The dict [row] after the loop over the rows. *)
Definition attendance_row_of (rows : list attendance_row) : dict :=
  fold_left (fun row r => dict_set (at_subject r) (render r) row) rows
            [("Row", "Attendance")].

(** [build_attendance_grid(roll)] *)
Definition build_attendance_grid (roll : string) (db : DB)
    : list string * list dict :=
  let rows := attendance_of roll db in
  match rows with
  | [] => ([], [])
  | _ => ("Row" :: map at_subject rows, [attendance_row_of rows])
  end.

End AttendanceGrid.

(** ** Routes *)

Module Routes.
Import Frame Store Importers.

(** The uploaded file as the route sees it: its client file name, the name
    [save_upload] stores it under (a timestamp and the secured name), and
    what [load_table] makes of the stored file. *)
Record FileStorage : Type := mkFile {
  filename : string;
  saved_name : string;
  loaded : res DataFrame
}.

(** What a request carries: the session, the clock, and the posted file. *)
Record Request : Type := mkRequest {
  session_role : option string;
  session_username : option string;
  now : string;
  posted : option FileStorage
}.

(** A flashed message with its category. *)
Definition flash : Type := (string * string)%type.

Definition is_admin (rq : Request) : bool :=
  match session_role rq with
  | Some r => String.eqb r "admin"
  | None => false
  end.

(** [session.get("username", "admin")] *)
Definition actor (rq : Request) : string :=
  match session_username rq with
  | Some u => u
  | None => "admin"
  end.

(** [str(e)] *)
Definition exn_text (e : exn) : string :=
  match e with
  | ValueError m => m
  | OverflowError m => m
  | KeyError l => "'" ++ l ++ "'"
  | IntegrityError m => m
  | OperationalError m => m
  end.

(** [os.path.splitext(p)[1]] on POSIX paths: the text from the last dot of
    the last path component, unless only dots precede it there. *)
Fixpoint ext_scan (s : list ascii) (seen_name : bool) (ext : option (list ascii))
    : list ascii :=
  match s with
  | [] => match ext with Some e => e | None => [] end
  | c :: s' =>
      if Ascii.eqb c "/" then ext_scan s' false None
      else if Ascii.eqb c "." then
        if seen_name then ext_scan s' true (Some [c])
        else ext_scan s' false None
      else ext_scan s' true (option_map (fun e => (e ++ [c])%list) ext)
  end.

Definition splitext_ext (p : string) : string :=
  string_of_list_ascii (ext_scan (list_ascii_of_string p) false None).

Section WithBuiltins.
Context {B : Py.Builtins}.

Definition allowed_ext (name : string) : bool :=
  let ext := Py.lower (splitext_ext name) in
  String.eqb ext ".xlsx" || String.eqb ext ".csv".

(** The body shared by the three upload routes: [save_upload],
    [create_upload_record], [load_table] and the importer inside one
    [try]; any exception is flashed and the store keeps what was committed
    before it. *)
Definition upload_with (kind choose : string)
    (importer : DataFrame -> Z -> DB -> res DB)
    (rq : Request) (db : DB) : DB * option flash :=
  if negb (is_admin rq) then (db, None)
  else
    match posted rq with
    | None => (db, Some (choose, "error"))
    | Some f =>
        if String.eqb (filename f) "" then (db, Some (choose, "error"))
        else if negb (allowed_ext (filename f)) then
          (db, Some ("Import failed (" ++ kind ++ "): Only .xlsx or .csv allowed.",
                     "error"))
        else
          let '(created, db1) :=
            create_upload_record (saved_name f) kind (now rq) (actor rq) db in
          match up_id <- created;; df <- loaded f;; importer df up_id db1 with
          | Ok db2 =>
              (db2, Some (kind ++ " imported/updated successfully.", "success"))
          | Err e =>
              (db1, Some ("Import failed (" ++ kind ++ "): " ++ exn_text e,
                          "error"))
          end
    end.

Definition upload_students : Request -> DB -> DB * option flash :=
  upload_with "Students" "Choose a Students Excel/CSV file." import_students.

Definition upload_attendance : Request -> DB -> DB * option flash :=
  upload_with "Attendance" "Choose an Attendance Excel/CSV file."
              import_attendance.

Definition upload_marks : Request -> DB -> DB * option flash :=
  upload_with "Marks" "Choose a Marks Excel/CSV file." import_marks.

(** [delete_upload_route]. The route catches nothing: when
    [delete_upload] raises, the request ends in an error page and nothing
    is flashed. *)
Definition delete_upload_route (rq : Request) (upload_id : Z) (db : DB)
    : DB * option flash :=
  if negb (is_admin rq) then (db, None)
  else
    let '(ok, db') := delete_upload upload_id db in
    (db', match ok with
          | Ok true => Some ("Upload deleted and data rolled back.", "success")
          | Ok false => Some ("Upload not found.", "error")
          | Err _ => None
          end).

(** [add_remark]: the INSERT references [students]; for an unknown roll
    number it raises and nothing is stored. *)
Definition add_remark (rq : Request) (roll_no remark : string) (db : DB) : DB :=
  let text := Py.strip remark in
  if String.eqb text "" then db
  else if student_exists roll_no db then
    set_remarks (remarks db ++ [mkRemark roll_no text (actor rq) (now rq)]) db
  else db.

(** The requests that change the store. *)
Inductive action : Type :=
| UploadStudents (rq : Request)
| UploadAttendance (rq : Request)
| UploadMarks (rq : Request)
| DeleteUpload (rq : Request) (upload_id : Z)
| AddRemark (rq : Request) (roll_no remark : string).

Definition run (a : action) (db : DB) : DB :=
  match a with
  | UploadStudents rq => fst (upload_students rq db)
  | UploadAttendance rq => fst (upload_attendance rq db)
  | UploadMarks rq => fst (upload_marks rq db)
  | DeleteUpload rq id => fst (delete_upload_route rq id db)
  | AddRemark rq roll remark => add_remark rq roll remark db
  end.

Definition run_all (l : list action) (db : DB) : DB :=
  fold_left (fun d a => run a d) l db.

(** The stores the program can be in: those it reaches from the empty
    schema by its requests. *)
Inductive reachable : DB -> Prop :=
| reach_init : reachable empty_db
| reach_step a db : reachable db -> reachable (run a db).

End WithBuiltins.

End Routes.

(** ** An instance of the interpreter's conversions

    [float] of a string is implemented for decimal literals: an optional
    sign, digits with an optional fraction and an optional exponent, or
    [inf], [infinity], [nan]; the value is the nearest binary64. Digit
    separators ([1_000]) are not read. [repr] prints the exact decimal
    expansion of the value, which is CPython's output for NaN, the
    infinities and the integral values below 10^16 (CPython prints the
    shortest decimal that reads back as the same float). [strip] removes
    the characters of [str.isspace] from both ends of a UTF-8 text;
    [lower] lowers the letters A to Z and keeps every other byte, which is
    [str.lower] on ASCII text. The host-parameter limit is that of SQLite
    3.32 and later. The theorems below hold for every instance; the
    examples are run with this one. *)

Module Literal.

(** The white space of one byte: U+0009 to U+000D, U+001C to U+0020. *)
Definition space1 (c : ascii) : bool :=
  let n := N_of_ascii c in
  ((9 <=? n) && (n <=? 13) || (28 <=? n) && (n <=? 32))%N.

(** The white space of two bytes: U+0085 and U+00A0 (c2 85, c2 a0). *)
Definition space2 (c1 c2 : ascii) : bool :=
  let n1 := N_of_ascii c1 in
  let n2 := N_of_ascii c2 in
  ((n1 =? 194) && ((n2 =? 133) || (n2 =? 160)))%N.

(** The white space of three bytes: U+1680 (e1 9a 80), U+2000 to U+200A
    (e2 80 80 to e2 80 8a), U+2028, U+2029, U+202F (e2 80 a8, a9, af),
    U+205F (e2 81 9f) and U+3000 (e3 80 80). *)
Definition space3 (c1 c2 c3 : ascii) : bool :=
  let n1 := N_of_ascii c1 in
  let n2 := N_of_ascii c2 in
  let n3 := N_of_ascii c3 in
  ((n1 =? 225) && (n2 =? 154) && (n3 =? 128) ||
   (n1 =? 226) && (n2 =? 128) &&
     ((128 <=? n3) && (n3 <=? 138) || (n3 =? 168) || (n3 =? 169) ||
      (n3 =? 175)) ||
   (n1 =? 226) && (n2 =? 129) && (n3 =? 159) ||
   (n1 =? 227) && (n2 =? 128) && (n3 =? 128))%N.

(** [s.lstrip()] on the bytes of [s]. *)
Fixpoint lstrip (s : list ascii) : list ascii :=
  match s with
  | c1 :: s1 =>
      if space1 c1 then lstrip s1
      else
        match s1 with
        | c2 :: s2 =>
            if space2 c1 c2 then lstrip s2
            else
              match s2 with
              | c3 :: s3 => if space3 c1 c2 c3 then lstrip s3 else s
              | [] => s
              end
        | [] => s
        end
  | [] => []
  end.

(** [s.rstrip()] on the bytes of [s] in reverse order. *)
Fixpoint rstrip_rev (s : list ascii) : list ascii :=
  match s with
  | c1 :: s1 =>
      if space1 c1 then rstrip_rev s1
      else
        match s1 with
        | c2 :: s2 =>
            if space2 c2 c1 then rstrip_rev s2
            else
              match s2 with
              | c3 :: s3 => if space3 c3 c2 c1 then rstrip_rev s3 else s
              | [] => s
              end
        | [] => s
        end
  | [] => []
  end.

(** [s.strip()] *)
Definition strip (s : string) : string :=
  string_of_list_ascii
    (lstrip (rev (rstrip_rev (rev (list_ascii_of_string s))))).

Definition lower_char (c : ascii) : ascii :=
  let n := N_of_ascii c in
  if ((65 <=? n) && (n <=? 90))%N then ascii_of_N (n + 32) else c.

(** [s.lower()] on ASCII text. *)
Fixpoint lower (s : string) : string :=
  match s with
  | String c s' => String (lower_char c) (lower s')
  | EmptyString => EmptyString
  end.

Definition digit (c : ascii) : option Z :=
  let n := N_of_ascii c in
  if ((48 <=? n) && (n <=? 57))%N then Some (Z.of_N n - 48) else None.

(** Reads a run of digits: the number read after [acc], the count of
    digits added to [n], and what follows. *)
Fixpoint digits (s : list ascii) (acc n : Z) : Z * Z * list ascii :=
  match s with
  | c :: s' =>
      match digit c with
      | Some d => digits s' (10 * acc + d) (n + 1)
      | None => (acc, n, s)
      end
  | [] => (acc, n, [])
  end.

Definition sign (s : list ascii) : bool * list ascii :=
  match s with
  | c :: s' =>
      if Ascii.eqb c "-" then (true, s')
      else if Ascii.eqb c "+" then (false, s')
      else (false, s)
  | [] => (false, s)
  end.

(** The binary64 nearest to [m * 10 ^ e10], for [0 <= m]. *)
Definition scaled (neg : bool) (m e10 : Z) : float :=
  if m =? 0 then (if neg then (-0)%float else 0%float)
  else if 0 <=? e10 then
    SF2Prim (binary_normalize prec emax ((if neg then - m else m) * 10 ^ e10)
                              0 false)
  else
    let '(q, e, l) := SFdiv_core_binary prec emax m 0 (10 ^ (- e10)) 0 in
    SF2Prim (binary_round_aux prec emax neg q e l).

Definition float_of_str (s : string) : option float :=
  let '(neg, s1) := sign (list_ascii_of_string (strip s)) in
  let low := lower (string_of_list_ascii s1) in
  if String.eqb low "inf" || String.eqb low "infinity" then
    Some (if neg then neg_infinity else infinity)
  else if String.eqb low "nan" then Some nan
  else
    let '(m1, n1, s2) := digits s1 0 0 in
    let '(m2, n2, s3) :=
      match s2 with
      | c :: t => if Ascii.eqb c "." then digits t m1 0 else (m1, 0, s2)
      | [] => (m1, 0, s2)
      end in
    if n1 + n2 =? 0 then None
    else
      match s3 with
      | [] => Some (scaled neg m2 (- n2))
      | c :: t =>
          if Ascii.eqb c "e" || Ascii.eqb c "E" then
            let '(eneg, t1) := sign t in
            let '(x, nx, t2) := digits t1 0 0 in
            match t2 with
            | [] => if nx =? 0 then None
                    else Some (scaled neg m2 ((if eneg then - x else x) - n2))
            | _ :: _ => None
            end
          else None
      end.

Fixpoint zeros (n : nat) : string :=
  match n with
  | O => EmptyString
  | S n' => String "0" (zeros n')
  end.

Fixpoint drop_trailing_zeros (s : string) : string :=
  match s with
  | String c s' =>
      match drop_trailing_zeros s' with
      | EmptyString => if Ascii.eqb c "0" then EmptyString
                       else String c EmptyString
      | r => String c r
      end
  | EmptyString => EmptyString
  end.

(** The [k] digits of the fraction [n / 10 ^ k], without trailing zeros. *)
Definition fraction (n : Z) (k : nat) : string :=
  let d := Py.str_of_Z n in
  drop_trailing_zeros (zeros (k - String.length d) ++ d).

Definition float_repr (f : float) : string :=
  match Prim2SF f with
  | S754_nan => "nan"
  | S754_infinity s => if s then "-inf" else "inf"
  | S754_zero s => if s then "-0.0" else "0.0"
  | S754_finite s m e =>
      let sgn := if s then "-" else "" in
      if 0 <=? e then sgn ++ Py.str_of_Z (Zpos m * 2 ^ e) ++ ".0"
      else
        let k := - e in
        let ip := Zpos m / 2 ^ k in
        let fp := Zpos m mod 2 ^ k in
        if fp =? 0 then sgn ++ Py.str_of_Z ip ++ ".0"
        else sgn ++ Py.str_of_Z ip ++ "." ++ fraction (fp * 5 ^ k) (Z.to_nat k)
  end.

#[export] Instance builtins : Py.Builtins :=
  {| Py.float_repr := float_repr;
     Py.float_of_str := float_of_str;
     Py.strip := strip;
     Py.lower := lower;
     Py.max_variable_number := 32766%N;
     Py.max_variable_number_fixed := eq_refl |}.

End Literal.

(** * Vocabulary of the properties *)

Section Vocabulary.
Import Frame Store Importers Routes.
Context {B : Py.Builtins}.

(** Every non-NaN value has a rank in a lexicographic order on triples. *)
Definition sf_key (x : spec_float) : Z * Z * Z :=
  match x with
  | S754_zero _ => (0, 0, 0)
  | S754_infinity true => (-2, 0, 0)
  | S754_infinity false => (2, 0, 0)
  | S754_nan => (0, 0, 0)
  | S754_finite true m e => (-1, - e, - Zpos m)
  | S754_finite false m e => (1, e, Zpos m)
  end.

Definition lex3 (p q : Z * Z * Z) : comparison :=
  let '(a1, b1, c1) := p in
  let '(a2, b2, c2) := q in
  match a1 ?= a2 with
  | Eq => match b1 ?= b2 with
          | Eq => c1 ?= c2
          | r => r
          end
  | r => r
  end.

Definition sf_is_nan (x : spec_float) : bool :=
  match x with S754_nan => true | _ => false end.

Definition in_band (lo hi pct : float) : bool :=
  ((lo <=? pct) && (pct <? hi))%float.

(** What the conflict clause of the attendance upsert stores. *)
Definition merge_attendance (new : attendance_row)
    (cur : option attendance_row) : attendance_row :=
  match cur with
  | Some old =>
      {| at_roll_no := at_roll_no old;
         at_subject := at_subject old;
         at_attended := at_attended new;
         at_total := at_total new;
         at_semester := coalesce (at_semester new) (at_semester old);
         at_source_upload_id := at_source_upload_id new |}
  | None => new
  end.

Definition merge_marks (new : marks_row) (cur : option marks_row) : marks_row :=
  match cur with
  | Some old =>
      {| mk_roll_no := mk_roll_no old;
         mk_exam := mk_exam old;
         mk_subject := mk_subject old;
         mk_max_marks := mk_max_marks new;
         mk_marks_obtained := mk_marks_obtained new;
         mk_credits := coalesce (mk_credits new) (mk_credits old);
         mk_semester := coalesce (mk_semester new) (mk_semester old);
         mk_source_upload_id := mk_source_upload_id new |}
  | None => new
  end.

(** The first required column the frame lacks. *)
Definition first_missing (required : list string) (df : DataFrame)
    : option string :=
  find (fun c => negb (mem c (columns df))) required.

(** The row stored under [k] by the rows [rs], after [acc]: the last one
    whose roll number is [k]. *)
Fixpoint last_written (df : DataFrame) (k : string) (rs : list (list cell))
    (acc : option student_row) : option student_row :=
  match rs with
  | [] => acc
  | r :: rest =>
      match student_of_row df r with
      | Ok (Some s) =>
          last_written df k rest
                       (if String.eqb (st_roll_no s) k then Some s else acc)
      | _ => last_written df k rest acc
      end
  end.

(** The row stored under a key by the rows [rs], after [acc]. *)
Fixpoint written_attendance (df : DataFrame) (uid : Z) (roll subj : string)
    (rs : list (list cell)) (acc : option attendance_row)
    : option attendance_row :=
  match rs with
  | [] => acc
  | r :: rest =>
      match attendance_of_row df uid r with
      | Ok (Some a) =>
          written_attendance df uid roll subj rest
            (if same_attendance roll subj a
             then Some (merge_attendance a acc) else acc)
      | _ => written_attendance df uid roll subj rest acc
      end
  end.

Fixpoint written_marks (df : DataFrame) (uid : Z) (roll exam subj : string)
    (rs : list (list cell)) (acc : option marks_row) : option marks_row :=
  match rs with
  | [] => acc
  | r :: rest =>
      match marks_of_row df uid r with
      | Ok (Some m) =>
          written_marks df uid roll exam subj rest
            (if same_marks roll exam subj m
             then Some (merge_marks m acc) else acc)
      | _ => written_marks df uid roll exam subj rest acc
      end
  end.

Definition int64 (z : Z) : Prop := - 2 ^ 63 <= z < 2 ^ 63.

(** The attendance table is well formed: one row per (roll, subject), the
    counts within SQLite's integers. *)
Definition attendance_ok (l : list attendance_row) : Prop :=
  NoDup (map attendance_key l) /\
  Forall (fun a => int64 (at_attended a) /\ int64 (at_total a)) l.

(** Every id in the ledger and in the provenance map was given out by the
    AUTOINCREMENT counter. *)
Definition ids_ok (db : DB) : Prop :=
  (forall u, In u (uploads db) -> up_id u <= uploads_seq db) /\
  (forall m, In m (upload_students_map db) -> mp_upload_id m <= uploads_seq db).

Definition store_ok (db : DB) : Prop :=
  ids_ok db /\ attendance_ok (attendance db).

(** The provenance rows an import adds: all carry the import's upload id,
    and one flagged [created_new] names a roll number the store did not
    hold before the import. *)
Definition map_added (uid : Z) (db db' : DB) : Prop :=
  exists added,
    upload_students_map db' = (upload_students_map db ++ added)%list /\
    Forall (fun m => mp_upload_id m = uid /\
                     (mp_created_new m = 1 ->
                      student_exists (mp_roll_no m) db = false)) added.

(** What an importer may change. *)
Definition import_effect (uid : Z) (db db' : DB) : Prop :=
  uploads_seq db' = uploads_seq db /\
  map up_id (uploads db') = map up_id (uploads db) /\
  map_added uid db db' /\
  (attendance_ok (attendance db) -> attendance_ok (attendance db')).

(** The store a rollback leaves, table by table. [kept] tells whether a
    roll number is not among the students the upload created. *)
Definition after_rollback (uid : Z) (db : DB) : DB :=
  let kept (roll : string) := negb (mem roll (created_rolls uid db)) in
  mkDB (filter (fun u => negb (up_id u =? uid)) (uploads db))
       (uploads_seq db)
       (filter (fun s => kept (st_roll_no s)) (students db))
       (filter (fun m => negb (mp_upload_id m =? uid)) (upload_students_map db))
       (filter (fun a => kept (at_roll_no a))
               (filter (fun a => negb (eq_opt (at_source_upload_id a) uid))
                       (attendance db)))
       (filter (fun m => kept (mk_roll_no m))
               (filter (fun m => negb (eq_opt (mk_source_upload_id m) uid))
                       (marks db)))
       (filter (fun r => kept (rm_roll_no r)) (remarks db)).

(** What one request may do to a well-formed store: the result is well
    formed, the id counter does not go back, and a provenance row that is
    new carries the next upload id and, when flagged [created_new], a roll
    number the store did not hold. *)
Definition step_ok (db db' : DB) : Prop :=
  store_ok db' /\
  uploads_seq db <= uploads_seq db' /\
  (forall m, In m (upload_students_map db') ->
             In m (upload_students_map db) \/
             (mp_upload_id m = uploads_seq db + 1 /\
              (mp_created_new m = 1 ->
               student_exists (mp_roll_no m) db = false))).

(** The marks rows of a student. *)
Definition has_mark (roll : string) (db : DB) (m : marks_row) : Prop :=
  In m (marks db) /\ mk_roll_no m = roll.

(** Strictly increasing, in the order of the bytes. *)
Definition increasing : list string -> Prop :=
  StronglySorted (fun a b => String.ltb a b = true).


(** The ledger after [n] more rows were counted for upload [uid]. *)
Definition counted (uid n : Z) (l : list upload_row) : list upload_row :=
  map (fun u => if up_id u =? uid
                then mkUpload (up_id u) (up_filename u) (up_upload_type u)
                              (up_row_count u + n) (up_created_at u)
                              (up_uploader_username u)
                else u) l.

(** Every attendance and marks row belongs to a student of the store, as
    the foreign keys demand. *)
Definition children_ok (db : DB) : Prop :=
  (forall a, In a (attendance db) -> student_exists (at_roll_no a) db = true) /\
  (forall m, In m (marks db) -> student_exists (mk_roll_no m) db = true).

(** The ledger lists the uploads by increasing id, and no id exceeds the
    AUTOINCREMENT counter. *)
Definition ledger_ok (db : DB) : Prop :=
  StronglySorted Z.lt (map up_id (uploads db)) /\
  (forall u, In u (uploads db) -> 1 <= up_id u <= uploads_seq db) /\
  0 <= uploads_seq db.

(** What one request may do to the ledger: the records it leaves are
    records it found, but for a new one under the next id. *)
Definition ledger_step (db db' : DB) : Prop :=
  ledger_ok db' /\
  uploads_seq db <= uploads_seq db' /\
  (forall u, In u (uploads db') ->
             In u (uploads db) \/ up_id u = uploads_seq db + 1).

(** One student per roll number; one marks row per (roll, exam, subject),
    its two marks within SQLite's integers. *)
Definition marks_ok (l : list marks_row) : Prop :=
  NoDup (map marks_key l) /\
  Forall (fun m => int64 (mk_max_marks m) /\ int64 (mk_marks_obtained m)) l.

Definition keys_ok (db : DB) : Prop :=
  NoDup (map st_roll_no (students db)) /\ marks_ok (marks db).

(** No reference dangles: a provenance row and a non-null
    [source_upload_id] name an upload of the ledger, a remark names a
    student. *)
Definition refs_ok (db : DB) : Prop :=
  (forall m, In m (upload_students_map db) ->
             upload_exists (mp_upload_id m) db = true) /\
  (forall a u, In a (attendance db) -> at_source_upload_id a = Some u ->
               upload_exists u db = true) /\
  (forall m u, In m (marks db) -> mk_source_upload_id m = Some u ->
               upload_exists u db = true) /\
  (forall r, In r (remarks db) -> student_exists (rm_roll_no r) db = true).

(** The attendance and marks rows whose source is upload [uid]. *)
Definition written_by_a (uid : Z) (l : list attendance_row)
    : list attendance_row :=
  filter (fun b => eq_opt (at_source_upload_id b) uid) l.

Definition written_by_m (uid : Z) (l : list marks_row) : list marks_row :=
  filter (fun b => eq_opt (mk_source_upload_id b) uid) l.

(** The rows of [l] under whose key [w] holds no row. *)
Definition untouched_a (w l : list attendance_row) : list attendance_row :=
  filter (fun a => negb (existsb (same_attendance (at_roll_no a) (at_subject a))
                                 w)) l.

Definition untouched_m (w l : list marks_row) : list marks_row :=
  filter (fun m => negb (existsb (same_marks (mk_roll_no m) (mk_exam m)
                                             (mk_subject m)) w)) l.

(** The upload id that the next accepted upload gets is in no row of the
    store. *)
Definition fresh (uid : Z) (db : DB) : Prop :=
  (forall u, In u (uploads db) -> up_id u <> uid) /\
  (forall m, In m (upload_students_map db) -> mp_upload_id m <> uid) /\
  (forall a, In a (attendance db) -> eq_opt (at_source_upload_id a) uid = false) /\
  (forall m, In m (marks db) -> eq_opt (mk_source_upload_id m) uid = false).

(** The cell of a row under a label: the cell at the position of the first
    column with that label. *)
Fixpoint lookup (c : string) (cols : list string) (r : list cell)
    : option cell :=
  match cols, r with
  | k :: cols', x :: r' => if String.eqb k c then Some x else lookup c cols' r'
  | _, _ => None
  end.

(** No target of an alias table is itself an alias. *)
Definition no_chain (T : list (string * string)) : bool :=
  forallb (fun kv => negb (mem (snd kv) (map fst T))) T.

(** [out] is the frame [df0] with its columns renamed and reordered
    according to [plan], a list of pairs (label in [df0], label in [out])
    in the order of the columns of [out]: every column of [df0] is in the
    plan once, a label is kept or replaced by its alias in [T], a label
    that is no alias is kept, an alias is kept when [df0] has a column
    with its canonical name, and in every row the cell under a new label
    is the cell that was under the old one. *)
Definition renamed (T : list (string * string)) (df0 : DataFrame)
    (plan : list (string * string)) (out : DataFrame) : Prop :=
  columns out = map snd plan /\
  Permutation (map fst plan) (columns df0) /\
  NoDup (map snd plan) /\
  (forall h c, In (h, c) plan -> c = h \/ In (h, c) T) /\
  (forall h, In h (columns df0) -> (forall v, ~ In (h, v) T) ->
             In (h, h) plan) /\
  (forall k v, In (k, v) T -> In k (columns df0) -> In v (columns df0) ->
               In (k, k) plan) /\
  Forall2 (fun r0 r =>
             List.length r = List.length (columns out) /\
             forall h c, In (h, c) plan ->
                         exists x, getitem out r c = Ok x /\
                                   getitem df0 r0 h = Ok x)
          (rows df0) (rows out).

(** The number of provenance rows of an upload. *)
Definition provenance_count (uid : Z) (db : DB) : Z :=
  Z.of_nat (List.length (filter (fun m => mp_upload_id m =? uid)
                                (upload_students_map db))).

(** The row count of a Students upload is the number of its provenance
    rows; the other uploads have none. *)
Definition counts_ok (db : DB) : Prop :=
  forall u, In u (uploads db) ->
            provenance_count (up_id u) db =
            if String.eqb (up_upload_type u) "Students" then up_row_count u
            else 0.

(** A text that is not empty and that [str.strip] returned, so that it
    has no white space at either end. *)
Definition trimmed (s : string) : Prop :=
  s <> "" /\ exists t, s = Py.strip t.

(** The identifying texts of the store are trimmed. *)
Definition texts_ok (db : DB) : Prop :=
  (forall s, In s (students db) -> trimmed (st_roll_no s)) /\
  (forall a, In a (attendance db) ->
             trimmed (at_roll_no a) /\ trimmed (at_subject a)) /\
  (forall m, In m (marks db) ->
             trimmed (mk_roll_no m) /\ trimmed (mk_exam m) /\
             trimmed (mk_subject m)) /\
  (forall r, In r (remarks db) ->
             trimmed (rm_roll_no r) /\ trimmed (rm_remark_text r)).

(** The request an action carries. *)
Definition request_of (a : action) : Request :=
  match a with
  | UploadStudents rq | UploadAttendance rq | UploadMarks rq => rq
  | DeleteUpload rq _ => rq
  | AddRemark rq _ _ => rq
  end.

(** A row with its source upload changed to [u]. *)
Definition with_source_a (u : Z) (a : attendance_row) : attendance_row :=
  {| at_roll_no := at_roll_no a;
     at_subject := at_subject a;
     at_attended := at_attended a;
     at_total := at_total a;
     at_semester := at_semester a;
     at_source_upload_id := Some u |}.

Definition with_source_m (u : Z) (m : marks_row) : marks_row :=
  {| mk_roll_no := mk_roll_no m;
     mk_exam := mk_exam m;
     mk_subject := mk_subject m;
     mk_max_marks := mk_max_marks m;
     mk_marks_obtained := mk_marks_obtained m;
     mk_credits := mk_credits m;
     mk_semester := mk_semester m;
     mk_source_upload_id := Some u |}.

(** [b] is [a], but for its source upload, which may have become [u]. *)
Definition resourced_a (u : Z) (a b : attendance_row) : Prop :=
  b = a \/ b = with_source_a u a.

Definition resourced_m (u : Z) (a b : marks_row) : Prop :=
  b = a \/ b = with_source_m u a.

End Vocabulary.

(** * Sample files and stores *)

Module Sample.
Import Frame Store Importers Routes.

Definition student_columns : list string :=
  ["roll_no"; "name"; "email"; "phone"; "father_name"; "father_phone";
   "semester"].

(** A Students file with one full row. *)
Definition students1 : DataFrame :=
  mkFrame student_columns
          [[CStr "R1"; CStr "Alice"; CStr "alice@example.org"; CInt 5550101;
            CStr "Bob"; CInt 5550102; CInt 3]].

(** A second Students file for the same roll number, every optional cell
    blank. *)
Definition students2_row : list cell :=
  [CStr "R1"; CStr "Alice B"; CFloat nan; CFloat nan; CFloat nan; CFloat nan;
   CFloat nan].

Definition students2 : DataFrame := mkFrame student_columns [students2_row].

Definition admin_request (f : option FileStorage) : Request :=
  mkRequest (Some "admin") (Some "admin") "2026-01-05T10:00:00" f.

(** The store after two upload records were created. *)
Definition two_uploads : DB :=
  snd (create_upload_record "2_b.csv" "Students" "2026-01-05T10:01:00" "admin"
         (snd (create_upload_record "1_a.csv" "Students" "2026-01-05T10:00:00"
                                    "admin" empty_db))).

Definition committed (r : res DB) : DB :=
  match r with
  | Ok db => db
  | Err _ => empty_db
  end.

Definition after_students1 : DB :=
  committed (import_students (B := Literal.builtins) students1 1 two_uploads).





End Sample.

Module SampleMissing.
Import Frame Routes.





End SampleMissing.

Module SampleReimport.
Import Frame Store Importers Routes.

Definition attendance1 : DataFrame :=
  mkFrame ["roll_no"; "subject"; "attended"; "total"; "semester"]
          [[CStr "R1"; CStr "Math"; CInt 10; CInt 20; CInt 3]].

Definition marks1 : DataFrame :=
  mkFrame ["roll_no"; "exam"; "subject"; "max_marks"; "marks_obtained";
           "credits"; "semester"]
          [[CStr "R1"; CStr "Midterm"; CStr "Math"; CInt 100; CInt 90; CInt 4;
            CInt 3]].

(** The same keys again, from files without the nullable columns. *)
Definition attendance2_row : list cell :=
  [CStr "R1"; CStr "Math"; CInt 12; CInt 24].

Definition attendance2 : DataFrame :=
  mkFrame ["roll_no"; "subject"; "attended"; "total"] [attendance2_row].



Definition upload (name : string) (df : DataFrame) : Request :=
  Sample.admin_request (Some (mkFile name ("1767607200000_" ++ name) (Ok df))).

(** Students, then attendance and marks with semester and credits:
    uploads 1, 2 and 3. *)
Definition base : DB :=
  run_all (B := Literal.builtins)
          [UploadStudents (upload "students.csv" Sample.students1);
           UploadAttendance (upload "attendance.csv" attendance1);
           UploadMarks (upload "marks.csv" marks1)]
          empty_db.

(** Upload 4 re-imports the attendance, upload 5 the marks. *)
Definition with_upload4 : DB :=
  snd (create_upload_record "1767607200000_attendance2.csv" "Attendance"
                            "2026-01-05T10:00:00" "admin" base).

Definition after_attendance2 : DB :=
  Sample.committed
    (import_attendance (B := Literal.builtins) attendance2 4 with_upload4).

Definition with_upload5 : DB :=
  snd (create_upload_record "1767607200000_marks2.csv" "Marks"
                            "2026-01-05T10:00:00" "admin" after_attendance2).


(** The same keys once more, from files that have the nullable columns
    and leave their cells blank. *)
Definition attendance3 : DataFrame :=
  mkFrame ["roll_no"; "subject"; "attended"; "total"; "semester"]
          [[CStr "R1"; CStr "Math"; CInt 12; CInt 24; CFloat nan]].

Definition marks3 : DataFrame :=
  mkFrame ["roll_no"; "exam"; "subject"; "max_marks"; "marks_obtained";
           "credits"; "semester"]
          [[CStr "R1"; CStr "Midterm"; CStr "Math"; CInt 100; CInt 95;
            CFloat nan; CFloat nan]].

Definition after_attendance3 : DB :=
  Sample.committed
    (import_attendance (B := Literal.builtins) attendance3 4 with_upload4).

Definition after_marks3 : DB :=
  Sample.committed (import_marks (B := Literal.builtins) marks3 5 with_upload5).





End SampleReimport.

Module SampleSkip.
Import Frame Store Importers Routes.

(** An Attendance file whose first row has no roll number (a blank of the
    file, read as NaN) and whose second row is complete. *)
Definition attendance_nan : DataFrame :=
  mkFrame ["roll_no"; "subject"; "attended"; "total"]
          [[CFloat nan; CStr "Math"; CInt 5; CInt 10];
           [CStr "R1"; CStr "Physics"; CInt 7; CInt 10]].

(** The same file with a space in place of the blank. *)
Definition attendance_space : DataFrame :=
  mkFrame ["roll_no"; "subject"; "attended"; "total"]
          [[CStr " "; CStr "Math"; CInt 5; CInt 10];
           [CStr "R1"; CStr "Physics"; CInt 7; CInt 10]].

(** A Students file whose first row has no roll number. *)
Definition nobody_row : list cell :=
  [CFloat nan; CStr "Nobody"; CFloat nan; CFloat nan; CFloat nan; CFloat nan;
   CFloat nan].

Definition carol_row : list cell :=
  [CStr "R2"; CStr "Carol"; CFloat nan; CFloat nan; CFloat nan; CFloat nan;
   CInt 1].

Definition students_nan : DataFrame :=
  mkFrame Sample.student_columns [nobody_row; carol_row].

(** Student R1 and uploads 1 to 4; upload 4 is the one being imported. *)
Definition store : DB := SampleReimport.with_upload4.

(** The same store with a student whose roll number is 0. *)
Definition store_with_zero : DB :=
  set_students (students store ++ [mkStudent "0" "Zero" None None None None None])
               store.

Definition row_count (id : Z) (r : res DB) : option Z :=
  match r with
  | Ok db => option_map up_row_count (find_upload id db)
  | Err _ => None
  end.

Definition attendance_keys (r : res DB) : list (string * string) :=
  match r with
  | Ok db => map attendance_key (attendance db)
  | Err _ => []
  end.

End SampleSkip.

Module SampleGrid.
Import Frame Store Importers Routes.

Definition marks : DataFrame :=
  mkFrame ["roll_no"; "exam"; "subject"; "max_marks"; "marks_obtained"]
          [[CStr "R1"; CStr "Midterm"; CStr "Math"; CInt 100; CInt 90];
           [CStr "R1"; CStr "Final"; CStr "Physics"; CInt 50; CInt 20]].

(** Student R1 with a Midterm mark in Math and a Final mark in Physics. *)
Definition store : DB :=
  run_all (B := Literal.builtins)
          [UploadStudents (SampleReimport.upload "students.csv" Sample.students1);
           UploadMarks (SampleReimport.upload "marks.csv" marks)]
          empty_db.

End SampleGrid.

Module SampleNegative.
Import Frame Store Importers Routes.

(** An Attendance file with a negative count. *)
Definition attendance : DataFrame :=
  mkFrame ["roll_no"; "subject"; "attended"; "total"]
          [[CStr "R1"; CStr "Math"; CInt (-5); CInt 20]].

Definition requests : list action :=
  [UploadStudents (SampleReimport.upload "students.csv" Sample.students1);
   UploadAttendance (SampleReimport.upload "attendance.csv" attendance)].

Definition store : DB := run_all (B := Literal.builtins) requests empty_db.

End SampleNegative.

Module SampleRollback.
Import Frame Store Importers Routes.

(** Upload 1 creates student R1. *)
Definition before : DB :=
  run_all (B := Literal.builtins)
          [UploadStudents (SampleReimport.upload "students.csv" Sample.students1)]
          empty_db.

(** Upload 2 is a Students file that updates R1. *)
Definition second : action :=
  UploadStudents (SampleReimport.upload "students2.csv" Sample.students2).

(** Marks for R1 arrive afterwards, as upload 3. *)
Definition later : list action :=
  [UploadMarks (SampleReimport.upload "marks.csv" SampleReimport.marks1)].

Definition updated : student_row :=
  mkStudent "R1" "Alice B" None None None None None.

Definition after_second : DB := run (B := Literal.builtins) second before.

Definition final : DB := run_all (B := Literal.builtins) later after_second.

(** An installation whose SQLite was built to take eight parameters in a
    statement, and a Students file with nine new students, uploaded into
    the empty store as upload 1. *)
Definition eight_parameters : Py.Builtins :=
  {| Py.float_repr := Literal.float_repr;
     Py.float_of_str := Literal.float_of_str;
     Py.strip := Literal.strip;
     Py.lower := Literal.lower;
     Py.max_variable_number := 8%N;
     Py.max_variable_number_fixed := eq_refl |}.

Definition new_student (roll : string) : list cell :=
  [CStr roll; CStr "New"; CFloat nan; CFloat nan; CFloat nan; CFloat nan;
   CInt 1].

Definition nine_students : DataFrame :=
  mkFrame Sample.student_columns
          (map new_student ["S1"; "S2"; "S3"; "S4"; "S5"; "S6"; "S7"; "S8";
                            "S9"]).

Definition nine : action :=
  UploadStudents (SampleReimport.upload "nine.csv" nine_students).

Definition after_nine : DB := run (B := eight_parameters) nine empty_db.

End SampleRollback.

Module SampleTrip.
Import Frame Store Importers Routes.

(** The attendance of R1 in Math again, and a Students file that renames
    R1: uploads into the store of the three sample uploads. *)
Definition attendance_again : Request :=
  SampleReimport.upload "attendance2.csv" SampleReimport.attendance2.

Definition students_again : Request :=
  SampleReimport.upload "students2.csv" Sample.students2.

End SampleTrip.

Module SampleAliases.
Import Frame.

(** A Students file with aliased and oddly cased headers. *)
Definition students : DataFrame :=
  mkFrame ["Roll No"; " Student Name "; "Mail"; "phone"; "Father's Name";
           "father_phone"; "SEM"]
          [[CStr "R1"; CStr "Alice"; CStr "alice@example.org"; CInt 5550101;
            CStr "Bob"; CInt 5550102; CInt 3]].

End SampleAliases.

Module SampleTwice.
Import Frame Store Importers Routes.

(** The first Students file of the samples, imported a second time as
    upload 2. *)
Definition again : DB :=
  Sample.committed
    (import_students (B := Literal.builtins) Sample.students1 2
                     Sample.after_students1).

End SampleTwice.

Module SampleAttendanceGrid.
Import Frame Store Importers Routes.

(** Attendance of R1: 1 of 8 in Art, 3 of 8 in Biology, none of none in
    Chemistry. *)
Definition attendance : DataFrame :=
  mkFrame ["roll_no"; "subject"; "attended"; "total"]
          [[CStr "R1"; CStr "Biology"; CInt 3; CInt 8];
           [CStr "R1"; CStr "Art"; CInt 1; CInt 8];
           [CStr "R1"; CStr "Chemistry"; CInt 0; CInt 0]].

Definition store : DB :=
  run_all (B := Literal.builtins)
          [UploadStudents (SampleReimport.upload "students.csv" Sample.students1);
           UploadAttendance (SampleReimport.upload "attendance.csv" attendance)]
          empty_db.

End SampleAttendanceGrid.

Module SampleVisitor.
Import Frame Store Importers Routes.

(** A visitor without a session posts a Students file, asks for the
    rollback of upload 1 and writes a remark on R1. *)
Definition visitor (f : option FileStorage) : Request :=
  mkRequest None None "2026-01-06T09:00:00" f.

Definition requests : list action :=
  [UploadStudents (visitor (posted (SampleReimport.upload "students.csv"
                                      Sample.students1)));
   DeleteUpload (visitor None) 1;
   AddRemark (visitor None) "R1" " see me "].

Definition after : DB :=
  run_all (B := Literal.builtins) requests SampleReimport.base.

End SampleVisitor.

Module SampleAgain.
Import Frame Store Importers Routes.

(** The Attendance file of upload 2 and the Marks file of upload 3,
    imported again under the ids 2 and 3 and then under each other's. *)
Definition attendance_first : DB :=
  Sample.committed
    (import_attendance (B := Literal.builtins) SampleReimport.attendance1 2
                       SampleReimport.base).

Definition attendance_second : DB :=
  Sample.committed
    (import_attendance (B := Literal.builtins) SampleReimport.attendance1 3
                       attendance_first).

Definition marks_first : DB :=
  Sample.committed
    (import_marks (B := Literal.builtins) SampleReimport.marks1 3
                  SampleReimport.base).

Definition marks_second : DB :=
  Sample.committed
    (import_marks (B := Literal.builtins) SampleReimport.marks1 2
                  marks_first).

End SampleAgain.

Module SampleNumeric.
Import Frame Store Importers Routes.

(** A Students file whose roll number is the number 101; its name is
    text, so that the frame has object columns. *)
Definition students : DataFrame :=
  mkFrame Sample.student_columns
          [[CInt 101; CStr "Ann"; CFloat nan; CFloat nan; CFloat nan;
            CFloat nan; CInt 1]].

(** An Attendance file of numbers only, one of them with a fraction: the
    columns are int64, int64, float64 and int64. *)
Definition attendance : DataFrame :=
  mkFrame ["roll_no"; "subject"; "attended"; "total"]
          [[CInt 101; CInt 5; CFloat 7.5; CInt 10]].

(** The same file with whole numbers only: every column is int64. *)
Definition attendance_whole : DataFrame :=
  mkFrame ["roll_no"; "subject"; "attended"; "total"]
          [[CInt 101; CInt 5; CInt 7; CInt 10]].

(** Student 101 from upload 1, and the record of upload 2. *)
Definition store : DB :=
  snd (create_upload_record "1767607200000_attendance.csv" "Attendance"
         "2026-01-05T10:00:00" "admin"
         (run_all (B := Literal.builtins)
                  [UploadStudents (SampleReimport.upload "students.csv" students)]
                  empty_db)).

End SampleNumeric.

(** * Properties *)

(** ** The order of binary64 values *)

Section FloatOrder.

Lemma SFcompare_key x y :
  SFcompare x y =
  if sf_is_nan x || sf_is_nan y then None else Some (lex3 (sf_key x) (sf_key y)).
Proof.
  destruct x as [[]|[]| |[] mx ex], y as [[]|[]| |[] my ey]; simpl; try reflexivity.
  rewrite Z.compare_opp, (Z.compare_antisym ex ey).
  destruct (ex ?= ey); reflexivity.
Qed.

Lemma lex3_le_trans p q r :
  lex3 p q <> Gt -> lex3 q r <> Gt -> lex3 p r <> Gt.
Proof.
  destruct p as [[a1 b1] c1], q as [[a2 b2] c2], r as [[a3 b3] c3]. simpl.
  destruct (Z.compare_spec a1 a2), (Z.compare_spec a2 a3),
    (Z.compare_spec a1 a3); try lia; try congruence;
  destruct (Z.compare_spec b1 b2), (Z.compare_spec b2 b3),
    (Z.compare_spec b1 b3); try lia; try congruence;
  destruct (Z.compare_spec c1 c2), (Z.compare_spec c2 c3),
    (Z.compare_spec c1 c3); try lia; congruence.
Qed.

Lemma lex3_antisym p q : lex3 q p = CompOpp (lex3 p q).
Proof.
  destruct p as [[a1 b1] c1], q as [[a2 b2] c2]. simpl.
  rewrite (Z.compare_antisym a1 a2), (Z.compare_antisym b1 b2),
    (Z.compare_antisym c1 c2).
  destruct (a1 ?= a2), (b1 ?= b2), (c1 ?= c2); reflexivity.
Qed.

Lemma SFleb_key x y :
  SFleb x y = negb (sf_is_nan x || sf_is_nan y) &&
              match lex3 (sf_key x) (sf_key y) with Gt => false | _ => true end.
Proof.
  unfold SFleb. rewrite SFcompare_key.
  destruct (sf_is_nan x || sf_is_nan y); simpl; [reflexivity|].
  destruct (lex3 _ _); reflexivity.
Qed.

Lemma SFltb_key x y :
  SFltb x y = negb (sf_is_nan x || sf_is_nan y) &&
              match lex3 (sf_key x) (sf_key y) with Lt => true | _ => false end.
Proof.
  unfold SFltb. rewrite SFcompare_key.
  destruct (sf_is_nan x || sf_is_nan y); simpl; [reflexivity|].
  destruct (lex3 _ _); reflexivity.
Qed.

Lemma SFleb_trans x y z :
  SFleb x y = true -> SFleb y z = true -> SFleb x z = true.
Proof.
  rewrite !SFleb_key, !andb_true_iff, !negb_true_iff, !orb_false_iff.
  intros [[Hx Hy] H1] [[_ Hz] H2]. repeat split; try assumption.
  pose proof (lex3_le_trans (sf_key x) (sf_key y) (sf_key z)) as T.
  destruct (lex3 (sf_key x) (sf_key y)); try discriminate;
  destruct (lex3 (sf_key y) (sf_key z)); try discriminate;
  destruct (lex3 (sf_key x) (sf_key z)); try reflexivity;
  exfalso; apply T; congruence.
Qed.

(** [x < y] excludes [y <= x]. *)
Lemma SFltb_not_leb x y : SFltb x y = true -> SFleb y x = false.
Proof.
  rewrite SFltb_key, SFleb_key, andb_true_iff, negb_true_iff, orb_false_iff.
  intros [[Hx Hy] H]. rewrite Hx, Hy. simpl.
  rewrite (lex3_antisym (sf_key x) (sf_key y)).
  destruct (lex3 (sf_key x) (sf_key y)); simpl; congruence.
Qed.

(** Two values comparable with a third one are ordered one way or the other. *)
Lemma SFleb_false_ltb c d x :
  SFleb c x = true -> sf_is_nan d = false -> SFleb d x = false -> SFltb x d = true.
Proof.
  rewrite !SFleb_key, SFltb_key, andb_true_iff, negb_true_iff, orb_false_iff.
  intros [[Hc Hx] _] Hd. rewrite Hx, Hd. simpl.
  rewrite (lex3_antisym (sf_key d) (sf_key x)).
  destruct (lex3 (sf_key d) (sf_key x)); simpl; congruence.
Qed.

End FloatOrder.

Lemma leb_trans (x y z : float) :
  (x <=? y)%float = true -> (y <=? z)%float = true -> (x <=? z)%float = true.
Proof. rewrite !leb_spec. apply SFleb_trans. Qed.

Lemma ltb_not_leb (x y : float) :
  (x <? y)%float = true -> (y <=? x)%float = false.
Proof. rewrite ltb_spec, leb_spec. apply SFltb_not_leb. Qed.

Lemma leb_false_ltb (c d x : float) :
  (c <=? x)%float = true -> is_nan d = false ->
  (d <=? x)%float = false -> (x <? d)%float = true.
Proof.
  rewrite !leb_spec, ltb_spec. intros H1 Hd H2.
  apply (SFleb_false_ltb (Prim2SF c)); try assumption.
  unfold is_nan in Hd. rewrite eqb_spec in Hd.
  destruct (Prim2SF d) as [[]|[]| |[] m e]; try reflexivity.
  simpl in Hd. discriminate.
Qed.

(** ** Letter grades *)

Section LetterGrade.
Import Grade.

Lemma band_excludes (lo hi pct : float) :
  in_band lo hi pct = true -> (hi <=? pct)%float = false.
Proof.
  unfold in_band. rewrite andb_true_iff. intros [_ H].
  now apply ltb_not_leb.
Qed.

Lemma band_from_tests (lo hi pct : float) :
  is_nan hi = false ->
  (lo <=? pct)%float = true -> (hi <=? pct)%float = false ->
  in_band lo hi pct = true.
Proof.
  intros Hn Hlo Hhi. unfold in_band. rewrite Hlo. simpl.
  now apply (leb_false_ltb lo).
Qed.

Ltac above t pct :=
  let E := fresh "E" in
  assert (E : (t <=? pct)%float = true)
    by (eapply leb_trans; [|eassumption]; reflexivity).

(** C4. [letter_grade] maps a percentage to its band: A+ from 85, A on
    [75, 85), B+ on [65, 75), B on [55, 65), C on [45, 55), D on [35, 45)
    and F for every other value, with the four sample values of the
    specification; and the percentage of a marks cell is
    [100 * marks_obtained / max_marks], or 0 when [max_marks] is 0 (the
    function is total: no division is attempted). *)
Theorem letter_grade_bands (pct : float) :
  ((85 <=? pct)%float = true -> letter_grade pct = "A+") /\
  (in_band 75 85 pct = true -> letter_grade pct = "A") /\
  (in_band 65 75 pct = true -> letter_grade pct = "B+") /\
  (in_band 55 65 pct = true -> letter_grade pct = "B") /\
  (in_band 45 55 pct = true -> letter_grade pct = "C") /\
  (in_band 35 45 pct = true -> letter_grade pct = "D") /\
  ((85 <=? pct)%float = false -> in_band 75 85 pct = false ->
   in_band 65 75 pct = false -> in_band 55 65 pct = false ->
   in_band 45 55 pct = false -> in_band 35 45 pct = false ->
   letter_grade pct = "F") /\
  (letter_grade 100 = "A+" /\ letter_grade 85 = "A+" /\
   letter_grade 84.9 = "A" /\ letter_grade 0 = "F") /\
  (forall got max : Z,
      (max <> 0 ->
       percentage got max = (100 * float_of_Z got / float_of_Z max)%float) /\
      (max = 0 -> percentage got max = 0%float) /\
      Grid.render (Store.mkMarks "" "" "" max got None None None) =
      letter_grade (percentage got max) ++ " (" ++ Py.str_of_Z got ++ "/"
      ++ Py.str_of_Z max ++ ")").
Proof.
  assert (Lo : forall lo hi, in_band lo hi pct = true ->
                             (lo <=? pct)%float = true).
  { intros lo hi H. unfold in_band in H. now apply andb_true_iff in H. }
  repeat match goal with |- _ /\ _ => split end.
  - intros H. unfold letter_grade. now rewrite H.
  - intros H. pose proof (band_excludes _ _ _ H) as H1. apply Lo in H.
    unfold letter_grade. now rewrite H1, H.
  - intros H. pose proof (band_excludes _ _ _ H) as H1. apply Lo in H.
    destruct (85 <=? pct)%float eqn:E85.
    { above 75%float pct. congruence. }
    unfold letter_grade. now rewrite E85, H1, H.
  - intros H. pose proof (band_excludes _ _ _ H) as H1. apply Lo in H.
    destruct (85 <=? pct)%float eqn:E85.
    { above 65%float pct. congruence. }
    destruct (75 <=? pct)%float eqn:E75.
    { above 65%float pct. congruence. }
    unfold letter_grade. now rewrite E85, E75, H1, H.
  - intros H. pose proof (band_excludes _ _ _ H) as H1. apply Lo in H.
    destruct (85 <=? pct)%float eqn:E85.
    { above 55%float pct. congruence. }
    destruct (75 <=? pct)%float eqn:E75.
    { above 55%float pct. congruence. }
    destruct (65 <=? pct)%float eqn:E65.
    { above 55%float pct. congruence. }
    unfold letter_grade. now rewrite E85, E75, E65, H1, H.
  - intros H. pose proof (band_excludes _ _ _ H) as H1. apply Lo in H.
    destruct (85 <=? pct)%float eqn:E85.
    { above 45%float pct. congruence. }
    destruct (75 <=? pct)%float eqn:E75.
    { above 45%float pct. congruence. }
    destruct (65 <=? pct)%float eqn:E65.
    { above 45%float pct. congruence. }
    destruct (55 <=? pct)%float eqn:E55.
    { above 45%float pct. congruence. }
    unfold letter_grade. now rewrite E85, E75, E65, E55, H1, H.
  - intros H85 H75 H65 H55 H45 H35. unfold letter_grade. rewrite H85.
    destruct (75 <=? pct)%float eqn:E75.
    { rewrite band_from_tests in H75; [discriminate|reflexivity|..]; assumption. }
    destruct (65 <=? pct)%float eqn:E65.
    { rewrite band_from_tests in H65; [discriminate|reflexivity|..]; assumption. }
    destruct (55 <=? pct)%float eqn:E55.
    { rewrite band_from_tests in H55; [discriminate|reflexivity|..]; assumption. }
    destruct (45 <=? pct)%float eqn:E45.
    { rewrite band_from_tests in H45; [discriminate|reflexivity|..]; assumption. }
    destruct (35 <=? pct)%float eqn:E35.
    { rewrite band_from_tests in H35; [discriminate|reflexivity|..]; assumption. }
    reflexivity.
  - reflexivity.
  - reflexivity.
  - reflexivity.
  - reflexivity.
  - intros got max. split; [|split].
    + intros H. unfold percentage. apply Z.eqb_neq in H. now rewrite H.
    + intros ->. reflexivity.
    + reflexivity.
Qed.

(** The value 84.9 lies in the band of A. *)
Lemma letter_grade_bands_witness :
  in_band 75 85 84.9 = true /\ letter_grade 84.9 = "A".
Proof.
  split; [reflexivity|].
  apply (proj1 (proj2 (letter_grade_bands 84.9))). reflexivity.
Defined.

(** C10. [letter_grade] always answers one of the seven grades, and a
    larger percentage never gets a lower grade. *)
Theorem letter_grade_monotone (p q : float) :
  In (letter_grade p) grades /\
  In (letter_grade q) grades /\
  ((p <=? q)%float = true ->
   (band (letter_grade p) <= band (letter_grade q))%nat).
Proof.
  assert (G : forall x, In (letter_grade x) grades).
  { intros x. unfold letter_grade, grades.
    repeat match goal with
           | |- context [if ?b then _ else _] => destruct b
           end; simpl; tauto. }
  split; [apply G|]. split; [apply G|].
  intros H. unfold letter_grade.
  repeat match goal with
         | |- context [(?t <=? p)%float] =>
             let E := fresh "E" in
             destruct (t <=? p)%float eqn:E;
             [ rewrite ?(leb_trans _ _ _ E H) | ]
         end;
  repeat match goal with
         | |- context [(?t <=? q)%float] => destruct (t <=? q)%float
         end;
  vm_compute; repeat constructor.
Qed.

(** 60 percent and 90 percent: a B against an A+. *)
Lemma letter_grade_monotone_witness :
  (60 <=? 90)%float = true /\
  (band (letter_grade 60) <= band (letter_grade 90))%nat.
Proof.
  split; [reflexivity|].
  apply (proj2 (proj2 (letter_grade_monotone 60 90))). reflexivity.
Defined.

End LetterGrade.

(** ** Upserts *)

Section Upserts.
Import Store.

Lemma student_eta (old new : student_row) :
  String.eqb (st_roll_no old) (st_roll_no new) = true ->
  {| st_roll_no := st_roll_no old;
     st_name := st_name new;
     st_email := st_email new;
     st_phone := st_phone new;
     st_father_name := st_father_name new;
     st_father_phone := st_father_phone new;
     st_semester := st_semester new |} = new.
Proof.
  intros H. apply String.eqb_eq in H. rewrite H. now destruct new.
Qed.

(** After the upsert, the query by the row's roll number returns the row
    as given: every field is the new one. *)
Lemma find_upsert_student_same (new : student_row) (l : list student_row) :
  find (fun s => String.eqb (st_roll_no s) (st_roll_no new))
       (upsert_student new l) = Some new.
Proof.
  induction l as [|old l IH]; simpl.
  - now rewrite String.eqb_refl.
  - destruct (String.eqb (st_roll_no old) (st_roll_no new)) eqn:E; simpl.
    + rewrite E. f_equal. now apply student_eta.
    + now rewrite E.
Qed.

Lemma find_upsert_student_other (roll : string) (new : student_row)
    (l : list student_row) :
  st_roll_no new <> roll ->
  find (fun s => String.eqb (st_roll_no s) roll) (upsert_student new l) =
  find (fun s => String.eqb (st_roll_no s) roll) l.
Proof.
  intros N. apply String.eqb_neq in N.
  induction l as [|old l IH]; simpl.
  - now rewrite N.
  - destruct (String.eqb (st_roll_no old) (st_roll_no new)) eqn:E; simpl.
    + apply String.eqb_eq in E. rewrite E, N. reflexivity.
    + destruct (String.eqb (st_roll_no old) roll); [reflexivity|apply IH].
Qed.

Lemma existsb_upsert_student (roll : string) (new : student_row)
    (l : list student_row) :
  existsb (fun s => String.eqb (st_roll_no s) roll) (upsert_student new l) =
  String.eqb (st_roll_no new) roll ||
  existsb (fun s => String.eqb (st_roll_no s) roll) l.
Proof.
  induction l as [|old l IH]; simpl.
  - now rewrite orb_false_r.
  - destruct (String.eqb (st_roll_no old) (st_roll_no new)) eqn:E; simpl.
    + apply String.eqb_eq in E. rewrite E.
      now destruct (String.eqb (st_roll_no new) roll).
    + rewrite IH.
      destruct (String.eqb (st_roll_no old) roll),
        (String.eqb (st_roll_no new) roll); reflexivity.
Qed.

Lemma same_attendance_sym (a b : attendance_row) :
  same_attendance (at_roll_no a) (at_subject a) b = true ->
  at_roll_no b = at_roll_no a /\ at_subject b = at_subject a.
Proof.
  unfold same_attendance. rewrite andb_true_iff, !String.eqb_eq. tauto.
Qed.

Lemma same_attendance_refl (a : attendance_row) :
  same_attendance (at_roll_no a) (at_subject a) a = true.
Proof. unfold same_attendance. now rewrite !String.eqb_refl. Qed.

Lemma find_upsert_attendance_same (new : attendance_row)
    (l : list attendance_row) :
  find (same_attendance (at_roll_no new) (at_subject new))
       (upsert_attendance new l) =
  Some (merge_attendance new
          (find (same_attendance (at_roll_no new) (at_subject new)) l)).
Proof.
  induction l as [|old l IH]; simpl.
  - now rewrite same_attendance_refl.
  - destruct (same_attendance (at_roll_no new) (at_subject new) old) eqn:E;
      simpl.
    + destruct (same_attendance_sym _ _ E) as [E1 E2].
      unfold same_attendance at 1. simpl. rewrite E1, E2, !String.eqb_refl.
      reflexivity.
    + now rewrite E.
Qed.

Lemma find_upsert_attendance_other (roll subj : string) (new : attendance_row)
    (l : list attendance_row) :
  same_attendance roll subj new = false ->
  find (same_attendance roll subj) (upsert_attendance new l) =
  find (same_attendance roll subj) l.
Proof.
  intros N. induction l as [|old l IH]; simpl.
  - now rewrite N.
  - destruct (same_attendance (at_roll_no new) (at_subject new) old) eqn:E;
      simpl.
    + destruct (same_attendance_sym _ _ E) as [E1 E2].
      assert (O : same_attendance roll subj old = false).
      { unfold same_attendance in *. now rewrite E1, E2. }
      rewrite O. unfold same_attendance at 1. simpl.
      unfold same_attendance in O. now rewrite O.
    + destruct (same_attendance roll subj old); [reflexivity|apply IH].
Qed.

Lemma same_marks_sym (a b : marks_row) :
  same_marks (mk_roll_no a) (mk_exam a) (mk_subject a) b = true ->
  mk_roll_no b = mk_roll_no a /\ mk_exam b = mk_exam a /\
  mk_subject b = mk_subject a.
Proof.
  unfold same_marks. rewrite !andb_true_iff, !String.eqb_eq. tauto.
Qed.

Lemma same_marks_refl (a : marks_row) :
  same_marks (mk_roll_no a) (mk_exam a) (mk_subject a) a = true.
Proof. unfold same_marks. now rewrite !String.eqb_refl. Qed.

Lemma find_upsert_marks_same (new : marks_row) (l : list marks_row) :
  find (same_marks (mk_roll_no new) (mk_exam new) (mk_subject new))
       (upsert_marks new l) =
  Some (merge_marks new
          (find (same_marks (mk_roll_no new) (mk_exam new) (mk_subject new)) l)).
Proof.
  induction l as [|old l IH]; simpl.
  - now rewrite same_marks_refl.
  - destruct (same_marks (mk_roll_no new) (mk_exam new) (mk_subject new) old)
      eqn:E; simpl.
    + destruct (same_marks_sym _ _ E) as (E1 & E2 & E3).
      unfold same_marks at 1. simpl. rewrite E1, E2, E3, !String.eqb_refl.
      reflexivity.
    + now rewrite E.
Qed.

Lemma find_upsert_marks_other (roll exam subj : string) (new : marks_row)
    (l : list marks_row) :
  same_marks roll exam subj new = false ->
  find (same_marks roll exam subj) (upsert_marks new l) =
  find (same_marks roll exam subj) l.
Proof.
  intros N. induction l as [|old l IH]; simpl.
  - now rewrite N.
  - destruct (same_marks (mk_roll_no new) (mk_exam new) (mk_subject new) old)
      eqn:E; simpl.
    + destruct (same_marks_sym _ _ E) as (E1 & E2 & E3).
      assert (O : same_marks roll exam subj old = false).
      { unfold same_marks in *. now rewrite E1, E2, E3. }
      rewrite O. unfold same_marks at 1. simpl.
      unfold same_marks in O. now rewrite O.
    + destruct (same_marks roll exam subj old); [reflexivity|apply IH].
Qed.

End Upserts.

(** ** Students imports *)

Lemma bind_ok {A C : Type} (m : res A) (k : A -> res C) (c : C) :
  bind m k = Ok c -> exists a, m = Ok a /\ k a = Ok c.
Proof. destruct m as [a|e]; simpl; [eauto|discriminate]. Qed.

Ltac bind_inv H :=
  lazymatch type of H with
  | bind _ _ = Ok _ =>
      let x := fresh "x" in
      let E := fresh "E" in
      apply bind_ok in H; destruct H as (x & E & H)
  end.

(** ** The column normaliser keeps the data *)

Section Normaliser.
Import Frame.
Context {B : Py.Builtins}.

Lemma getitem_lookup (df : DataFrame) (r : list cell) (c : string) :
  getitem df r c =
  match lookup c (columns df) r with
  | Some x => Ok x
  | None => Err (KeyError c)
  end.
Proof.
  unfold getitem. generalize (columns df). intros cols. revert r.
  induction cols as [|k cols IH]; intros r; simpl; [reflexivity|].
  destruct (String.eqb k c) eqn:E.
  - destruct r; reflexivity.
  - specialize (IH (tl r)). destruct r as [|x r]; simpl in *.
    + now destruct (index_of c cols).
    + destruct (index_of c cols) as [i|]; simpl; exact IH.
Qed.

Lemma lookup_absent (c : string) (cols : list string) (r : list cell) :
  ~ In c cols -> lookup c cols r = None.
Proof.
  revert r. induction cols as [|k cols IH]; intros r N; simpl; [reflexivity|].
  destruct r as [|x r]; [reflexivity|].
  destruct (String.eqb k c) eqn:E.
  - apply String.eqb_eq in E. exfalso. apply N. now left.
  - apply IH. intros I. apply N. now right.
Qed.

Lemma lookup_app (c v : string) (cols : list string) (r : list cell) (x : cell) :
  List.length r = List.length cols ->
  lookup c (cols ++ [v]) (r ++ [x]) =
  match lookup c cols r with
  | Some y => Some y
  | None => if String.eqb v c then Some x else None
  end.
Proof.
  revert r. induction cols as [|k cols IH]; intros [|y r] L; simpl in *;
    try discriminate.
  - reflexivity.
  - destruct (String.eqb k c); [reflexivity|]. apply IH. lia.
Qed.

(** [df[v] = df.pop(k)] seen from a row: the cell of [k] is now under
    [v], the label [k] is gone, the other labels keep their cells. *)
Lemma lookup_remove (c v : string) (x : cell) :
  forall (i : nat) (cols : list string) (r : list cell) (k : string),
    List.length r = List.length cols -> NoDup cols ->
    nth_error cols i = Some k -> nth_error r i = Some x -> ~ In v cols ->
    lookup c (remove_nth i cols ++ [v]) (remove_nth i r ++ [x]) =
    if String.eqb v c then Some x
    else if String.eqb k c then None
    else lookup c cols r.
Proof.
  unfold remove_nth.
  induction i as [|i IH]; intros [|a cols] [|y r] k L N Hk Hx Hv;
    simpl in *; try discriminate.
  - injection Hk as ->. injection Hx as ->.
    inversion N as [|? ? Na Nc]; subst.
    rewrite lookup_app by lia.
    destruct (String.eqb v c) eqn:Ev.
    + apply String.eqb_eq in Ev. subst c.
      rewrite lookup_absent; [reflexivity|]. intros I. apply Hv. now right.
    + destruct (String.eqb k c) eqn:Ek.
      * apply String.eqb_eq in Ek. subst c. now rewrite lookup_absent.
      * now destruct (lookup c cols r).
  - inversion N as [|? ? Na Nc]; subst.
    assert (Ik : In k cols) by (eapply nth_error_In; eassumption).
    rewrite (IH cols r k) by (auto; lia).
    destruct (String.eqb a c) eqn:Ea; [|reflexivity].
    apply String.eqb_eq in Ea. subst c.
    destruct (String.eqb v a) eqn:Ev.
    + apply String.eqb_eq in Ev. subst v. exfalso. apply Hv. now left.
    + destruct (String.eqb k a) eqn:Ek; [|reflexivity].
      apply String.eqb_eq in Ek. subst k. contradiction.
Qed.

Lemma index_of_nth (k : string) (cols : list string) (i : nat) :
  index_of k cols = Some i -> nth_error cols i = Some k.
Proof.
  revert i. induction cols as [|a cols IH]; intros i; simpl; [discriminate|].
  destruct (String.eqb a k) eqn:E.
  - intros [= <-]. apply String.eqb_eq in E. now subst.
  - destruct (index_of k cols) as [j|]; simpl; [|discriminate].
    intros [= <-]. now apply IH.
Qed.

Lemma mem_index_of (k : string) (cols : list string) :
  mem k cols = true -> exists i, index_of k cols = Some i.
Proof.
  unfold mem. induction cols as [|a cols IH]; simpl; [discriminate|].
  rewrite String.eqb_sym. destruct (String.eqb a k); [eauto|].
  simpl. intros H. destruct (IH H) as (i & ->). simpl. eauto.
Qed.

Lemma mem_false (k : string) (cols : list string) :
  mem k cols = false -> ~ In k cols.
Proof.
  unfold mem. intros E I.
  assert (T : existsb (String.eqb k) cols = true)
    by (apply existsb_exists; exists k; split; [exact I|apply String.eqb_refl]).
  congruence.
Qed.

Lemma remove_nth_map {A C : Type} (f : A -> C) (i : nat) (l : list A) :
  map f (remove_nth i l) = remove_nth i (map f l).
Proof.
  unfold remove_nth. now rewrite map_app, firstn_map, skipn_map.
Qed.

Lemma In_remove_nth {A : Type} (x : A) :
  forall (i : nat) (l : list A), In x (remove_nth i l) -> In x l.
Proof.
  unfold remove_nth. induction i as [|i IH]; intros [|a l]; simpl; auto.
  intros [->|I]; [now left|right; now apply IH].
Qed.

Lemma In_remove_nth_other {A : Type} (x y : A) :
  forall (i : nat) (l : list A),
    In x l -> nth_error l i = Some y -> x <> y -> In x (remove_nth i l).
Proof.
  unfold remove_nth. induction i as [|i IH]; intros [|a l]; simpl;
    try contradiction.
  - intros [->|I] [= ->] N; [contradiction|exact I].
  - intros [->|I] Hy N; [now left|right; now apply IH].
Qed.

Lemma NoDup_remove_nth {A : Type} :
  forall (i : nat) (l : list A), NoDup l -> NoDup (remove_nth i l).
Proof.
  induction i as [|i IH]; intros [|a l] N; try exact N.
  - now inversion N.
  - inversion N as [|? ? Na Nl]; subst.
    change (NoDup (a :: remove_nth i l)). constructor; [|now apply IH].
    intros I. apply Na. now apply In_remove_nth in I.
Qed.

Lemma remove_nth_not_In {A : Type} (y : A) :
  forall (i : nat) (l : list A),
    NoDup l -> nth_error l i = Some y -> ~ In y (remove_nth i l).
Proof.
  induction i as [|i IH]; intros [|a l] N Hy; simpl in *; try discriminate.
  - injection Hy as ->. now inversion N.
  - inversion N as [|? ? Na Nl]; subst.
    change (~ In y (a :: remove_nth i l)). intros [->|I].
    + apply Na. eapply nth_error_In; eassumption.
    + now apply (IH l Nl Hy).
Qed.

Lemma Permutation_remove_nth {A : Type} (y : A) :
  forall (i : nat) (l : list A),
    nth_error l i = Some y -> Permutation (remove_nth i l ++ [y]) l.
Proof.
  induction i as [|i IH]; intros [|a l] Hy; simpl in *; try discriminate.
  - injection Hy as ->. change (Permutation (l ++ [y]) (y :: l)).
    apply Permutation_sym, Permutation_cons_append.
  - change (Permutation (a :: (remove_nth i l ++ [y])) (a :: l)).
    constructor. now apply IH.
Qed.

Lemma length_remove_nth {A : Type} (y : A) :
  forall (i : nat) (l : list A),
    nth_error l i = Some y -> S (List.length (remove_nth i l)) = List.length l.
Proof.
  induction i as [|i IH]; intros [|a l] Hy; simpl in *; try discriminate.
  - reflexivity.
  - change (S (S (List.length (remove_nth i l))) = S (List.length l)).
    f_equal. now apply IH.
Qed.

Lemma no_chain_spec (T : list (string * string)) (k v h : string) :
  no_chain T = true -> In (k, v) T -> In (h, k) T -> False.
Proof.
  unfold no_chain. intros H Ik Ih. rewrite forallb_forall in H.
  specialize (H (h, k) Ih). simpl in H. apply negb_true_iff in H.
  apply mem_false in H. apply H. apply in_map_iff. now exists (k, v).
Qed.

Lemma NoDup_keys (T : list (string * string)) (k v v' : string) :
  NoDup (map fst T) -> In (k, v) T -> In (k, v') T -> v = v'.
Proof.
  induction T as [|[a b] T IH]; simpl; intros N I I'; [destruct I|].
  inversion N as [|? ? Na Nt]; subst.
  destruct I as [E|I], I' as [E'|I'].
  - congruence.
  - exfalso. apply Na. injection E as -> _.
    apply (in_map fst T (k, v')). exact I'.
  - exfalso. apply Na. injection E' as -> _.
    apply (in_map fst T (k, v)). exact I.
  - now apply IH.
Qed.

(** One alias applied to a frame that is a renaming of [df0]. *)
Lemma pop_assign_renamed (T : list (string * string)) (df0 cur : DataFrame)
    (plan : list (string * string)) (k v : string) :
  no_chain T = true -> NoDup (map fst T) -> In (k, v) T ->
  renamed T df0 plan cur ->
  mem k (columns cur) = true -> mem v (columns cur) = false ->
  exists plan', renamed T df0 plan' (pop_assign k v cur).
Proof.
  intros NC NK Ikv (I1 & I2 & I3 & I4 & I6 & I7 & I5) Mk Mv.
  destruct (mem_index_of _ _ Mk) as (i & Hi).
  pose proof (index_of_nth _ _ _ Hi) as Nk.
  apply mem_false in Mv.
  assert (Np : nth_error plan i = Some (k, k)).
  { rewrite I1, nth_error_map in Nk.
    destruct (nth_error plan i) as [[h c]|] eqn:E; [|discriminate].
    simpl in Nk. injection Nk as ->.
    destruct (I4 h k (nth_error_In _ _ E)) as [->|Ih]; [reflexivity|].
    destruct (no_chain_spec T k v h NC Ikv Ih). }
  exists (remove_nth i plan ++ [(k, v)])%list.
  assert (C' : columns (pop_assign k v cur) =
               (remove_nth i (columns cur) ++ [v])%list)
    by (unfold pop_assign; now rewrite Hi).
  assert (R' : rows (pop_assign k v cur) =
               map (fun r => (remove_nth i r ++
                              match nth_error r i with
                              | Some c => [c]
                              | None => []
                              end)%list) (rows cur))
    by (unfold pop_assign; now rewrite Hi).
  assert (Nc : NoDup (columns cur)) by (now rewrite I1).
  unfold renamed. rewrite C', R'.
  split; [|split; [|split; [|split; [|split; [|split]]]]].
  - now rewrite map_app, remove_nth_map, I1.
  - rewrite map_app, remove_nth_map. simpl.
    eapply Permutation_trans; [|exact I2].
    apply Permutation_remove_nth. rewrite nth_error_map, Np. reflexivity.
  - rewrite map_app, remove_nth_map, <- I1. simpl.
    apply NoDup_app; [now apply NoDup_remove_nth|repeat constructor; intros []|].
    intros c I [<-|[]]. apply Mv. now apply In_remove_nth in I.
  - intros h c I. apply in_app_or in I. destruct I as [I|[[= <- <-]|[]]].
    + apply In_remove_nth in I. now apply I4.
    + now right.
  - intros h Ih Nh. apply in_or_app. left.
    apply (In_remove_nth_other _ (k, k)); [now apply I6|exact Np|].
    intros [= -> _]. now apply (Nh v).
  - intros k0 v0 I0 Ik0 Iv0. apply in_or_app. left.
    apply (In_remove_nth_other _ (k, k)); [now apply (I7 k0 v0)|exact Np|].
    intros [= -> _].
    assert (Ev : v0 = v) by (now apply (NoDup_keys T k v0 v)).
    subst v0. apply Mv. rewrite I1.
    apply (in_map snd plan (v, v)). apply I6; [exact Iv0|].
    intros v' Iv'. exact (no_chain_spec T v v' k NC Iv' Ikv).
  - clear R'. induction I5 as [|r0 r rs0 rs [L G] F IH]; simpl; constructor;
      [|exact IH].
    assert (Lk : (i < List.length r)%nat)
      by (rewrite L; apply nth_error_Some; congruence).
    destruct (nth_error r i) as [x|] eqn:Hx;
      [|apply nth_error_None in Hx; lia].
    split.
    + pose proof (length_remove_nth k i (columns cur) Nk).
      pose proof (length_remove_nth x i r Hx).
      rewrite !length_app. simpl. lia.
    + intros h c I.
      rewrite getitem_lookup, C'.
      rewrite (lookup_remove c v x i (columns cur) r k L Nc Nk Hx Mv).
      apply in_app_or in I. destruct I as [I|[[= <- <-]|[]]].
      * assert (Ic : In c (remove_nth i (columns cur))).
        { rewrite I1, <- remove_nth_map. apply in_map_iff. now exists (h, c). }
        destruct (String.eqb v c) eqn:Ev.
        { apply String.eqb_eq in Ev. subst c. apply In_remove_nth in Ic.
          contradiction. }
        destruct (String.eqb k c) eqn:Ek.
        { apply String.eqb_eq in Ek. subst c.
          destruct (remove_nth_not_In k i (columns cur) Nc Nk Ic). }
        apply In_remove_nth in I. destruct (G h c I) as (y & G1 & G2).
        exists y. split; [|exact G2].
        rewrite getitem_lookup in G1.
        destruct (lookup c (columns cur) r); [|discriminate].
        now injection G1 as ->.
      * rewrite String.eqb_refl. exists x. split; [reflexivity|].
        destruct (G k k (nth_error_In _ _ Np)) as (y & G1 & G2).
        unfold getitem in G1. rewrite Hi, Hx in G1. now injection G1 as ->.
Qed.

Lemma fold_alias_renamed (T al : list (string * string)) (df0 : DataFrame) :
  no_chain T = true -> NoDup (map fst T) -> incl al T ->
  forall (cur : DataFrame) (plan : list (string * string)),
    renamed T df0 plan cur ->
    exists plan', renamed T df0 plan' (fold_left apply_alias al cur).
Proof.
  intros NC NK. induction al as [|[k v] al IH]; simpl; intros Inc cur plan H.
  - now exists plan.
  - assert (Ikv : In (k, v) T) by (apply Inc; now left).
    assert (Inc' : incl al T) by (intros x I; apply Inc; now right).
    destruct (mem k (columns cur)) eqn:Mk; simpl; [|now apply (IH Inc' cur plan)].
    destruct (mem v (columns cur)) eqn:Mv; simpl; [now apply (IH Inc' cur plan)|].
    destruct (pop_assign_renamed T df0 cur plan k v NC NK Ikv H Mk Mv)
      as (plan1 & H1).
    now apply (IH Inc' _ plan1).
Qed.

Lemma renamed_start (T : list (string * string)) (df0 : DataFrame) :
  NoDup (columns df0) ->
  Forall (fun r => List.length r = List.length (columns df0)) (rows df0) ->
  renamed T df0 (map (fun c => (c, c)) (columns df0)) df0.
Proof.
  intros N F. unfold renamed. rewrite !map_map. simpl. rewrite !map_id.
  split; [reflexivity|]. split; [apply Permutation_refl|].
  split; [exact N|]. split; [|split; [|split]].
  - intros h c I. apply in_map_iff in I. destruct I as (x & [= <- <-] & _).
    now left.
  - intros h I _. apply in_map_iff. now exists h.
  - intros k v _ I _. apply in_map_iff. now exists k.
  - induction F as [|r rs L F IH]; constructor; [|exact IH].
    split; [exact L|]. intros h c I.
    apply in_map_iff in I. destruct I as (c0 & [= <- <-] & I).
    assert (M : mem c0 (columns df0) = true)
      by (apply existsb_exists; exists c0; split;
          [exact I|apply String.eqb_refl]).
    destruct (mem_index_of _ _ M) as (i & Hi).
    pose proof (index_of_nth _ _ _ Hi) as Nk.
    assert (Lk : (i < List.length r)%nat)
      by (rewrite L; apply nth_error_Some; congruence).
    destruct (nth_error r i) as [x|] eqn:Hx;
      [|apply nth_error_None in Hx; lia].
    exists x. unfold getitem. now rewrite Hi, Hx.
Qed.

Lemma aliases_no_chain : no_chain aliases = true.
Proof. vm_compute. reflexivity. Qed.

Lemma aliases_keys : NoDup (map fst aliases).
Proof.
  assert (E : nodup string_dec (map fst aliases) = map fst aliases)
    by (vm_compute; reflexivity).
  rewrite <- E. apply NoDup_nodup.
Qed.

(** [normalize_columns] loses and mixes no data. Take a frame whose
    headers are pairwise distinct once trimmed and lowercased, every row
    holding one cell per column. The normalised frame has as many columns,
    pairwise distinct, and there is a plan pairing each trimmed, lowercased
    header with the column it became: the same label or, for an alias,
    its canonical name; a header that is no alias keeps its label, and so
    does an alias when the file also has a column with its canonical name;
    and row by row the cell under the new label is the cell that was under
    the header. *)
Theorem normalize_columns_keeps_data (df : DataFrame) :
  NoDup (map (fun c => Py.lower (Py.strip c)) (columns df)) ->
  Forall (fun r => List.length r = List.length (columns df)) (rows df) ->
  exists plan : list (string * string),
    columns (normalize_columns df) = map snd plan /\
    Permutation (map fst plan)
                (map (fun c => Py.lower (Py.strip c)) (columns df)) /\
    NoDup (map snd plan) /\
    (forall h c, In (h, c) plan -> c = h \/ In (h, c) aliases) /\
    (forall h, In h (map (fun c => Py.lower (Py.strip c)) (columns df)) ->
               (forall v, ~ In (h, v) aliases) -> In (h, h) plan) /\
    (forall k v, In (k, v) aliases ->
                 In k (map (fun c => Py.lower (Py.strip c)) (columns df)) ->
                 In v (map (fun c => Py.lower (Py.strip c)) (columns df)) ->
                 In (k, k) plan) /\
    Forall2 (fun r0 r =>
               List.length r = List.length r0 /\
               forall h c,
                 In (h, c) plan ->
                 exists x,
                   getitem (normalize_columns df) r c = Ok x /\
                   getitem (mkFrame (map (fun c => Py.lower (Py.strip c))
                                         (columns df)) (rows df)) r0 h = Ok x)
            (rows df) (rows (normalize_columns df)).
Proof.
  intros N F.
  assert (F0 : Forall (fun r => List.length r =
                                List.length (map (fun c => Py.lower (Py.strip c))
                                                 (columns df)))
                      (rows df))
    by (now rewrite length_map).
  pose proof (fold_alias_renamed aliases aliases _ aliases_no_chain
                aliases_keys (incl_refl _) _ _
                (renamed_start aliases
                   (mkFrame (map (fun c => Py.lower (Py.strip c)) (columns df))
                            (rows df)) N F0)) as H.
  revert H. unfold normalize_columns. cbv zeta.
  generalize (fold_left apply_alias aliases
                {| columns := map (fun c => Py.lower (Py.strip c)) (columns df);
                   rows := rows df |}).
  intros out (plan & I1 & I2 & I3 & I4 & I6 & I7 & I5).
  cbn [columns rows] in I2, I6, I7, I5.
  exists plan. repeat match goal with |- _ /\ _ => split end; auto.
  assert (Lp : List.length (columns out) = List.length (columns df)).
  { rewrite I1, length_map, <- (length_map fst).
    rewrite (Permutation_length I2). apply length_map. }
  revert F. clear F0.
  induction I5 as [|r0 r rs0 rs [L G] _ IH]; intros F; constructor.
  - inversion F as [|? ? L0 F']; subst. split; [congruence|exact G].
  - inversion F; subst. now apply IH.
Qed.

End Normaliser.

(** The sample file has an alias for the roll number, the name, the
    e-mail address, the father's name and the semester. *)
Lemma normalize_columns_keeps_data_witness :
  exists plan : list (string * string),
    Frame.columns (Frame.normalize_columns (B := Literal.builtins)
                                           SampleAliases.students) =
      map snd plan /\
    Permutation (map fst plan)
                (map (fun c => Literal.lower (Literal.strip c))
                     (Frame.columns SampleAliases.students)) /\
    NoDup (map snd plan).
Proof.
  destruct (normalize_columns_keeps_data (B := Literal.builtins)
              SampleAliases.students)
    as (plan & H1 & H2 & H3 & _).
  - vm_compute.
    repeat (constructor;
            [simpl; intros H;
             repeat (destruct H as [H|H]; [discriminate|]); exact H|]).
    constructor.
  - repeat constructor.
  - exists plan. auto.
Defined.

(* The alias table is never unfolded by a proof step. *)
#[local] Opaque Frame.normalize_columns.

Section StudentsImport.
Import Frame Store Importers.
Context {B : Py.Builtins}.


Lemma first_missing_some (required : list string) (df : DataFrame) (c : string) :
  In c required -> mem c (columns df) = false ->
  exists c0, first_missing required df = Some c0 /\ In c0 required /\
             mem c0 (columns df) = false.
Proof.
  intros Hin Hc. unfold first_missing.
  destruct (find _ required) as [c0|] eqn:F.
  - exists c0. apply find_some in F. destruct F as [F1 F2].
    apply negb_true_iff in F2. auto.
  - exfalso. apply (find_none _ _ F) in Hin. now rewrite Hc in Hin.
Qed.

Lemma columns_fillna (v : cell) (df : DataFrame) :
  columns (fillna v df) = columns df.
Proof. reflexivity. Qed.



(** The effect of one applied row on the query by roll number. *)
Lemma apply_student_find (uid : Z) (s : student_row) (db db' : DB) (k : string) :
  apply_student uid s db = Ok db' ->
  find_student k db' =
  if String.eqb (st_roll_no s) k then Some s else find_student k db.
Proof.
  unfold apply_student. intros H. bind_inv H.
  destruct (upload_exists uid _); [|discriminate].
  injection H as <-. unfold find_student. simpl.
  destruct (String.eqb (st_roll_no s) k) eqn:Ek.
  - apply String.eqb_eq in Ek. subst k. apply find_upsert_student_same.
  - apply String.eqb_neq in Ek. now apply find_upsert_student_other.
Qed.

Lemma students_loop_find (df : DataFrame) (uid : Z) (rs : list (list cell)) :
  forall (db : DB) (n : Z) (st : DB * Z) (k : string),
    students_loop df uid rs db n = Ok st ->
    find_student k (fst st) = last_written df k rs (find_student k db).
Proof.
  induction rs as [|r rest IH]; simpl; intros db n st k H.
  - now injection H as <-.
  - bind_inv H. rewrite E. destruct x as [s|].
    + bind_inv H. rewrite (IH _ _ _ k H).
      now rewrite (apply_student_find _ _ _ _ k E0).
    + eapply IH; eassumption.
Qed.



Lemma find_student_bump (k : string) (uid n : Z) (db : DB) :
  find_student k (bump_rowcount uid n db) = find_student k db.
Proof. reflexivity. Qed.




End StudentsImport.


(** ** A Students file without a required column *)

Section MissingColumn.
Import Frame Store Importers Routes.
Context {B : Py.Builtins}.



End MissingColumn.



(** ** Rollback of an unknown upload *)

Section UnknownUpload.
Import Store Importers Routes.
Context {B : Py.Builtins}.


Lemma sqlite_int_fits (z : Z) :
  - 2 ^ 63 <= z < 2 ^ 63 -> Py.sqlite_int z = Ok z.
Proof.
  intros [L U]. unfold Py.sqlite_int.
  now rewrite (proj2 (Z.leb_le _ _) L), (proj2 (Z.ltb_lt _ _) U).
Qed.


End UnknownUpload.



(** ** Attendance and Marks imports *)

Section AttendanceImport.
Import Frame Store Importers.
Context {B : Py.Builtins}.

Lemma apply_attendance_find (a : attendance_row) (db db' : DB)
    (roll subj : string) :
  apply_attendance a db = Ok db' ->
  find_attendance roll subj db' =
  if same_attendance roll subj a
  then Some (merge_attendance a (find_attendance roll subj db))
  else find_attendance roll subj db.
Proof.
  unfold apply_attendance. intros H. repeat bind_inv H.
  destruct (_ && _); [|discriminate]. injection H as <-.
  unfold find_attendance. simpl.
  destruct (same_attendance roll subj a) eqn:K.
  - unfold same_attendance in K. apply andb_true_iff in K.
    destruct K as [K1 K2]. apply String.eqb_eq in K1, K2. subst roll subj.
    apply find_upsert_attendance_same.
  - now apply find_upsert_attendance_other.
Qed.

Lemma attendance_loop_find (df : DataFrame) (uid : Z) (rs : list (list cell)) :
  forall (db : DB) (n : Z) (st : DB * Z) (roll subj : string),
    attendance_loop df uid rs db n = Ok st ->
    find_attendance roll subj (fst st) =
    written_attendance df uid roll subj rs (find_attendance roll subj db).
Proof.
  induction rs as [|r rest IH]; simpl; intros db n st roll subj H.
  - now injection H as <-.
  - bind_inv H. rewrite E. destruct x as [a|].
    + bind_inv H. rewrite (IH _ _ _ roll subj H).
      now rewrite (apply_attendance_find _ _ _ roll subj E0).
    + eapply IH; eassumption.
Qed.

Lemma attendance_of_row_source (df : DataFrame) (uid : Z) (r : list cell)
    (a : attendance_row) :
  attendance_of_row df uid r = Ok (Some a) ->
  at_source_upload_id a = Some uid.
Proof.
  unfold attendance_of_row. intros H. repeat bind_inv H.
  destruct (_ || _); [discriminate|].
  repeat bind_inv H. now injection H as <-.
Qed.






End AttendanceImport.

Section MarksImport.
Import Frame Store Importers.
Context {B : Py.Builtins}.

Lemma apply_marks_find (m : marks_row) (db db' : DB) (roll exam subj : string) :
  apply_marks m db = Ok db' ->
  find_marks roll exam subj db' =
  if same_marks roll exam subj m
  then Some (merge_marks m (find_marks roll exam subj db))
  else find_marks roll exam subj db.
Proof.
  unfold apply_marks. intros H. repeat bind_inv H.
  destruct (_ && _); [|discriminate]. injection H as <-.
  unfold find_marks. simpl.
  destruct (same_marks roll exam subj m) eqn:K.
  - unfold same_marks in K. apply andb_true_iff in K. destruct K as [K K3].
    apply andb_true_iff in K. destruct K as [K1 K2].
    apply String.eqb_eq in K1, K2, K3. subst roll exam subj.
    apply find_upsert_marks_same.
  - now apply find_upsert_marks_other.
Qed.

Lemma marks_loop_find (df : DataFrame) (uid : Z) (rs : list (list cell)) :
  forall (db : DB) (n : Z) (st : DB * Z) (roll exam subj : string),
    marks_loop df uid rs db n = Ok st ->
    find_marks roll exam subj (fst st) =
    written_marks df uid roll exam subj rs (find_marks roll exam subj db).
Proof.
  induction rs as [|r rest IH]; simpl; intros db n st roll exam subj H.
  - now injection H as <-.
  - bind_inv H. rewrite E. destruct x as [m|].
    + bind_inv H. rewrite (IH _ _ _ roll exam subj H).
      now rewrite (apply_marks_find _ _ _ roll exam subj E0).
    + eapply IH; eassumption.
Qed.

Lemma marks_of_row_source (df : DataFrame) (uid : Z) (r : list cell)
    (m : marks_row) :
  marks_of_row df uid r = Ok (Some m) -> mk_source_upload_id m = Some uid.
Proof.
  unfold marks_of_row. intros H. repeat bind_inv H.
  destruct (_ || _); [discriminate|].
  repeat bind_inv H. now injection H as <-.
Qed.







End MarksImport.

Section Reimport.
Import Frame Store Importers.
Context {B : Py.Builtins}.



End Reimport.



(** C3 fails for a file that has the semester (credits) column and leaves
    the cell blank. The blank is read as NaN; [fillna(0)] makes it 0.0;
    [str] gives "0.0", which is neither empty nor "nan", so the importer
    binds the semester 0, and [COALESCE(excluded.semester, ...)]
    overwrites the stored semester 3 with 0. The test on the text that was
    to recognise a blank never sees one. A file without the column leaves
    the stored value as it was. *)
Theorem blank_semester_overwritten :
  Store.find_attendance "R1" "Math" SampleReimport.with_upload4 =
    Some (Store.mkAttendance "R1" "Math" 10 20 (Some 3) (Some 2)) /\
  Frame.iterrows (Importers.attendance_frame (B := Literal.builtins)
                                             SampleReimport.attendance3) =
    [[Frame.CStr "R1"; Frame.CStr "Math"; Frame.CInt 12; Frame.CInt 24;
      Frame.CFloat 0]] /\
  Importers.import_attendance (B := Literal.builtins)
    SampleReimport.attendance3 4 SampleReimport.with_upload4 =
    Ok SampleReimport.after_attendance3 /\
  Store.find_attendance "R1" "Math" SampleReimport.after_attendance3 =
    Some (Store.mkAttendance "R1" "Math" 12 24 (Some 0) (Some 4)) /\
  Store.find_marks "R1" "Midterm" "Math" SampleReimport.with_upload5 =
    Some (Store.mkMarks "R1" "Midterm" "Math" 100 90 (Some 4) (Some 3)
                        (Some 3)) /\
  Importers.import_marks (B := Literal.builtins)
    SampleReimport.marks3 5 SampleReimport.with_upload5 =
    Ok SampleReimport.after_marks3 /\
  Store.find_marks "R1" "Midterm" "Math" SampleReimport.after_marks3 =
    Some (Store.mkMarks "R1" "Midterm" "Math" 100 95 (Some 0) (Some 0)
                        (Some 5)).
Proof. repeat split; vm_compute; reflexivity. Qed.

(** ** Rows without an identifying value *)

(** C7 fails for Attendance files (and for Marks files, whose importer
    prepares its frame the same way): [fillna(0)] turns the missing roll
    number into 0, [str] makes it "0", and the row is not skipped. Where no
    student has the roll number "0" the INSERT violates the foreign key and
    the whole import fails, the complete row included; where one has, the
    row is stored under "0" and counted. A roll number of blanks only is
    skipped, and so is a missing roll number of a Students file. *)
Theorem missing_roll_not_skipped :
  Importers.attendance_of_row (B := Literal.builtins)
    (Importers.attendance_frame (B := Literal.builtins)
                                SampleSkip.attendance_nan) 4
    [Frame.CInt 0; Frame.CStr "Math"; Frame.CInt 5; Frame.CInt 10] =
    Ok (Some (Store.mkAttendance "0" "Math" 5 10 None (Some 4))) /\
  Importers.import_attendance (B := Literal.builtins)
    SampleSkip.attendance_nan 4 SampleSkip.store =
    Err (IntegrityError "FOREIGN KEY constraint failed") /\
  SampleSkip.attendance_keys
    (Importers.import_attendance (B := Literal.builtins)
       SampleSkip.attendance_nan 4 SampleSkip.store_with_zero) =
    [("R1", "Math"); ("0", "Math"); ("R1", "Physics")] /\
  SampleSkip.row_count 4
    (Importers.import_attendance (B := Literal.builtins)
       SampleSkip.attendance_nan 4 SampleSkip.store_with_zero) = Some 2 /\
  SampleSkip.attendance_keys
    (Importers.import_attendance (B := Literal.builtins)
       SampleSkip.attendance_space 4 SampleSkip.store) =
    [("R1", "Math"); ("R1", "Physics")] /\
  SampleSkip.row_count 4
    (Importers.import_attendance (B := Literal.builtins)
       SampleSkip.attendance_space 4 SampleSkip.store) = Some 1 /\
  option_map (fun db => map Store.st_roll_no (Store.students db))
    (match Importers.import_students (B := Literal.builtins)
             SampleSkip.students_nan 4 SampleSkip.store with
     | Ok db => Some db
     | Err _ => None
     end) = Some ["R1"; "R2"].
Proof. repeat split; vm_compute; reflexivity. Qed.

(** ** The marks grid *)

(** C8 fails on the placeholder: the two cells without a mark hold the
    eight bytes of the literal of line 351 (an em dash read as cp1252 and
    written back as UTF-8), not an em dash. The headers, the order of the
    exams and the rendered marks are as C8 says. *)
Theorem marks_grid_placeholder :
  Grid.build_marks_grid "R1" SampleGrid.store =
    (["Exam"; "Math"; "Physics"],
     [[("Exam", "Final"); ("Math", Grid.placeholder);
       ("Physics", "D (20/50)")];
      [("Exam", "Midterm"); ("Math", "A+ (90/100)");
       ("Physics", Grid.placeholder)]]) /\
  String.length Grid.placeholder = 8%nat /\
  Grid.placeholder <> Grid.em_dash.
Proof.
  repeat split; try (vm_compute; reflexivity).
  vm_compute. discriminate.
Qed.

(** ** Invariants of the reachable stores *)

Section StoreInvariants.
Import Frame Store Importers.

Lemma sqlite_int_ok (z z' : Z) : Py.sqlite_int z = Ok z' -> z' = z /\ int64 z.
Proof.
  unfold Py.sqlite_int, int64.
  destruct (_ && _) eqn:E; [|discriminate].
  intros [= <-]. apply andb_true_iff in E. lia.
Qed.

Lemma same_attendance_key (a b : attendance_row) :
  same_attendance (at_roll_no a) (at_subject a) b = true <->
  attendance_key b = attendance_key a.
Proof.
  unfold same_attendance, attendance_key.
  rewrite andb_true_iff, !String.eqb_eq. split.
  - intros [-> ->]. reflexivity.
  - intros [= -> ->]. auto.
Qed.

Lemma existsb_same_attendance (a : attendance_row) (l : list attendance_row) :
  existsb (same_attendance (at_roll_no a) (at_subject a)) l = false ->
  ~ In (attendance_key a) (map attendance_key l).
Proof.
  intros E I. apply in_map_iff in I. destruct I as (b & K & I).
  apply same_attendance_key in K.
  assert (T : existsb (same_attendance (at_roll_no a) (at_subject a)) l = true)
    by (apply existsb_exists; eauto).
  congruence.
Qed.

(** The upsert keeps the keys of the table, or adds the new key at the
    end when the table does not hold it. *)
Lemma upsert_attendance_keys (a : attendance_row) (l : list attendance_row) :
  map attendance_key (upsert_attendance a l) =
  if existsb (same_attendance (at_roll_no a) (at_subject a)) l
  then map attendance_key l
  else (map attendance_key l ++ [attendance_key a])%list.
Proof.
  induction l as [|old l IH]; simpl; [reflexivity|].
  destruct (same_attendance (at_roll_no a) (at_subject a) old) eqn:E; simpl.
  - reflexivity.
  - rewrite IH. now destruct (existsb _ l).
Qed.

Lemma upsert_attendance_range (a : attendance_row) (l : list attendance_row) :
  int64 (at_attended a) /\ int64 (at_total a) ->
  Forall (fun a => int64 (at_attended a) /\ int64 (at_total a)) l ->
  Forall (fun a => int64 (at_attended a) /\ int64 (at_total a))
         (upsert_attendance a l).
Proof.
  intros Ha. induction 1 as [|old l Ho Hl IH]; simpl.
  - now constructor.
  - destruct (same_attendance _ _ old); constructor; auto.
Qed.

Lemma upsert_attendance_ok (a : attendance_row) (l : list attendance_row) :
  int64 (at_attended a) /\ int64 (at_total a) ->
  attendance_ok l -> attendance_ok (upsert_attendance a l).
Proof.
  intros Ha [N R]. split; [|now apply upsert_attendance_range].
  rewrite upsert_attendance_keys.
  destruct (existsb _ l) eqn:E; [exact N|].
  apply NoDup_app; [exact N|repeat constructor; intros []|].
  intros k I [<-|[]]. now apply (existsb_same_attendance a l E).
Qed.

Lemma NoDup_map_filter {A K : Type} (key : A -> K) (f : A -> bool)
    (l : list A) :
  NoDup (map key l) -> NoDup (map key (filter f l)).
Proof.
  induction l as [|x l IH]; simpl; intros N; [constructor|].
  inversion N as [|? ? Hx Hl]; subst.
  destruct (f x); simpl; [constructor|]; auto.
  intros I. apply Hx. apply in_map_iff in I. destruct I as (y & E & I).
  apply filter_In in I. apply in_map_iff. exists y. tauto.
Qed.

Lemma attendance_ok_filter (f : attendance_row -> bool)
    (l : list attendance_row) :
  attendance_ok l -> attendance_ok (filter f l).
Proof.
  intros [N R]. split; [now apply NoDup_map_filter|].
  apply Forall_forall. intros a I. apply filter_In in I.
  rewrite Forall_forall in R. now apply R.
Qed.

Lemma attendance_ok_null (uid : Z) (l : list attendance_row) :
  attendance_ok l -> attendance_ok (map (null_source_a uid) l).
Proof.
  intros [N R]. split.
  - rewrite map_map.
    replace (map (fun a => attendance_key (null_source_a uid a)) l)
      with (map attendance_key l); [exact N|].
    apply map_ext. intros a. unfold null_source_a.
    now destruct (eq_opt _ _).
  - apply Forall_map. eapply Forall_impl; [|exact R].
    intros a Ha. unfold null_source_a. now destruct (eq_opt _ _).
Qed.

(** One row per key, said with the query that counts them. *)
Lemma NoDup_keys_at_most_one (l : list attendance_row) (roll subj : string) :
  NoDup (map attendance_key l) ->
  (List.length (filter (same_attendance roll subj) l) <= 1)%nat.
Proof.
  induction l as [|a l IH]; simpl; intros N; [lia|].
  inversion N as [|? ? Ha Hl]; subst.
  destruct (same_attendance roll subj a) eqn:E; [|now apply IH].
  simpl. destruct (filter (same_attendance roll subj) l) as [|b t] eqn:F;
    [simpl; lia|].
  exfalso. apply Ha.
  assert (I : In b (filter (same_attendance roll subj) l))
    by (rewrite F; now left).
  apply filter_In in I. destruct I as [I Eb].
  apply in_map_iff. exists b. split; [|exact I].
  unfold same_attendance in E, Eb. unfold attendance_key.
  apply andb_true_iff in E, Eb. destruct E as [E1 E2], Eb as [B1 B2].
  apply String.eqb_eq in E1, E2, B1, B2. congruence.
Qed.

End StoreInvariants.

Section ImportEffects.
Import Frame Store Importers.
Context {B : Py.Builtins}.

Lemma map_added_refl (uid : Z) (db db' : DB) :
  upload_students_map db' = upload_students_map db -> map_added uid db db'.
Proof. intros E. exists []. rewrite E, app_nil_r. split; [reflexivity|constructor]. Qed.

Lemma apply_student_effect (uid : Z) (s : student_row) (db db' : DB) :
  apply_student uid s db = Ok db' ->
  uploads db' = uploads db /\ uploads_seq db' = uploads_seq db /\
  attendance db' = attendance db /\
  upload_students_map db' =
    (upload_students_map db ++
     [mkMap uid (st_roll_no s)
            (if student_exists (st_roll_no s) db then 0 else 1)])%list /\
  (forall roll, student_exists roll db' =
                String.eqb (st_roll_no s) roll || student_exists roll db).
Proof.
  unfold apply_student. intros H. bind_inv H.
  destruct (upload_exists uid _); [|discriminate].
  injection H as <-. simpl. repeat split.
  intros roll. unfold student_exists. simpl. apply existsb_upsert_student.
Qed.

Lemma students_loop_effect (df : DataFrame) (uid : Z) (rs : list (list cell)) :
  forall (db : DB) (n : Z) (st : DB * Z),
    students_loop df uid rs db n = Ok st ->
    uploads (fst st) = uploads db /\
    uploads_seq (fst st) = uploads_seq db /\
    attendance (fst st) = attendance db /\
    map_added uid db (fst st) /\
    (forall roll, student_exists roll db = true ->
                  student_exists roll (fst st) = true).
Proof.
  induction rs as [|r rest IH]; simpl; intros db n st H.
  - injection H as <-. simpl. repeat split; auto. now apply map_added_refl.
  - bind_inv H. destruct x as [s|]; [|eapply IH; eassumption].
    bind_inv H. destruct (apply_student_effect _ _ _ _ E0)
      as (U & Q & A & M & X).
    destruct (IH _ _ _ H) as (U' & Q' & A' & (added & M' & F') & X').
    assert (Mono : forall roll, student_exists roll db = true ->
                                student_exists roll x = true).
    { intros roll T. rewrite X, T. apply orb_true_r. }
    repeat split; try congruence.
    + eexists. split.
      * rewrite M', M, <- app_assoc. reflexivity.
      * constructor.
        { simpl. split; [reflexivity|].
          destruct (student_exists (st_roll_no s) db); [discriminate|auto]. }
        { eapply Forall_impl; [|exact F']. simpl. intros m [I C].
          split; [exact I|]. intros C1. specialize (C C1).
          destruct (student_exists (mp_roll_no m) db) eqn:T; [|reflexivity].
          apply Mono in T. congruence. }
    + intros roll T. apply X', Mono, T.
Qed.

Lemma bump_rowcount_ids (uid n : Z) (db : DB) :
  map up_id (uploads (bump_rowcount uid n db)) = map up_id (uploads db).
Proof.
  unfold bump_rowcount. simpl. rewrite map_map. apply map_ext.
  intros u. now destruct (up_id u =? uid).
Qed.

Lemma import_students_effect (df : DataFrame) (uid : Z) (db db' : DB) :
  import_students df uid db = Ok db' ->
  import_effect uid db db' /\
  (forall roll, student_exists roll db = true ->
                student_exists roll db' = true).
Proof.
  unfold import_students. generalize (students_frame df). intros fr H.
  cbv zeta in H. bind_inv H. bind_inv H. injection H as <-.
  destruct (students_loop_effect _ _ _ _ _ _ E0) as (U & Q & A & M & X).
  split; [|exact X].
  split; [exact Q|]. split; [|split].
  - rewrite bump_rowcount_ids. now rewrite U.
  - exact M.
  - simpl. now rewrite A.
Qed.

Lemma apply_attendance_range (a : attendance_row) (db db' : DB) :
  apply_attendance a db = Ok db' ->
  int64 (at_attended a) /\ int64 (at_total a).
Proof.
  unfold apply_attendance. intros H. repeat bind_inv H.
  apply sqlite_int_ok in E, E0. tauto.
Qed.

Lemma apply_attendance_effect (a : attendance_row) (db db' : DB) :
  apply_attendance a db = Ok db' ->
  uploads db' = uploads db /\ uploads_seq db' = uploads_seq db /\
  students db' = students db /\
  upload_students_map db' = upload_students_map db /\
  (attendance_ok (attendance db) -> attendance_ok (attendance db')).
Proof.
  intros H. pose proof (apply_attendance_range _ _ _ H) as R.
  unfold apply_attendance in H. repeat bind_inv H.
  destruct (_ && _); [|discriminate]. injection H as <-. simpl.
  repeat split; try reflexivity; now apply upsert_attendance_ok.
Qed.

Lemma attendance_loop_effect (df : DataFrame) (uid : Z)
    (rs : list (list cell)) :
  forall (db : DB) (n : Z) (st : DB * Z),
    attendance_loop df uid rs db n = Ok st ->
    uploads (fst st) = uploads db /\
    uploads_seq (fst st) = uploads_seq db /\
    students (fst st) = students db /\
    upload_students_map (fst st) = upload_students_map db /\
    (attendance_ok (attendance db) -> attendance_ok (attendance (fst st))).
Proof.
  induction rs as [|r rest IH]; simpl; intros db n st H.
  - injection H as <-. simpl.
    repeat match goal with |- _ /\ _ => split end; auto.
  - bind_inv H. destruct x as [a|]; [|eapply IH; eassumption].
    bind_inv H. destruct (apply_attendance_effect _ _ _ E0)
      as (U & Q & S & M & A).
    destruct (IH _ _ _ H) as (U' & Q' & S' & M' & A').
    repeat match goal with |- _ /\ _ => split end; try congruence; auto.
Qed.

Lemma import_attendance_effect (df : DataFrame) (uid : Z) (db db' : DB) :
  import_attendance df uid db = Ok db' ->
  import_effect uid db db' /\ students db' = students db.
Proof.
  unfold import_attendance. generalize (attendance_frame df). intros fr H.
  cbv zeta in H. bind_inv H. bind_inv H. injection H as <-.
  destruct (attendance_loop_effect _ _ _ _ _ _ E0) as (U & Q & S & M & A).
  split; [|exact S].
  split; [exact Q|]. split; [|split].
  - rewrite bump_rowcount_ids. now rewrite U.
  - now apply map_added_refl.
  - exact A.
Qed.

Lemma apply_marks_effect (m : marks_row) (db db' : DB) :
  apply_marks m db = Ok db' ->
  uploads db' = uploads db /\ uploads_seq db' = uploads_seq db /\
  students db' = students db /\
  upload_students_map db' = upload_students_map db /\
  attendance db' = attendance db.
Proof.
  unfold apply_marks. intros H. repeat bind_inv H.
  destruct (_ && _); [|discriminate]. injection H as <-. simpl. auto.
Qed.

Lemma marks_loop_effect (df : DataFrame) (uid : Z) (rs : list (list cell)) :
  forall (db : DB) (n : Z) (st : DB * Z),
    marks_loop df uid rs db n = Ok st ->
    uploads (fst st) = uploads db /\
    uploads_seq (fst st) = uploads_seq db /\
    students (fst st) = students db /\
    upload_students_map (fst st) = upload_students_map db /\
    attendance (fst st) = attendance db.
Proof.
  induction rs as [|r rest IH]; simpl; intros db n st H.
  - injection H as <-. simpl.
    repeat match goal with |- _ /\ _ => split end; auto.
  - bind_inv H. destruct x as [m|]; [|eapply IH; eassumption].
    bind_inv H. destruct (apply_marks_effect _ _ _ E0) as (U & Q & S & M & A).
    destruct (IH _ _ _ H) as (U' & Q' & S' & M' & A').
    repeat split; congruence.
Qed.

Lemma import_marks_effect (df : DataFrame) (uid : Z) (db db' : DB) :
  import_marks df uid db = Ok db' ->
  import_effect uid db db' /\ students db' = students db.
Proof.
  unfold import_marks. generalize (marks_frame df). intros fr H.
  cbv zeta in H. bind_inv H. bind_inv H. injection H as <-.
  destruct (marks_loop_effect _ _ _ _ _ _ E0) as (U & Q & S & M & A).
  split; [|exact S].
  split; [exact Q|]. split; [|split].
  - rewrite bump_rowcount_ids. now rewrite U.
  - now apply map_added_refl.
  - simpl. now rewrite A.
Qed.

End ImportEffects.

(** ** What a rollback deletes *)

Section RollbackEffect.
Import Frame Store Importers.
Context {B : Py.Builtins}.

Lemma filter_all {A : Type} (f : A -> bool) (l : list A) :
  (forall x, In x l -> f x = true) -> filter f l = l.
Proof.
  induction l as [|x l IH]; simpl; intros H; [reflexivity|].
  rewrite (H x (or_introl eq_refl)). f_equal. apply IH. auto.
Qed.

Lemma filter_twice {A : Type} (f : A -> bool) (l : list A) :
  filter f (filter f l) = filter f l.
Proof.
  apply filter_all. intros x I. now apply filter_In in I.
Qed.

Lemma map_fixed {A : Type} (f : A -> A) (l : list A) :
  (forall x, In x l -> f x = x) -> map f l = l.
Proof.
  induction l as [|x l IH]; simpl; intros H; [reflexivity|].
  rewrite (H x (or_introl eq_refl)). f_equal. apply IH. auto.
Qed.

Lemma null_source_a_fixed (uid : Z) (f : attendance_row -> bool)
    (l : list attendance_row) :
  map (null_source_a uid)
      (filter f (filter (fun a => negb (eq_opt (at_source_upload_id a) uid)) l))
  = filter f (filter (fun a => negb (eq_opt (at_source_upload_id a) uid)) l).
Proof.
  apply map_fixed. intros a I. apply filter_In in I. destruct I as [I _].
  apply filter_In in I. destruct I as [_ I]. apply negb_true_iff in I.
  unfold null_source_a. now rewrite I.
Qed.

Lemma null_source_m_fixed (uid : Z) (f : marks_row -> bool)
    (l : list marks_row) :
  map (null_source_m uid)
      (filter f (filter (fun m => negb (eq_opt (mk_source_upload_id m) uid)) l))
  = filter f (filter (fun m => negb (eq_opt (mk_source_upload_id m) uid)) l).
Proof.
  apply map_fixed. intros a I. apply filter_In in I. destruct I as [I _].
  apply filter_In in I. destruct I as [_ I]. apply negb_true_iff in I.
  unfold null_source_m. now rewrite I.
Qed.

Lemma find_upload_exists (uid : Z) (db : DB) :
  upload_exists uid db = true -> exists u, find_upload uid db = Some u.
Proof.
  unfold upload_exists, find_upload. intros E.
  destruct (find _ (uploads db)) as [u|] eqn:F; [eauto|].
  apply existsb_exists in E. destruct E as (u & I & E).
  apply (find_none _ _ F) in I. congruence.
Qed.

Lemma sqlite_int_cases (z : Z) :
  (- 2 ^ 63 <= z < 2 ^ 63 /\ Py.sqlite_int z = Ok z) \/
  (~ - 2 ^ 63 <= z < 2 ^ 63 /\ exists e, Py.sqlite_int z = Err e).
Proof.
  unfold Py.sqlite_int.
  destruct (- 2 ^ 63 <=? z) eqn:L; destruct (z <? 2 ^ 63) eqn:U; simpl;
    try apply Z.leb_le in L; try apply Z.leb_gt in L;
    try apply Z.ltb_lt in U; try apply Z.ltb_ge in U;
    [left; split; [lia|reflexivity]|right; split; [lia|eauto]..].
Qed.

(** A rollback that raises or finds no record leaves the store as it
    is. *)
Lemma delete_upload_unchanged (uid : Z) (db : DB) :
  snd (delete_upload uid db) = db \/
  exists u, find_upload uid db = Some u /\
            - 2 ^ 63 <= uid < 2 ^ 63 /\
            (N.of_nat (List.length (created_rolls uid db)) <=
               Py.max_variable_number)%N.
Proof.
  unfold delete_upload.
  destruct (sqlite_int_cases uid) as [[R ->]|[_ (e & ->)]]; [|now left].
  destruct (find_upload uid db) as [u|]; [|now left].
  change (created_rolls uid
            (set_marks
               (filter (fun m => negb (eq_opt (mk_source_upload_id m) uid))
                       (marks (set_attendance
                                 (filter (fun a =>
                                            negb (eq_opt (at_source_upload_id a)
                                                         uid))
                                         (attendance db)) db)))
               (set_attendance
                  (filter (fun a => negb (eq_opt (at_source_upload_id a) uid))
                          (attendance db)) db)))
    with (created_rolls uid db).
  destruct (created_rolls uid db) as [|c cs] eqn:C.
  - right. exists u. split; [reflexivity|]. split; [exact R|]. simpl. lia.
  - destruct (N.ltb _ _) eqn:V; [now left|].
    right. exists u. apply N.ltb_ge in V. auto.
Qed.

Lemma delete_upload_known (uid : Z) (db : DB) :
  - 2 ^ 63 <= uid < 2 ^ 63 ->
  upload_exists uid db = true ->
  (N.of_nat (List.length (created_rolls uid db)) <= Py.max_variable_number)%N ->
  delete_upload uid db = (Ok true, after_rollback uid db).
Proof.
  intros R E V. destruct (find_upload_exists _ _ E) as (u & F).
  unfold delete_upload.
  destruct (sqlite_int_cases uid) as [[_ ->]|[N _]]; [|contradiction].
  rewrite F.
  change (created_rolls uid
            (set_marks
               (filter (fun m => negb (eq_opt (mk_source_upload_id m) uid))
                       (marks (set_attendance
                                 (filter (fun a =>
                                            negb (eq_opt (at_source_upload_id a)
                                                         uid))
                                         (attendance db)) db)))
               (set_attendance
                  (filter (fun a => negb (eq_opt (at_source_upload_id a) uid))
                          (attendance db)) db)))
    with (created_rolls uid db).
  unfold after_rollback.
  change (created_rolls uid
            (set_marks
               (filter (fun m => negb (eq_opt (mk_source_upload_id m) uid))
                       (marks (set_attendance
                                 (filter (fun a =>
                                            negb (eq_opt (at_source_upload_id a)
                                                         uid))
                                         (attendance db)) db)))
               (set_attendance
                  (filter (fun a => negb (eq_opt (at_source_upload_id a) uid))
                          (attendance db)) db)))
    with (created_rolls uid db).
  destruct (created_rolls uid db) as [|c cs] eqn:C;
    [|rewrite (proj2 (N.ltb_ge _ _) V)]; f_equal.
  - unfold delete_uploads_row, set_map, set_marks, set_attendance. simpl.
    rewrite filter_twice.
    rewrite <- (filter_all (fun a => negb (mem (at_roll_no a) []))
                  (filter (fun a => negb (eq_opt (at_source_upload_id a) uid))
                          (attendance db))) at 1 by reflexivity.
    rewrite null_source_a_fixed.
    rewrite <- (filter_all (fun m => negb (mem (mk_roll_no m) []))
                  (filter (fun m => negb (eq_opt (mk_source_upload_id m) uid))
                          (marks db))) at 1 by reflexivity.
    rewrite null_source_m_fixed.
    f_equal; symmetry; apply filter_all; reflexivity.
  - unfold delete_uploads_row, delete_students, set_map, set_marks,
      set_attendance. simpl.
    rewrite filter_twice, null_source_a_fixed, null_source_m_fixed.
    reflexivity.
Qed.

(** With more created students than one statement takes parameters, the
    DELETE on [students] raises and nothing is committed. *)
Lemma delete_upload_too_many (uid : Z) (db : DB) :
  - 2 ^ 63 <= uid < 2 ^ 63 ->
  upload_exists uid db = true ->
  (Py.max_variable_number < N.of_nat (List.length (created_rolls uid db)))%N ->
  delete_upload uid db =
  (Err (OperationalError "too many SQL variables"), db).
Proof.
  intros R E V. destruct (find_upload_exists _ _ E) as (u & F).
  unfold delete_upload.
  rewrite (sqlite_int_fits uid R), F.
  change (created_rolls uid
            (set_marks
               (filter (fun m => negb (eq_opt (mk_source_upload_id m) uid))
                       (marks (set_attendance
                                 (filter (fun a =>
                                            negb (eq_opt (at_source_upload_id a)
                                                         uid))
                                         (attendance db)) db)))
               (set_attendance
                  (filter (fun a => negb (eq_opt (at_source_upload_id a) uid))
                          (attendance db)) db)))
    with (created_rolls uid db).
  destruct (created_rolls uid db) as [|c cs] eqn:C; [simpl in V; lia|].
  now rewrite (proj2 (N.ltb_lt _ _) V).
Qed.

(** A rollback leaves [after_rollback], answering [True], or leaves the
    store as it is. *)
Lemma delete_upload_cases (uid : Z) (db : DB) :
  (upload_exists uid db = true /\
   delete_upload uid db = (Ok true, after_rollback uid db)) \/
  (exists r, delete_upload uid db = (r, db)).
Proof.
  destruct (delete_upload_unchanged uid db) as [U|(u & F & R & V)].
  - right. exists (fst (delete_upload uid db)).
    rewrite <- U at 3. now destruct (delete_upload uid db).
  - left.
    assert (E : upload_exists uid db = true).
    { unfold upload_exists, find_upload in *. apply find_some in F.
      apply existsb_exists. eauto. }
    split; [exact E|now apply delete_upload_known].
Qed.

End RollbackEffect.

Section Reachability.
Import Frame Store Importers Routes.
Context {B : Py.Builtins}.

Lemma step_ok_refl (db : DB) : store_ok db -> step_ok db db.
Proof. intros H. split; [exact H|]. split; [lia|auto]. Qed.

Lemma create_upload_record_ok (fn kind t u : string) (db : DB) :
  uploads_seq db < 2 ^ 63 - 1 ->
  create_upload_record fn kind t u db =
  (Ok (uploads_seq db + 1),
   set_uploads (uploads db ++ [mkUpload (uploads_seq db + 1) fn kind 0 t u])
               (uploads_seq db + 1) db).
Proof.
  intros Q. unfold create_upload_record.
  now rewrite (proj2 (Z.ltb_lt _ _) Q).
Qed.

(** What an upload request leaves: the store as it was; or, the id
    counter not being exhausted, the store with the new record; or the
    store the importer made of that one. *)
Lemma upload_with_cases (kind choose : string)
    (importer : DataFrame -> Z -> DB -> res DB) (rq : Request) (db : DB) :
  fst (upload_with kind choose importer rq db) = db \/
  exists f,
    uploads_seq db < 2 ^ 63 - 1 /\
    (fst (upload_with kind choose importer rq db) =
       snd (create_upload_record (saved_name f) kind (now rq) (actor rq) db) \/
     exists df,
       importer df (uploads_seq db + 1)
                (snd (create_upload_record (saved_name f) kind (now rq)
                                           (actor rq) db)) =
       Ok (fst (upload_with kind choose importer rq db))).
Proof.
  unfold upload_with.
  destruct (negb (is_admin rq)); [now left|].
  destruct (posted rq) as [f|]; [|now left].
  destruct (String.eqb (filename f) ""); [now left|].
  destruct (negb (allowed_ext (filename f))); [now left|].
  unfold create_upload_record.
  destruct (uploads_seq db <? 2 ^ 63 - 1) eqn:Q; [|now left].
  apply Z.ltb_lt in Q.
  right. exists f. split; [exact Q|]. cbn [snd bind].
  set (db1 := set_uploads _ _ db).
  destruct (bind (loaded f) _) as [db2|e] eqn:E; [|now left].
  right. bind_inv E. exists x. exact E.
Qed.

Lemma delete_upload_route_store (rq : Request) (uid : Z) (db : DB) :
  fst (delete_upload_route rq uid db) =
  if negb (is_admin rq) then db else snd (delete_upload uid db).
Proof.
  unfold delete_upload_route. destruct (negb (is_admin rq)); [reflexivity|].
  now destruct (delete_upload uid db).
Qed.

Lemma upload_with_step (kind choose : string)
    (importer : DataFrame -> Z -> DB -> res DB) (rq : Request) (db : DB) :
  (forall df uid d d', importer df uid d = Ok d' -> import_effect uid d d') ->
  store_ok db ->
  step_ok db (fst (upload_with kind choose importer rq db)).
Proof.
  intros Himp Hok. unfold upload_with.
  destruct (negb (is_admin rq)); [now apply step_ok_refl|].
  destruct (posted rq) as [f|]; [|now apply step_ok_refl].
  destruct (String.eqb (filename f) ""); [now apply step_ok_refl|].
  destruct (negb (allowed_ext (filename f))); [now apply step_ok_refl|].
  unfold create_upload_record.
  destruct (uploads_seq db <? 2 ^ 63 - 1); [|now apply step_ok_refl].
  cbn [bind].
  set (db1 := set_uploads _ _ db).
  destruct Hok as [[Hu Hm] Ha].
  assert (Ok1 : store_ok db1).
  { split; [split|exact Ha]; simpl.
    - intros u I. apply in_app_or in I. destruct I as [I|[<-|[]]].
      + apply Hu in I. lia.
      + simpl. lia.
    - intros m I. apply Hm in I. lia. }
  assert (S1 : step_ok db db1).
  { split; [exact Ok1|]. split; [simpl; lia|]. intros m I. now left. }
  destruct (bind (loaded f) _) as [db2|e] eqn:E; [|exact S1].
  bind_inv E. apply Himp in E.
  destruct E as (Q & U & (added & M & F) & A).
  destruct Ok1 as [[Hu1 Hm1] Ha1]. cbn [fst].
  split; [|split].
  - split; [split|now apply A].
    + intros u I. rewrite Q.
      assert (J : In (up_id u) (map up_id (uploads db1))).
      { rewrite <- U. now apply in_map. }
      apply in_map_iff in J. destruct J as (u' & <- & J). now apply Hu1.
    + intros m I. simpl in I. rewrite M in I. rewrite Q.
      apply in_app_or in I. destruct I as [I|I]; [now apply Hm1|].
      rewrite Forall_forall in F. destruct (F m I) as [-> _]. simpl. lia.
  - simpl. rewrite Q. simpl. lia.
  - intros m I. simpl in I. rewrite M in I.
    apply in_app_or in I. destruct I as [I|I]; [now left|].
    right. rewrite Forall_forall in F. exact (F m I).
Qed.

Lemma after_rollback_step (uid : Z) (db : DB) :
  store_ok db -> step_ok db (after_rollback uid db).
Proof.
  intros [[Hu Hm] Ha]. split; [|split].
  - split; [split|]; simpl.
    + intros u I. apply filter_In in I. now apply Hu.
    + intros m I. apply filter_In in I. now apply Hm.
    + now apply attendance_ok_filter, attendance_ok_filter.
  - simpl. lia.
  - intros m I. simpl in I. apply filter_In in I. tauto.
Qed.

Lemma delete_upload_step (uid : Z) (db : DB) :
  store_ok db -> step_ok db (snd (delete_upload uid db)).
Proof.
  intros H.
  destruct (delete_upload_unchanged uid db) as [->|(u & F & R & V)];
    [now apply step_ok_refl|].
  rewrite delete_upload_known; [now apply after_rollback_step|exact R| |exact V].
  unfold upload_exists, find_upload in *. apply find_some in F.
  apply existsb_exists. eauto.
Qed.

Lemma run_step (a : action) (db : DB) : store_ok db -> step_ok db (run a db).
Proof.
  intros H. destruct a as [rq|rq|rq|rq uid|rq roll remark]; simpl.
  - apply upload_with_step; [|exact H].
    intros df uid d d' E. exact (proj1 (import_students_effect _ _ _ _ E)).
  - apply upload_with_step; [|exact H].
    intros df uid d d' E. exact (proj1 (import_attendance_effect _ _ _ _ E)).
  - apply upload_with_step; [|exact H].
    intros df uid d d' E. exact (proj1 (import_marks_effect _ _ _ _ E)).
  - unfold delete_upload_route.
    destruct (negb (is_admin rq)); [now apply step_ok_refl|].
    pose proof (delete_upload_step uid db H) as S.
    now destruct (delete_upload uid db) as [ok d].
  - unfold add_remark.
    destruct (String.eqb _ ""); [now apply step_ok_refl|].
    destruct (student_exists roll db); [|now apply step_ok_refl].
    destruct H as [[Hu Hm] Ha].
    split; [split; [split|]; assumption|]. split; [simpl; lia|auto].
Qed.

Lemma store_ok_empty : store_ok empty_db.
Proof.
  split; [split; intros ? []|]. split; constructor.
Qed.

Lemma reachable_ok (db : DB) : reachable db -> store_ok db.
Proof.
  induction 1 as [|a db R IH]; [apply store_ok_empty|].
  now apply run_step.
Qed.

Lemma reachable_run_all (l : list action) (db : DB) :
  reachable db -> reachable (run_all l db).
Proof.
  revert db. induction l as [|a l IH]; simpl; intros db R; [exact R|].
  apply IH. now constructor.
Qed.

(** The id counter stays within SQLite's integers: at the largest of them
    [create_upload_record] fails. *)
Lemma upload_with_seq (kind choose : string)
    (importer : DataFrame -> Z -> DB -> res DB) (rq : Request) (db : DB) :
  (forall df uid d d', importer df uid d = Ok d' -> import_effect uid d d') ->
  0 <= uploads_seq db < 2 ^ 63 ->
  0 <= uploads_seq (fst (upload_with kind choose importer rq db)) < 2 ^ 63.
Proof.
  intros Himp H.
  destruct (upload_with_cases kind choose importer rq db)
    as [->|(f & Q & [->|(df & E)])]; [exact H| |].
  - rewrite create_upload_record_ok by exact Q. simpl. lia.
  - apply Himp in E. destruct E as (U & _). rewrite U.
    rewrite create_upload_record_ok by exact Q. simpl. lia.
Qed.

Lemma run_seq (a : action) (db : DB) :
  0 <= uploads_seq db < 2 ^ 63 -> 0 <= uploads_seq (run a db) < 2 ^ 63.
Proof.
  intros H. destruct a as [rq|rq|rq|rq uid|rq roll remark]; simpl.
  - apply upload_with_seq; [|exact H].
    intros df uid d d' E. exact (proj1 (import_students_effect _ _ _ _ E)).
  - apply upload_with_seq; [|exact H].
    intros df uid d d' E. exact (proj1 (import_attendance_effect _ _ _ _ E)).
  - apply upload_with_seq; [|exact H].
    intros df uid d d' E. exact (proj1 (import_marks_effect _ _ _ _ E)).
  - rewrite delete_upload_route_store.
    destruct (negb (is_admin rq)); [exact H|].
    destruct (delete_upload_unchanged uid db) as [->|(u & F & R & V)];
      [exact H|].
    rewrite delete_upload_known; [exact H|exact R| |exact V].
    unfold upload_exists, find_upload in *. apply find_some in F.
    apply existsb_exists. eauto.
  - unfold add_remark.
    destruct (String.eqb _ ""); [exact H|].
    now destruct (student_exists roll db).
Qed.

Lemma reachable_seq (db : DB) :
  reachable db -> 0 <= uploads_seq db < 2 ^ 63.
Proof.
  induction 1 as [|a db R IH]; [simpl; lia|now apply run_seq].
Qed.

(** C9, as the code has it. In every store the program reaches there is
    at most one attendance row per (roll number, subject), and attended
    and total are integers within SQLite's 64 bits; no sign is imposed on
    them. *)
Theorem attendance_unique (db : DB) :
  reachable db ->
  (forall roll subj,
      (List.length (filter (same_attendance roll subj) (attendance db)) <= 1)%nat)
  /\
  (forall a, In a (attendance db) ->
             - 2 ^ 63 <= at_attended a < 2 ^ 63 /\
             - 2 ^ 63 <= at_total a < 2 ^ 63).
Proof.
  intros R. destruct (reachable_ok db R) as [_ [N F]]. split.
  - intros roll subj. now apply NoDup_keys_at_most_one.
  - intros a I. rewrite Forall_forall in F. exact (F a I).
Qed.

End Reachability.

(** The store after the two uploads holds one row for (R1, Math). *)
Lemma attendance_unique_witness :
  (List.length (filter (Store.same_attendance "R1" "Math")
                       (Store.attendance SampleNegative.store)) <= 1)%nat.
Proof.
  exact (proj1 (attendance_unique (B := Literal.builtins) SampleNegative.store
                  (reachable_run_all SampleNegative.requests Store.empty_db
                                     Routes.reach_init))
               "R1" "Math").
Defined.

(** C9 as stated fails: the program reaches a store whose attendance row
    has a negative attended count. *)
Lemma negative_attendance_reachable :
  Routes.reachable (B := Literal.builtins) SampleNegative.store /\
  Store.attendance SampleNegative.store =
    [Store.mkAttendance "R1" "Math" (-5) 20 None (Some 2)] /\
  ~ (0 <= Store.at_attended
             (Store.mkAttendance "R1" "Math" (-5) 20 None (Some 2))).
Proof.
  split; [|split].
  - apply (reachable_run_all SampleNegative.requests).
    apply (Routes.reach_init (B := Literal.builtins)).
  - vm_compute. reflexivity.
  - simpl. lia.
Qed.

(** ** Rollback and the students that were there before *)

Section RollbackKeeps.
Import Frame Store Importers Routes.
Context {B : Py.Builtins}.

Lemma mem_In (x : string) (l : list string) : mem x l = true <-> In x l.
Proof.
  unfold mem. rewrite existsb_exists. split.
  - intros (y & I & E). apply String.eqb_eq in E. now subst.
  - intros I. exists x. split; [exact I|apply String.eqb_refl].
Qed.

Lemma created_rolls_In (uid : Z) (db : DB) (roll : string) :
  In roll (created_rolls uid db) <->
  exists m, In m (upload_students_map db) /\ mp_upload_id m = uid /\
            mp_created_new m = 1 /\ mp_roll_no m = roll.
Proof.
  unfold created_rolls. rewrite in_map_iff. split.
  - intros (m & E & I). apply filter_In in I. destruct I as [I C].
    apply andb_true_iff in C. destruct C as [C1 C2].
    apply Z.eqb_eq in C1, C2. eauto.
  - intros (m & I & C1 & C2 & E). exists m. split; [exact E|].
    apply filter_In. split; [exact I|].
    apply andb_true_iff. now rewrite !Z.eqb_eq.
Qed.

(** Later requests add no provenance row under an id already given out. *)
Lemma run_all_step (l : list action) :
  forall db : DB,
    store_ok db ->
    store_ok (run_all l db) /\
    uploads_seq db <= uploads_seq (run_all l db) /\
    (forall m, In m (upload_students_map (run_all l db)) ->
               mp_upload_id m <= uploads_seq db ->
               In m (upload_students_map db)).
Proof.
  induction l as [|a l IH]; simpl; intros db H.
  - split; [exact H|]. split; [lia|auto].
  - destruct (run_step a db H) as (H1 & Q1 & M1).
    destruct (IH _ H1) as (H2 & Q2 & M2).
    split; [exact H2|]. split; [lia|].
    intros m I Le. apply M2 in I; [|lia].
    destruct (M1 m I) as [J|[J _]]; [exact J|lia].
Qed.

Lemma upload_exists_le (uid : Z) (db : DB) :
  store_ok db -> upload_exists uid db = true -> uid <= uploads_seq db.
Proof.
  intros [[Hu _] _] E. apply existsb_exists in E.
  destruct E as (u & I & E). apply Z.eqb_eq in E. subst uid. now apply Hu.
Qed.

(** C5, as the code has it. Take the store [db0] in which a request [a]
    creates upload [uid], and any requests [acts] after it. Rolling [uid]
    back then deletes no student whose roll number was in [db0], whatever
    the upload and the later requests did to the row. When the upload
    record is still there and the students flagged [created_new] by [uid]
    are no more than SQLite takes parameters in one statement, the
    rollback answers [True] and leaves exactly [after_rollback]: gone are
    the attendance and marks rows whose source is [uid], those students
    together with all their attendance, marks and remarks rows (ON DELETE
    CASCADE), the provenance rows of [uid] and the upload record. When
    they are more, the DELETE on [students] raises and the rollback
    changes nothing. *)
Theorem rollback_keeps_prior_students (a : action) (acts : list action)
    (db0 : DB) :
  reachable db0 ->
  upload_exists (uploads_seq db0 + 1) (run a db0) = true ->
  (forall s, In s (students (run_all acts (run a db0))) ->
             student_exists (st_roll_no s) db0 = true ->
             In s (students (snd (delete_upload (uploads_seq db0 + 1)
                                                (run_all acts (run a db0)))))) /\
  (upload_exists (uploads_seq db0 + 1) (run_all acts (run a db0)) = true ->
   (N.of_nat (List.length (created_rolls (uploads_seq db0 + 1)
                                         (run_all acts (run a db0)))) <=
      Py.max_variable_number)%N ->
   delete_upload (uploads_seq db0 + 1) (run_all acts (run a db0)) =
   (Ok true,
    after_rollback (uploads_seq db0 + 1) (run_all acts (run a db0)))) /\
  (upload_exists (uploads_seq db0 + 1) (run_all acts (run a db0)) = true ->
   (Py.max_variable_number <
      N.of_nat (List.length (created_rolls (uploads_seq db0 + 1)
                                           (run_all acts (run a db0)))))%N ->
   delete_upload (uploads_seq db0 + 1) (run_all acts (run a db0)) =
   (Err (OperationalError "too many SQL variables"),
    run_all acts (run a db0))).
Proof.
  intros R E1.
  set (uid := uploads_seq db0 + 1) in *.
  set (db1 := run a db0) in *. set (db2 := run_all acts db1) in *.
  pose proof (reachable_ok _ R) as H0.
  destruct (run_step a db0 H0) as (H1 & Q1 & M1). fold db1 in H1, Q1, M1.
  destruct (run_all_step acts db1 H1) as (H2 & Q2 & M2). fold db2 in H2, Q2, M2.
  pose proof (upload_exists_le _ _ H1 E1) as Le.
  assert (Rg : - 2 ^ 63 <= uid < 2 ^ 63).
  { pose proof (reachable_seq db0 R) as S0.
    pose proof (reachable_seq db1 (reach_step a db0 R)) as S1.
    unfold uid. lia. }
  split; [|split].
  - intros s Is Xs.
    destruct (delete_upload_unchanged uid db2) as [->|(u & F & _ & V)];
      [exact Is|].
    assert (E2 : upload_exists uid db2 = true).
    { unfold upload_exists, find_upload in *. apply find_some in F.
      apply existsb_exists. eauto. }
    rewrite (delete_upload_known uid db2 Rg E2 V). simpl.
    apply filter_In. split; [exact Is|].
    apply negb_true_iff.
    destruct (mem (st_roll_no s) (created_rolls uid db2)) eqn:C; [|reflexivity].
    exfalso. apply mem_In, created_rolls_In in C.
    destruct C as (m & I & C1 & C2 & C3).
    apply M2 in I; [|lia].
    destruct (M1 m I) as [J|[_ J]].
    + destruct H0 as [[_ Hm] _]. apply Hm in J. unfold uid in C1. lia.
    + rewrite C3 in J. specialize (J C2). congruence.
  - intros E2 V. now apply delete_upload_known.
  - intros E2 V. now apply delete_upload_too_many.
Qed.

End RollbackKeeps.

(** Rolling back upload 2, which only updated R1, keeps the row of R1 with
    the values upload 2 gave it, and leaves the store [after_rollback]
    describes. Where SQLite takes eight parameters, the rollback of an
    upload that created nine students raises and changes nothing. *)
Lemma rollback_keeps_prior_students_witness :
  In SampleRollback.updated
     (Store.students
        (snd (Importers.delete_upload (B := Literal.builtins)
                (Store.uploads_seq SampleRollback.before + 1)
                SampleRollback.final))) /\
  Importers.delete_upload (B := Literal.builtins)
    (Store.uploads_seq SampleRollback.before + 1) SampleRollback.final =
  (Ok true,
   after_rollback (Store.uploads_seq SampleRollback.before + 1)
                  SampleRollback.final) /\
  Importers.delete_upload (B := SampleRollback.eight_parameters) 1
                          SampleRollback.after_nine =
  (Err (OperationalError "too many SQL variables"), SampleRollback.after_nine).
Proof.
  assert (R : Routes.reachable (B := Literal.builtins) SampleRollback.before).
  { apply (reachable_run_all
             [Routes.UploadStudents
                (SampleReimport.upload "students.csv" Sample.students1)]).
    apply (Routes.reach_init (B := Literal.builtins)). }
  assert (E : Store.upload_exists (Store.uploads_seq SampleRollback.before + 1)
                                  SampleRollback.after_second = true)
    by (vm_compute; reflexivity).
  assert (I : In SampleRollback.updated
                 (Store.students SampleRollback.final))
    by (vm_compute; left; reflexivity).
  assert (X : Store.student_exists (Store.st_roll_no SampleRollback.updated)
                                   SampleRollback.before = true)
    by (vm_compute; reflexivity).
  assert (E2 : Store.upload_exists
                 (Store.uploads_seq SampleRollback.before + 1)
                 SampleRollback.final = true)
    by (vm_compute; reflexivity).
  assert (V : (N.of_nat (List.length
                           (Importers.created_rolls
                              (Store.uploads_seq SampleRollback.before + 1)
                              SampleRollback.final)) <=
               Py.max_variable_number (Builtins := Literal.builtins))%N)
    by (vm_compute; discriminate).
  pose proof (rollback_keeps_prior_students (B := Literal.builtins)
                SampleRollback.second SampleRollback.later
                SampleRollback.before R E) as (K1 & K2 & _).
  assert (E9 : Store.upload_exists (Store.uploads_seq Store.empty_db + 1)
                                   SampleRollback.after_nine = true)
    by (vm_compute; reflexivity).
  assert (V9 : (Py.max_variable_number
                  (Builtins := SampleRollback.eight_parameters) <
                N.of_nat (List.length
                            (Importers.created_rolls
                               (Store.uploads_seq Store.empty_db + 1)
                               SampleRollback.after_nine)))%N)
    by (vm_compute; reflexivity).
  pose proof (rollback_keeps_prior_students
                (B := SampleRollback.eight_parameters)
                SampleRollback.nine [] Store.empty_db
                (Routes.reach_init (B := SampleRollback.eight_parameters)) E9)
    as (_ & _ & K3).
  split; [exact (K1 SampleRollback.updated I X)|].
  split; [exact (K2 E2 V)|exact (K3 E9 V9)].
Defined.

(** C5 as stated fails: rolling back upload 1, which created R1, also
    deletes the attendance row written by upload 2 and the marks row
    written by upload 3. *)
Lemma rollback_cascades :
  Routes.reachable (B := Literal.builtins) SampleReimport.base /\
  Store.attendance SampleReimport.base =
    [Store.mkAttendance "R1" "Math" 10 20 (Some 3) (Some 2)] /\
  Store.marks SampleReimport.base =
    [Store.mkMarks "R1" "Midterm" "Math" 100 90 (Some 4) (Some 3) (Some 3)] /\
  fst (Importers.delete_upload (B := Literal.builtins) 1 SampleReimport.base) =
    Ok true /\
  Store.attendance
    (snd (Importers.delete_upload (B := Literal.builtins) 1
                                  SampleReimport.base)) = [] /\
  Store.marks
    (snd (Importers.delete_upload (B := Literal.builtins) 1
                                  SampleReimport.base)) = [].
Proof.
  split.
  - unfold SampleReimport.base. apply reachable_run_all.
    apply (Routes.reach_init (B := Literal.builtins)).
  - repeat split; vm_compute; reflexivity.
Qed.

(** ** Rows whose identifying text is blank *)

Section SkippedRows.
Import Frame Store Importers.
Context {B : Py.Builtins}.













End SkippedRows.


(** ** The order of strings and the sort *)

Section StringOrder.

Lemma compare_as_OT (a b : string) :
  String.compare a b = String_as_OT.compare a b.
Proof.
  revert b. induction a as [|x a IH]; intros [|y b]; reflexivity.
Qed.

Lemma compare_lt_trans (a b c : string) :
  String.compare a b = Lt -> String.compare b c = Lt ->
  String.compare a c = Lt.
Proof.
  rewrite !compare_as_OT.
  destruct String_as_OT.lt_strorder as [_ T]. exact (T a b c).
Qed.

Lemma compare_refl (a : string) : String.compare a a = Eq.
Proof.
  rewrite compare_as_OT.
  destruct String_as_OT.lt_strorder as [I _].
  destruct (String_as_OT.compare_spec a a) as [_|H|H]; [reflexivity| |];
    now apply I in H.
Qed.

Lemma compare_gt_lt (a b : string) :
  String.compare a b = Gt -> String.compare b a = Lt.
Proof. rewrite (String.compare_antisym b a). now intros ->. Qed.

Lemma string_leb_trans (a b c : string) :
  String.leb a b = true -> String.leb b c = true -> String.leb a c = true.
Proof.
  unfold String.leb.
  destruct (String.compare a b) eqn:E1; try discriminate;
    destruct (String.compare b c) eqn:E2; try discriminate; intros _ _.
  - apply String.compare_eq_iff in E1, E2. subst. now rewrite compare_refl.
  - apply String.compare_eq_iff in E1. subst. now rewrite E2.
  - apply String.compare_eq_iff in E2. subst. now rewrite E1.
  - now rewrite (compare_lt_trans _ _ _ E1 E2).
Qed.

Lemma string_ltb_leb (a b : string) :
  String.ltb a b = true <-> String.leb a b = true /\ a <> b.
Proof.
  unfold String.ltb, String.leb.
  destruct (String.compare a b) eqn:E; split; try (intros [? ?]);
    try discriminate; try tauto.
  - apply String.compare_eq_iff in E. contradiction.
  - intros _. split; [reflexivity|]. intros ->.
    rewrite compare_refl in E. discriminate.
Qed.

End StringOrder.

Section SortFacts.
Import Grid.
Context {A : Type} (leb : A -> A -> bool).
Hypothesis leb_total : forall x y, leb x y = true \/ leb y x = true.
Hypothesis leb_trans :
  forall x y z, leb x y = true -> leb y z = true -> leb x z = true.

Lemma insert_In (x y : A) (l : list A) :
  In y (insert leb x l) <-> y = x \/ In y l.
Proof.
  induction l as [|z l IH]; simpl.
  - intuition.
  - destruct (leb x z); simpl; [intuition|]. rewrite IH. intuition.
Qed.

Lemma sort_In (y : A) (l : list A) : In y (sort leb l) <-> In y l.
Proof.
  induction l as [|x l IH]; simpl; [tauto|].
  rewrite insert_In, IH. intuition.
Qed.

Lemma insert_sorted (x : A) (l : list A) :
  StronglySorted (fun a b => leb a b = true) l ->
  StronglySorted (fun a b => leb a b = true) (insert leb x l).
Proof.
  induction 1 as [|z l S IH F]; simpl.
  - repeat constructor.
  - destruct (leb x z) eqn:E.
    + constructor; [now constructor|]. constructor; [exact E|].
      eapply Forall_impl; [|exact F]. intros a Ha. eapply leb_trans; eauto.
    + constructor; [exact IH|].
      apply Forall_forall. intros a Ia. apply insert_In in Ia.
      destruct Ia as [->|Ia].
      * destruct (leb_total x z); congruence.
      * rewrite Forall_forall in F. now apply F.
Qed.

Lemma sort_sorted (l : list A) :
  StronglySorted (fun a b => leb a b = true) (sort leb l).
Proof.
  induction l as [|x l IH]; simpl; [constructor|now apply insert_sorted].
Qed.

Lemma insert_NoDup (x : A) (l : list A) :
  ~ In x l -> NoDup l -> NoDup (insert leb x l).
Proof.
  induction l as [|z l IH]; simpl; intros N D.
  - repeat constructor. intros [].
  - destruct (leb x z).
    + constructor; [exact N|exact D].
    + inversion D as [|? ? Nz Dl]; subst. constructor.
      * rewrite insert_In. intros [->|I]; [apply N; now left|contradiction].
      * apply IH; [intros I; apply N; now right|exact Dl].
Qed.

Lemma sort_NoDup (l : list A) : NoDup l -> NoDup (sort leb l).
Proof.
  induction 1 as [|x l N D IH]; simpl; [constructor|].
  apply insert_NoDup; [now rewrite sort_In|exact IH].
Qed.

End SortFacts.

(** ** The marks grid, for every student *)

Section GridStructure.
Import Store Grid.

Lemma exam_subject_leb_total (a b : marks_row) :
  exam_subject_leb a b = true \/ exam_subject_leb b a = true.
Proof.
  unfold exam_subject_leb.
  destruct (String.compare (mk_exam a) (mk_exam b)) eqn:E.
  - apply String.compare_eq_iff in E. rewrite E, compare_refl.
    apply String.leb_total.
  - now left.
  - right. now rewrite (compare_gt_lt _ _ E).
Qed.

Lemma exam_subject_leb_trans (a b c : marks_row) :
  exam_subject_leb a b = true -> exam_subject_leb b c = true ->
  exam_subject_leb a c = true.
Proof.
  unfold exam_subject_leb.
  destruct (String.compare (mk_exam a) (mk_exam b)) eqn:E1; try discriminate;
    destruct (String.compare (mk_exam b) (mk_exam c)) eqn:E2;
    try discriminate; intros H1 H2.
  - apply String.compare_eq_iff in E1, E2. rewrite E1, E2, compare_refl.
    eapply string_leb_trans; eassumption.
  - apply String.compare_eq_iff in E1. now rewrite E1, E2.
  - apply String.compare_eq_iff in E2. now rewrite <- E2, E1.
  - now rewrite (compare_lt_trans _ _ _ E1 E2).
Qed.

Lemma exam_subject_leb_exam (a b : marks_row) :
  exam_subject_leb a b = true -> String.leb (mk_exam a) (mk_exam b) = true.
Proof.
  unfold exam_subject_leb, String.leb.
  now destruct (String.compare (mk_exam a) (mk_exam b)).
Qed.

Lemma marks_of_In (roll : string) (db : DB) (m : marks_row) :
  In m (marks_of roll db) <-> has_mark roll db m.
Proof.
  unfold marks_of, has_mark. rewrite sort_In, filter_In, String.eqb_eq.
  tauto.
Qed.

Lemma marks_of_exams_sorted (roll : string) (db : DB) :
  StronglySorted (fun a b => String.leb a b = true)
                 (map mk_exam (marks_of roll db)).
Proof.
  unfold marks_of.
  pose proof (sort_sorted exam_subject_leb exam_subject_leb_total
                exam_subject_leb_trans
                (filter (fun m => String.eqb (mk_roll_no m) roll) (marks db)))
    as S.
  induction S as [|x l S IH F]; simpl; constructor; [exact IH|].
  apply Forall_map. eapply Forall_impl; [|exact F].
  intros b. apply exam_subject_leb_exam.
Qed.

Lemma sorted_snoc (R : string -> string -> Prop) (l : list string) (e : string) :
  StronglySorted R l -> Forall (fun a => R a e) l ->
  StronglySorted R (l ++ [e]).
Proof.
  induction 1 as [|x l S IH F]; simpl; intros H.
  - repeat constructor.
  - inversion H as [|? ? Hx Hl]; subst. constructor; [now apply IH|].
    apply Forall_app. split; [exact F|now constructor].
Qed.

Lemma first_seen_aux (l : list string) :
  forall acc : list string,
    increasing acc ->
    (forall a x, In a acc -> In x l -> String.leb a x = true) ->
    StronglySorted (fun a b => String.leb a b = true) l ->
    increasing
      (fold_left (fun acc e => if Frame.mem e acc then acc
                               else (acc ++ [e])%list) l acc) /\
    (forall e, In e (fold_left (fun acc e => if Frame.mem e acc then acc
                                             else (acc ++ [e])%list) l acc)
               <-> In e acc \/ In e l).
Proof.
  induction l as [|x l IH]; simpl; intros acc Ha Hl Hs.
  - split; [exact Ha|]. intros e. tauto.
  - inversion Hs as [|? ? Sl Fx]; subst.
    destruct (Frame.mem x acc) eqn:M.
    + destruct (IH acc Ha) as [I1 I2]; [intros; apply Hl; auto|exact Sl|].
      split; [exact I1|]. intros e. rewrite I2.
      apply mem_In in M. intuition (subst; auto).
    + assert (N : ~ In x acc).
      { intros I. apply mem_In in I. congruence. }
      destruct (IH (acc ++ [x])%list) as [I1 I2].
      * apply sorted_snoc; [exact Ha|].
        apply Forall_forall. intros a Ia. apply string_ltb_leb.
        split; [apply Hl; auto|]. intros ->. contradiction.
      * intros a y Ia Iy. apply in_app_or in Ia.
        destruct Ia as [Ia|[<-|[]]]; [apply Hl; auto|].
        rewrite Forall_forall in Fx. now apply Fx.
      * exact Sl.
      * split; [exact I1|]. intros e. rewrite I2, in_app_iff. simpl.
        intuition.
Qed.

Lemma first_seen_spec (l : list string) :
  StronglySorted (fun a b => String.leb a b = true) l ->
  increasing (first_seen l) /\ (forall e, In e (first_seen l) <-> In e l).
Proof.
  intros S. unfold first_seen.
  destruct (first_seen_aux l []) as [I1 I2];
    [constructor|intros a x []|exact S|].
  split; [exact I1|]. intros e. rewrite I2. simpl. tauto.
Qed.

Lemma sorted_set_spec (l : list string) :
  increasing (sorted_set l) /\ (forall s, In s (sorted_set l) <-> In s l).
Proof.
  unfold sorted_set. split.
  - pose proof (sort_sorted String.leb String.leb_total string_leb_trans
                  (nodup string_dec l)) as S.
    pose proof (sort_NoDup String.leb (nodup string_dec l)
                  (NoDup_nodup string_dec l)) as D.
    induction S as [|x t S IH F]; [constructor|].
    inversion D as [|? ? Nx Dt]; subst. constructor; [now apply IH|].
    apply Forall_forall. intros b Ib. apply string_ltb_leb.
    rewrite Forall_forall in F. split; [now apply F|].
    intros ->. contradiction.
  - intros s. now rewrite sort_In, nodup_In.
Qed.

Lemma dict_get_set_same (k v : string) (d : dict) :
  dict_get k (dict_set k v d) = Some v.
Proof.
  induction d as [|[k' v'] d IH]; simpl.
  - now rewrite String.eqb_refl.
  - destruct (String.eqb k' k) eqn:E; simpl; now rewrite E.
Qed.

Lemma dict_get_set_other (k k' v : string) (d : dict) :
  k' <> k -> dict_get k (dict_set k' v d) = dict_get k d.
Proof.
  intros N. apply String.eqb_neq in N.
  induction d as [|[k2 v2] d IH]; simpl.
  - now rewrite N.
  - destruct (String.eqb k2 k') eqn:E; simpl.
    + apply String.eqb_eq in E. subst k2. now rewrite N.
    + now rewrite IH.
Qed.

Lemma dict_get_fold (f : string -> string) (k : string) (l : list string) :
  forall d : dict,
    dict_get k (fold_left (fun row sub => dict_set sub (f sub) row) l d) =
    if Frame.mem k l then Some (f k) else dict_get k d.
Proof.
  induction l as [|s l IH]; intros d; simpl; [reflexivity|].
  rewrite IH. unfold Frame.mem. simpl.
  destruct (existsb (String.eqb k) l); [now rewrite orb_true_r|].
  rewrite orb_false_r. destruct (String.eqb k s) eqn:E.
  - apply String.eqb_eq in E. subst s. apply dict_get_set_same.
  - apply String.eqb_neq in E. now apply dict_get_set_other.
Qed.

Lemma cell_of_found (rows : list marks_row) (e s : string) :
  (exists m, In m rows /\ mk_exam m = e /\ mk_subject m = s) ->
  exists m, In m rows /\ mk_exam m = e /\ mk_subject m = s /\
            cell_of rows e s = render m.
Proof.
  intros (m0 & I0 & E0 & S0). unfold cell_of.
  destruct (filter _ rows) as [|m t] eqn:F.
  - exfalso.
    assert (I : In m0 (filter (fun r => String.eqb (mk_exam r) e &&
                                        String.eqb (mk_subject r) s) rows)).
    { apply filter_In. split; [exact I0|].
      subst. now rewrite !String.eqb_refl. }
    rewrite F in I. contradiction.
  - assert (I : In m (filter (fun r => String.eqb (mk_exam r) e &&
                                       String.eqb (mk_subject r) s) rows))
      by (rewrite F; now left).
    apply filter_In in I. destruct I as [I K].
    apply andb_true_iff in K. destruct K as [K1 K2].
    apply String.eqb_eq in K1, K2. exists m. auto.
Qed.

Lemma cell_of_missing (rows : list marks_row) (e s : string) :
  (forall m, In m rows -> ~ (mk_exam m = e /\ mk_subject m = s)) ->
  cell_of rows e s = placeholder.
Proof.
  intros H. unfold cell_of.
  destruct (filter _ rows) as [|m t] eqn:F; [reflexivity|].
  exfalso.
  assert (I : In m (filter (fun r => String.eqb (mk_exam r) e &&
                                     String.eqb (mk_subject r) s) rows))
    by (rewrite F; now left).
  apply filter_In in I. destruct I as [I K].
  apply andb_true_iff in K. destruct K as [K1 K2].
  apply String.eqb_eq in K1, K2. now apply (H m I).
Qed.

(** The grid of a student, whatever the store: empty without marks;
    otherwise the headers are "Exam" and the student's distinct subjects
    in increasing order, there is one row per distinct exam, in increasing
    order of the exams, each row maps every subject to the rendering
    "<grade> (<obtained>/<max>)" of a mark of that exam and subject when
    there is one and to the placeholder literal otherwise, and maps "Exam"
    to the exam unless a subject has that name. *)
Theorem marks_grid_structure (roll : string) (db : DB) :
  ((forall m, ~ has_mark roll db m) -> build_marks_grid roll db = ([], [])) /\
  ((exists m, has_mark roll db m) ->
   exists subjects exams,
     build_marks_grid roll db =
       ("Exam" :: subjects,
        map (grid_row (marks_of roll db) subjects) exams) /\
     increasing subjects /\
     (forall s, In s subjects <->
                exists m, has_mark roll db m /\ mk_subject m = s) /\
     increasing exams /\
     (forall e, In e exams <-> exists m, has_mark roll db m /\ mk_exam m = e) /\
     (forall e s, In s subjects ->
                  dict_get s (grid_row (marks_of roll db) subjects e) =
                  Some (cell_of (marks_of roll db) e s)) /\
     (forall e, ~ In "Exam" subjects ->
                dict_get "Exam" (grid_row (marks_of roll db) subjects e) =
                Some e) /\
     (forall e s,
         (exists m, has_mark roll db m /\ mk_exam m = e /\ mk_subject m = s) ->
         exists m, has_mark roll db m /\ mk_exam m = e /\ mk_subject m = s /\
                   cell_of (marks_of roll db) e s = render m) /\
     (forall e s,
         (forall m, has_mark roll db m ->
                    ~ (mk_exam m = e /\ mk_subject m = s)) ->
         cell_of (marks_of roll db) e s = placeholder)).
Proof.
  split.
  - intros H. unfold build_marks_grid.
    destruct (marks_of roll db) as [|m t] eqn:E; [reflexivity|].
    exfalso. apply (H m). apply marks_of_In. rewrite E. now left.
  - intros (m0 & H0).
    exists (sorted_set (map mk_subject (marks_of roll db))),
           (first_seen (map mk_exam (marks_of roll db))).
    destruct (sorted_set_spec (map mk_subject (marks_of roll db))) as [S1 S2].
    destruct (first_seen_spec _ (marks_of_exams_sorted roll db)) as [X1 X2].
    repeat match goal with |- _ /\ _ => split end.
    + unfold build_marks_grid.
      destruct (marks_of roll db) as [|m t] eqn:E; [|reflexivity].
      exfalso. apply marks_of_In in H0. rewrite E in H0. contradiction.
    + exact S1.
    + intros s. rewrite S2, in_map_iff. split.
      * intros (m & Em & Im). exists m. now rewrite <- marks_of_In.
      * intros (m & Hm & Em). exists m. now rewrite marks_of_In.
    + exact X1.
    + intros e. rewrite X2, in_map_iff. split.
      * intros (m & Em & Im). exists m. now rewrite <- marks_of_In.
      * intros (m & Hm & Em). exists m. now rewrite marks_of_In.
    + intros e s Is. unfold grid_row.
      rewrite (dict_get_fold (cell_of (marks_of roll db) e)).
      apply mem_In in Is. now rewrite Is.
    + intros e N. unfold grid_row.
      rewrite (dict_get_fold (cell_of (marks_of roll db) e)).
      destruct (Frame.mem "Exam" _) eqn:M; [|reflexivity].
      apply mem_In in M. contradiction.
    + intros e s (m & Hm & Em & Sm).
      destruct (cell_of_found (marks_of roll db) e s) as (m' & I & E1 & E2 & C).
      { exists m. now rewrite marks_of_In. }
      exists m'. now rewrite <- marks_of_In.
    + intros e s H. apply cell_of_missing. intros m I.
      apply H. now apply marks_of_In.
Qed.

End GridStructure.

(** The grid of R1 in the sample store: the cell of the Final in Math is
    the placeholder, as R1 has no such mark. *)
Lemma marks_grid_structure_witness :
  Grid.cell_of (Grid.marks_of "R1" SampleGrid.store) "Final" "Math" =
  Grid.placeholder.
Proof.
  destruct (proj2 (marks_grid_structure "R1" SampleGrid.store))
    as (subjects & exams & _ & _ & _ & _ & _ & _ & _ & _ & H).
  - exists (Store.mkMarks "R1" "Midterm" "Math" 100 90 None None (Some 2)).
    split; [vm_compute; left; reflexivity|reflexivity].
  - apply H. intros m [I _] [E S]. vm_compute in I.
    destruct I as [<-|[<-|[]]]; discriminate.
Defined.

(** ** Row counts, and the students of attendance and marks *)

Section RowCounts.
Import Frame Store Importers.
Context {B : Py.Builtins}.





End RowCounts.


(** ** Attendance and marks belong to students *)

Section Children.
Import Frame Store Importers Routes.
Context {B : Py.Builtins}.

Lemma apply_student_shape (uid : Z) (s : student_row) (db db' : DB) :
  apply_student uid s db = Ok db' ->
  attendance db' = attendance db /\ marks db' = marks db.
Proof.
  unfold apply_student. intros H. bind_inv H.
  destruct (upload_exists uid _); [|discriminate].
  injection H as <-. simpl. auto.
Qed.

Lemma students_loop_tables (df : DataFrame) (uid : Z) (rs : list (list cell)) :
  forall db n st,
    students_loop df uid rs db n = Ok st ->
    attendance (fst st) = attendance db /\ marks (fst st) = marks db.
Proof.
  induction rs as [|r rest IH]; simpl; intros db n st H.
  - injection H as <-. auto.
  - bind_inv H. destruct x as [s|]; [|eapply IH; eassumption].
    bind_inv H. destruct (apply_student_shape _ _ _ _ E0) as [A M].
    destruct (IH _ _ _ H) as [A' M']. split; congruence.
Qed.

Lemma upsert_attendance_In (a x : attendance_row) (l : list attendance_row) :
  In x (upsert_attendance a l) -> In x l \/ at_roll_no x = at_roll_no a.
Proof.
  induction l as [|old l IH]; simpl.
  - intros [<-|[]]. now right.
  - destruct (same_attendance (at_roll_no a) (at_subject a) old) eqn:E.
    + intros [<-|I]; [|auto]. right. simpl.
      now destruct (same_attendance_sym _ _ E).
    + intros [<-|I]; [auto|]. destruct (IH I); auto.
Qed.

Lemma upsert_marks_In (m x : marks_row) (l : list marks_row) :
  In x (upsert_marks m l) -> In x l \/ mk_roll_no x = mk_roll_no m.
Proof.
  induction l as [|old l IH]; simpl.
  - intros [<-|[]]. now right.
  - destruct (same_marks (mk_roll_no m) (mk_exam m) (mk_subject m) old) eqn:E.
    + intros [<-|I]; [|auto]. right. simpl.
      now destruct (same_marks_sym _ _ E).
    + intros [<-|I]; [auto|]. destruct (IH I); auto.
Qed.

(** The upsert of an attendance row succeeds only for a roll number some
    student has. *)
Lemma apply_attendance_children (a : attendance_row) (db db' : DB) :
  children_ok db ->
  apply_attendance a db = Ok db' ->
  student_exists (at_roll_no a) db = true /\
  children_ok db' /\ students db' = students db /\ marks db' = marks db.
Proof.
  intros [Ca Cm]. unfold apply_attendance. intros H. repeat bind_inv H.
  destruct (_ && _) eqn:C; [|discriminate]. injection H as <-.
  apply andb_true_iff in C. destruct C as [_ C].
  assert (X : student_exists (at_roll_no a) db = true).
  { apply orb_true_iff in C. destruct C as [C|C]; [|exact C].
    apply existsb_exists in C. destruct C as (old & I & K).
    destruct (same_attendance_sym _ _ K) as [<- _]. now apply Ca. }
  split; [exact X|]. split; [|split; reflexivity].
  split; simpl; [|exact Cm].
  intros row I. apply upsert_attendance_In in I.
  destruct I as [I| ->]; [now apply Ca|exact X].
Qed.

Lemma apply_marks_children (m : marks_row) (db db' : DB) :
  children_ok db ->
  apply_marks m db = Ok db' ->
  student_exists (mk_roll_no m) db = true /\
  children_ok db' /\ students db' = students db /\
  attendance db' = attendance db.
Proof.
  intros [Ca Cm]. unfold apply_marks. intros H. repeat bind_inv H.
  destruct (_ && _) eqn:C; [|discriminate]. injection H as <-.
  apply andb_true_iff in C. destruct C as [_ C].
  assert (X : student_exists (mk_roll_no m) db = true).
  { apply orb_true_iff in C. destruct C as [C|C]; [|exact C].
    apply existsb_exists in C. destruct C as (old & I & K).
    destruct (same_marks_sym _ _ K) as (<- & _). now apply Cm. }
  split; [exact X|]. split; [|split; reflexivity].
  split; simpl; [exact Ca|].
  intros row I. apply upsert_marks_In in I.
  destruct I as [I| ->]; [now apply Cm|exact X].
Qed.

Lemma student_exists_students (roll : string) (db db' : DB) :
  students db' = students db ->
  student_exists roll db' = student_exists roll db.
Proof. unfold student_exists. now intros ->. Qed.

Lemma attendance_loop_children (df : DataFrame) (uid : Z)
    (rs : list (list cell)) :
  forall db n st,
    children_ok db ->
    attendance_loop df uid rs db n = Ok st ->
    children_ok (fst st) /\ students (fst st) = students db /\
    marks (fst st) = marks db /\
    (forall r a, In r rs -> attendance_of_row df uid r = Ok (Some a) ->
                 student_exists (at_roll_no a) db = true).
Proof.
  induction rs as [|r rest IH]; simpl; intros db n st C H.
  - injection H as <-. simpl. repeat split; try apply C. intros r a [].
  - bind_inv H. destruct x as [a0|].
    + bind_inv H.
      destruct (apply_attendance_children _ _ _ C E0) as (X & C1 & S1 & M1).
      destruct (IH _ _ _ C1 H) as (C2 & S2 & M2 & R2).
      split; [exact C2|]. split; [congruence|]. split; [congruence|].
      intros r' a' [<-|I] Er.
      * rewrite E in Er. injection Er as <-. exact X.
      * rewrite <- (student_exists_students _ _ _ S1). eapply R2; eauto.
    + destruct (IH _ _ _ C H) as (C2 & S2 & M2 & R2).
      split; [exact C2|]. split; [exact S2|]. split; [exact M2|].
      intros r' a' [<-|I] Er; [congruence|]. eapply R2; eauto.
Qed.

Lemma marks_loop_children (df : DataFrame) (uid : Z) (rs : list (list cell)) :
  forall db n st,
    children_ok db ->
    marks_loop df uid rs db n = Ok st ->
    children_ok (fst st) /\ students (fst st) = students db /\
    attendance (fst st) = attendance db /\
    (forall r m, In r rs -> marks_of_row df uid r = Ok (Some m) ->
                 student_exists (mk_roll_no m) db = true).
Proof.
  induction rs as [|r rest IH]; simpl; intros db n st C H.
  - injection H as <-. simpl. repeat split; try apply C. intros r a [].
  - bind_inv H. destruct x as [m0|].
    + bind_inv H.
      destruct (apply_marks_children _ _ _ C E0) as (X & C1 & S1 & M1).
      destruct (IH _ _ _ C1 H) as (C2 & S2 & M2 & R2).
      split; [exact C2|]. split; [congruence|]. split; [congruence|].
      intros r' m' [<-|I] Er.
      * rewrite E in Er. injection Er as <-. exact X.
      * rewrite <- (student_exists_students _ _ _ S1). eapply R2; eauto.
    + destruct (IH _ _ _ C H) as (C2 & S2 & M2 & R2).
      split; [exact C2|]. split; [exact S2|]. split; [exact M2|].
      intros r' m' [<-|I] Er; [congruence|]. eapply R2; eauto.
Qed.

Lemma children_ok_same (db db' : DB) :
  students db' = students db -> attendance db' = attendance db ->
  marks db' = marks db -> children_ok db -> children_ok db'.
Proof.
  intros S A M [Ca Cm]. unfold children_ok.
  rewrite A, M. split; intros x I.
  - rewrite (student_exists_students _ _ _ S). now apply Ca.
  - rewrite (student_exists_students _ _ _ S). now apply Cm.
Qed.

Lemma import_attendance_children (df : DataFrame) (uid : Z) (db db' : DB) :
  children_ok db ->
  import_attendance df uid db = Ok db' ->
  students db' = students db /\ children_ok db' /\
  (forall r a, In r (iterrows (attendance_frame df)) ->
               attendance_of_row (attendance_frame df) uid r = Ok (Some a) ->
               student_exists (at_roll_no a) db = true).
Proof.
  intros C. unfold import_attendance. generalize (attendance_frame df).
  intros fr H. cbv zeta in H. bind_inv H. bind_inv H. injection H as <-.
  destruct (attendance_loop_children _ _ _ _ _ _ C E0) as (C' & S & M & R).
  split; [exact S|]. split; [|exact R].
  now apply (children_ok_same (fst x0)).
Qed.

Lemma import_marks_children (df : DataFrame) (uid : Z) (db db' : DB) :
  children_ok db ->
  import_marks df uid db = Ok db' ->
  students db' = students db /\ children_ok db' /\
  (forall r m, In r (iterrows (marks_frame df)) ->
               marks_of_row (marks_frame df) uid r = Ok (Some m) ->
               student_exists (mk_roll_no m) db = true).
Proof.
  intros C. unfold import_marks. generalize (marks_frame df).
  intros fr H. cbv zeta in H. bind_inv H. bind_inv H. injection H as <-.
  destruct (marks_loop_children _ _ _ _ _ _ C E0) as (C' & S & M & R).
  split; [exact S|]. split; [|exact R].
  now apply (children_ok_same (fst x0)).
Qed.


End Children.

Section ChildrenReachable.
Import Frame Store Importers Routes.
Context {B : Py.Builtins}.

Lemma import_students_children (df : DataFrame) (uid : Z) (db db' : DB) :
  import_students df uid db = Ok db' -> children_ok db -> children_ok db'.
Proof.
  intros H [Ca Cm].
  destruct (import_students_effect _ _ _ _ H) as [_ Mono].
  unfold import_students in H. revert H. generalize (students_frame df).
  intros fr H. cbv zeta in H. bind_inv H. bind_inv H. injection H as <-.
  destruct (students_loop_tables _ _ _ _ _ _ E0) as [A M].
  split; simpl; [rewrite A|rewrite M]; intros row I; apply Mono; auto.
Qed.

Lemma upload_with_children (kind choose : string)
    (importer : DataFrame -> Z -> DB -> res DB) (rq : Request) (db : DB) :
  (forall df uid d d', importer df uid d = Ok d' ->
                       children_ok d -> children_ok d') ->
  children_ok db ->
  children_ok (fst (upload_with kind choose importer rq db)).
Proof.
  intros Himp C. unfold upload_with.
  destruct (negb (is_admin rq)); [exact C|].
  destruct (posted rq) as [f|]; [|exact C].
  destruct (String.eqb (filename f) ""); [exact C|].
  destruct (negb (allowed_ext (filename f))); [exact C|].
  unfold create_upload_record.
  destruct (uploads_seq db <? 2 ^ 63 - 1); [|exact C].
  cbn [bind].
  set (db1 := set_uploads _ _ db).
  assert (C1 : children_ok db1) by (now apply (children_ok_same db)).
  destruct (bind (loaded f) _) as [db2|e] eqn:E; [|exact C1].
  bind_inv E. cbn [fst]. eapply Himp; eassumption.
Qed.

Lemma after_rollback_children (uid : Z) (db : DB) :
  children_ok db -> children_ok (after_rollback uid db).
Proof.
  intros [Ca Cm].
  assert (K : forall roll,
             student_exists roll db = true ->
             negb (Frame.mem roll (created_rolls uid db)) = true ->
             student_exists roll (after_rollback uid db) = true).
  { intros roll X N. unfold student_exists in *. simpl.
    apply existsb_exists in X. destruct X as (s & I & E).
    apply existsb_exists. exists s. split; [|exact E].
    apply filter_In. split; [exact I|].
    apply String.eqb_eq in E. now rewrite E. }
  split; simpl; intros row I.
  - apply filter_In in I. destruct I as [I N].
    apply filter_In in I. destruct I as [I _]. apply K; auto.
  - apply filter_In in I. destruct I as [I N].
    apply filter_In in I. destruct I as [I _]. apply K; auto.
Qed.

Lemma run_children (a : action) (db : DB) :
  children_ok db -> children_ok (run a db).
Proof.
  intros C. destruct a as [rq|rq|rq|rq uid|rq roll remark]; simpl.
  - apply upload_with_children; [|exact C].
    intros df uid d d' E. now apply import_students_children with (1 := E).
  - apply upload_with_children; [|exact C].
    intros df uid d d' E Cd.
    exact (proj1 (proj2 (import_attendance_children df uid d d' Cd E))).
  - apply upload_with_children; [|exact C].
    intros df uid d d' E Cd.
    exact (proj1 (proj2 (import_marks_children df uid d d' Cd E))).
  - unfold delete_upload_route.
    destruct (negb (is_admin rq)); [exact C|].
    destruct (delete_upload_cases uid db) as [[E ->]|(r0 & ->)]; cbn [fst];
      [now apply after_rollback_children|exact C].
  - unfold add_remark.
    destruct (String.eqb _ ""); [exact C|].
    destruct (student_exists roll db); [|exact C].
    now apply (children_ok_same db).
Qed.

Lemma children_ok_empty : children_ok empty_db.
Proof. split; intros ? []. Qed.


(** In every store the program reaches, each attendance row and each
    marks row belongs to a student of the store: imports refuse rows for
    unknown roll numbers, and a rollback that deletes a student deletes
    the student's attendance and marks with it. *)
Theorem reachable_children (db : DB) : reachable db -> children_ok db.
Proof.
  induction 1 as [|a db R IH].
  - apply children_ok_empty.
  - now apply run_children.
Qed.

End ChildrenReachable.

(** The store of the samples, reached by three uploads: its attendance row
    and its marks row are those of student R1. *)
Lemma reachable_children_witness : children_ok SampleReimport.base.
Proof.
  apply (reachable_children (B := Literal.builtins)).
  unfold SampleReimport.base. apply reachable_run_all.
  apply (Routes.reach_init (B := Literal.builtins)).
Defined.


(** ** Invariants of the requests, in general *)

Section Invariants.
Import Frame Store Importers Routes.
Context {B : Py.Builtins}.

Variable P : DB -> Prop.

Hypothesis P_create : forall fn kind t u db,
  P db -> P (snd (create_upload_record fn kind t u db)).
Hypothesis P_bump : forall uid n db, P db -> P (bump_rowcount uid n db).
Hypothesis P_student : forall uid s db db',
  P db -> apply_student uid s db = Ok db' -> P db'.
Hypothesis P_attendance : forall a db db',
  P db -> apply_attendance a db = Ok db' -> P db'.
Hypothesis P_marks : forall m db db',
  P db -> apply_marks m db = Ok db' -> P db'.
Hypothesis P_rollback : forall uid db,
  P db -> upload_exists uid db = true -> P (after_rollback uid db).
Hypothesis P_remark : forall r db,
  P db -> student_exists (rm_roll_no r) db = true ->
  P (set_remarks (remarks db ++ [r]) db).

Lemma students_loop_inv (df : DataFrame) (uid : Z) (rs : list (list cell)) :
  forall db n st,
    P db -> students_loop df uid rs db n = Ok st -> P (fst st).
Proof.
  induction rs as [|r rest IH]; simpl; intros db n st Hp H.
  - now injection H as <-.
  - bind_inv H. destruct x as [s|]; [|eapply IH; eassumption].
    bind_inv H. eapply IH; [|eassumption]. eapply P_student; eassumption.
Qed.

Lemma attendance_loop_inv (df : DataFrame) (uid : Z) (rs : list (list cell)) :
  forall db n st,
    P db -> attendance_loop df uid rs db n = Ok st -> P (fst st).
Proof.
  induction rs as [|r rest IH]; simpl; intros db n st Hp H.
  - now injection H as <-.
  - bind_inv H. destruct x as [s|]; [|eapply IH; eassumption].
    bind_inv H. eapply IH; [|eassumption]. eapply P_attendance; eassumption.
Qed.

Lemma marks_loop_inv (df : DataFrame) (uid : Z) (rs : list (list cell)) :
  forall db n st,
    P db -> marks_loop df uid rs db n = Ok st -> P (fst st).
Proof.
  induction rs as [|r rest IH]; simpl; intros db n st Hp H.
  - now injection H as <-.
  - bind_inv H. destruct x as [s|]; [|eapply IH; eassumption].
    bind_inv H. eapply IH; [|eassumption]. eapply P_marks; eassumption.
Qed.

Lemma import_students_inv (df : DataFrame) (uid : Z) (db db' : DB) :
  P db -> import_students df uid db = Ok db' -> P db'.
Proof.
  intros Hp. unfold import_students. generalize (students_frame df).
  intros fr H. cbv zeta in H. bind_inv H. bind_inv H. injection H as <-.
  apply P_bump. eapply students_loop_inv; eassumption.
Qed.

Lemma import_attendance_inv (df : DataFrame) (uid : Z) (db db' : DB) :
  P db -> import_attendance df uid db = Ok db' -> P db'.
Proof.
  intros Hp. unfold import_attendance. generalize (attendance_frame df).
  intros fr H. cbv zeta in H. bind_inv H. bind_inv H. injection H as <-.
  apply P_bump. eapply attendance_loop_inv; eassumption.
Qed.

Lemma import_marks_inv (df : DataFrame) (uid : Z) (db db' : DB) :
  P db -> import_marks df uid db = Ok db' -> P db'.
Proof.
  intros Hp. unfold import_marks. generalize (marks_frame df).
  intros fr H. cbv zeta in H. bind_inv H. bind_inv H. injection H as <-.
  apply P_bump. eapply marks_loop_inv; eassumption.
Qed.

Lemma upload_with_inv (kind choose : string)
    (importer : DataFrame -> Z -> DB -> res DB) (rq : Request) (db : DB) :
  (forall df uid d d', P d -> importer df uid d = Ok d' -> P d') ->
  P db -> P (fst (upload_with kind choose importer rq db)).
Proof.
  intros Himp Hp. unfold upload_with.
  destruct (negb (is_admin rq)); [exact Hp|].
  destruct (posted rq) as [f|]; [|exact Hp].
  destruct (String.eqb (filename f) ""); [exact Hp|].
  destruct (negb (allowed_ext (filename f))); [exact Hp|].
  pose proof (P_create (saved_name f) kind (now rq) (actor rq) db Hp) as H1.
  unfold create_upload_record in *.
  destruct (uploads_seq db <? 2 ^ 63 - 1); [|exact Hp].
  cbn [snd] in H1. cbn [bind].
  set (db1 := set_uploads _ _ db) in *.
  destruct (bind (loaded f) _) as [db2|e] eqn:E; [|exact H1].
  bind_inv E. cbn [fst]. eapply Himp; eassumption.
Qed.

Lemma run_inv (a : action) (db : DB) : P db -> P (run a db).
Proof.
  intros Hp. destruct a as [rq|rq|rq|rq uid|rq roll remark]; simpl.
  - apply upload_with_inv; [apply import_students_inv|exact Hp].
  - apply upload_with_inv; [apply import_attendance_inv|exact Hp].
  - apply upload_with_inv; [apply import_marks_inv|exact Hp].
  - unfold delete_upload_route.
    destruct (negb (is_admin rq)); [exact Hp|].
    destruct (delete_upload_cases uid db) as [[E ->]|(r0 & ->)]; cbn [fst];
      [now apply P_rollback|exact Hp].
  - unfold add_remark.
    destruct (String.eqb _ ""); [exact Hp|].
    destruct (student_exists roll db) eqn:X; [|exact Hp].
    now apply P_remark.
Qed.

Lemma run_all_inv (l : list action) (db : DB) : P db -> P (run_all l db).
Proof.
  revert db. induction l as [|a l IH]; simpl; intros db Hp; [exact Hp|].
  now apply IH, run_inv.
Qed.

Lemma reachable_inv (db : DB) : P empty_db -> reachable db -> P db.
Proof.
  intros H0. induction 1 as [|a db R IH]; [exact H0|now apply run_inv].
Qed.

End Invariants.

(** ** One row per key *)

Section UniqueKeys.
Import Frame Store Importers Routes.
Context {B : Py.Builtins}.

Lemma NoDup_at_most_one {A K : Type} (key : A -> K) (f : A -> bool)
    (l : list A) :
  (forall x y, f x = true -> f y = true -> key x = key y) ->
  NoDup (map key l) -> (List.length (filter f l) <= 1)%nat.
Proof.
  intros Hf. induction l as [|a l IH]; simpl; intros N; [lia|].
  inversion N as [|? ? Ha Hl]; subst.
  destruct (f a) eqn:E; [|now apply IH].
  simpl. destruct (filter f l) as [|b t] eqn:F; [simpl; lia|].
  exfalso. apply Ha.
  assert (I : In b (filter f l)) by (rewrite F; now left).
  apply filter_In in I. destruct I as [I Eb].
  rewrite (Hf a b E Eb). now apply in_map.
Qed.

(** With one row per key, the lookup by the key of a stored row returns
    that row. *)
Lemma NoDup_find {A K : Type} (key : A -> K) (f : A -> bool) (l : list A)
    (x : A) :
  (forall y, f y = true <-> key y = key x) ->
  NoDup (map key l) -> In x l -> find f l = Some x.
Proof.
  intros Hf. induction l as [|a l IH]; simpl; intros N I; [destruct I|].
  inversion N as [|? ? Ha Hl]; subst.
  destruct I as [->|I].
  - now rewrite (proj2 (Hf x) eq_refl).
  - destruct (f a) eqn:E; [|now apply IH].
    exfalso. apply Ha. apply Hf in E. rewrite E. now apply in_map.
Qed.

Lemma upsert_student_rolls (s : student_row) (l : list student_row) :
  map st_roll_no (upsert_student s l) =
  if existsb (fun x => String.eqb (st_roll_no x) (st_roll_no s)) l
  then map st_roll_no l
  else (map st_roll_no l ++ [st_roll_no s])%list.
Proof.
  induction l as [|old l IH]; simpl; [reflexivity|].
  destruct (String.eqb (st_roll_no old) (st_roll_no s)) eqn:E; simpl.
  - reflexivity.
  - rewrite IH. now destruct (existsb _ l).
Qed.

Lemma upsert_student_NoDup (s : student_row) (l : list student_row) :
  NoDup (map st_roll_no l) -> NoDup (map st_roll_no (upsert_student s l)).
Proof.
  intros N. rewrite upsert_student_rolls.
  destruct (existsb _ l) eqn:E; [exact N|].
  apply NoDup_app; [exact N|repeat constructor; intros []|].
  intros k I [<-|[]]. apply in_map_iff in I. destruct I as (x & K & I).
  assert (T : existsb (fun x => String.eqb (st_roll_no x) (st_roll_no s)) l
              = true).
  { apply existsb_exists. exists x. split; [exact I|]. now apply String.eqb_eq. }
  congruence.
Qed.

Lemma same_marks_key (a b : marks_row) :
  same_marks (mk_roll_no a) (mk_exam a) (mk_subject a) b = true <->
  marks_key b = marks_key a.
Proof.
  unfold same_marks, marks_key.
  rewrite !andb_true_iff, !String.eqb_eq. split.
  - intros [[-> ->] ->]. reflexivity.
  - intros [= -> -> ->]. auto.
Qed.

Lemma upsert_marks_keys (m : marks_row) (l : list marks_row) :
  map marks_key (upsert_marks m l) =
  if existsb (same_marks (mk_roll_no m) (mk_exam m) (mk_subject m)) l
  then map marks_key l
  else (map marks_key l ++ [marks_key m])%list.
Proof.
  induction l as [|old l IH]; simpl; [reflexivity|].
  destruct (same_marks (mk_roll_no m) (mk_exam m) (mk_subject m) old) eqn:E;
    simpl.
  - reflexivity.
  - rewrite IH. now destruct (existsb _ l).
Qed.

Lemma upsert_marks_ok (m : marks_row) (l : list marks_row) :
  int64 (mk_max_marks m) /\ int64 (mk_marks_obtained m) ->
  marks_ok l -> marks_ok (upsert_marks m l).
Proof.
  intros Hm [N R]. split.
  - rewrite upsert_marks_keys.
    destruct (existsb _ l) eqn:E; [exact N|].
    apply NoDup_app; [exact N|repeat constructor; intros []|].
    intros k I [<-|[]]. apply in_map_iff in I. destruct I as (x & K & I).
    apply same_marks_key in K.
    assert (T : existsb (same_marks (mk_roll_no m) (mk_exam m) (mk_subject m)) l
                = true) by (apply existsb_exists; eauto).
    congruence.
  - clear N. induction R as [|old l Ho Hl IH]; simpl.
    + now constructor.
    + destruct (same_marks _ _ _ old); constructor; auto.
Qed.

Lemma marks_ok_filter (f : marks_row -> bool) (l : list marks_row) :
  marks_ok l -> marks_ok (filter f l).
Proof.
  intros [N R]. split; [now apply NoDup_map_filter|].
  apply Forall_forall. intros a I. apply filter_In in I.
  rewrite Forall_forall in R. now apply R.
Qed.

Lemma keys_ok_same (db db' : DB) :
  students db' = students db -> marks db' = marks db ->
  keys_ok db -> keys_ok db'.
Proof. unfold keys_ok. now intros -> ->. Qed.

Lemma apply_student_keys (uid : Z) (s : student_row) (db db' : DB) :
  keys_ok db -> apply_student uid s db = Ok db' -> keys_ok db'.
Proof.
  intros [N M]. unfold apply_student. intros H. bind_inv H.
  destruct (upload_exists uid _); [|discriminate].
  injection H as <-. split; simpl; [now apply upsert_student_NoDup|exact M].
Qed.

Lemma apply_attendance_keys (a : attendance_row) (db db' : DB) :
  keys_ok db -> apply_attendance a db = Ok db' -> keys_ok db'.
Proof.
  intros K. unfold apply_attendance. intros H. repeat bind_inv H.
  destruct (_ && _); [|discriminate]. injection H as <-. exact K.
Qed.

Lemma apply_marks_keys (m : marks_row) (db db' : DB) :
  keys_ok db -> apply_marks m db = Ok db' -> keys_ok db'.
Proof.
  intros [N M]. unfold apply_marks. intros H. repeat bind_inv H.
  destruct (_ && _); [|discriminate]. injection H as <-.
  apply sqlite_int_ok in E, E0.
  split; simpl; [exact N|]. apply upsert_marks_ok; tauto.
Qed.

Lemma after_rollback_keys (uid : Z) (db : DB) :
  keys_ok db -> keys_ok (after_rollback uid db).
Proof.
  intros [N M]. split; simpl.
  - now apply NoDup_map_filter.
  - now apply marks_ok_filter, marks_ok_filter.
Qed.

Lemma keys_ok_empty : keys_ok empty_db.
Proof. split; [constructor|split; constructor]. Qed.

Lemma reachable_keys_ok (db : DB) : reachable db -> keys_ok db.
Proof.
  apply reachable_inv;
    [intros fn kind t u d K; unfold create_upload_record;
     destruct (_ <? _); exact K
    | intros uid n d K; exact K
    | apply apply_student_keys | apply apply_attendance_keys
    | apply apply_marks_keys
    | intros uid d K _; now apply after_rollback_keys
    | intros r d K _; exact K | apply keys_ok_empty].
Qed.

(** In every store the program reaches there is one student row per roll
    number and one marks row per (roll number, exam, subject), so the
    lookup by key returns the stored row; max_marks and marks_obtained are
    within SQLite's 64 bits. *)
Theorem reachable_keys_unique (db : DB) :
  reachable db ->
  (forall roll,
      (List.length (filter (fun s => String.eqb (st_roll_no s) roll)
                           (students db)) <= 1)%nat) /\
  (forall s, In s (students db) -> find_student (st_roll_no s) db = Some s) /\
  (forall roll exam subj,
      (List.length (filter (same_marks roll exam subj) (marks db)) <= 1)%nat) /\
  (forall m, In m (marks db) ->
             find_marks (mk_roll_no m) (mk_exam m) (mk_subject m) db = Some m /\
             - 2 ^ 63 <= mk_max_marks m < 2 ^ 63 /\
             - 2 ^ 63 <= mk_marks_obtained m < 2 ^ 63).
Proof.
  intros R. destruct (reachable_keys_ok db R) as [N [Nm Rm]].
  split; [|split; [|split]].
  - intros roll. apply (NoDup_at_most_one st_roll_no); [|exact N].
    intros x y Ex Ey. apply String.eqb_eq in Ex, Ey. congruence.
  - intros s I. unfold find_student. apply (NoDup_find st_roll_no); auto.
    intros y. apply String.eqb_eq.
  - intros roll exam subj. apply (NoDup_at_most_one marks_key); [|exact Nm].
    intros x y Ex Ey. unfold same_marks in Ex, Ey. unfold marks_key.
    apply andb_true_iff in Ex, Ey. destruct Ex as [Ex E3], Ey as [Ey F3].
    apply andb_true_iff in Ex, Ey. destruct Ex as [E1 E2], Ey as [F1 F2].
    apply String.eqb_eq in E1, E2, E3, F1, F2, F3. congruence.
  - intros m I. split.
    + unfold find_marks. apply (NoDup_find marks_key); auto.
      intros y. apply same_marks_key.
    + rewrite Forall_forall in Rm. exact (Rm m I).
Qed.

End UniqueKeys.

(** The store of the samples holds one row for R1 and one for its Midterm
    mark in Math. *)
Lemma reachable_keys_unique_witness :
  (List.length (filter (fun s => String.eqb (Store.st_roll_no s) "R1")
                       (Store.students SampleReimport.base)) <= 1)%nat /\
  (List.length (filter (Store.same_marks "R1" "Midterm" "Math")
                       (Store.marks SampleReimport.base)) <= 1)%nat.
Proof.
  assert (R : Routes.reachable (B := Literal.builtins) SampleReimport.base).
  { unfold SampleReimport.base. apply reachable_run_all.
    apply (Routes.reach_init (B := Literal.builtins)). }
  destruct (reachable_keys_unique (B := Literal.builtins) _ R)
    as (S & _ & M & _).
  split; [apply S|apply M].
Defined.

(** ** No dangling references *)

Section References.
Import Frame Store Importers Routes.
Context {B : Py.Builtins}.

Lemma upsert_attendance_source (a x : attendance_row)
    (l : list attendance_row) :
  In x (upsert_attendance a l) ->
  In x l \/ at_source_upload_id x = at_source_upload_id a.
Proof.
  induction l as [|old l IH]; simpl.
  - intros [<-|[]]. now right.
  - destruct (same_attendance (at_roll_no a) (at_subject a) old).
    + intros [<-|I]; auto.
    + intros [<-|I]; [auto|]. destruct (IH I); auto.
Qed.

Lemma upsert_marks_source (m x : marks_row) (l : list marks_row) :
  In x (upsert_marks m l) ->
  In x l \/ mk_source_upload_id x = mk_source_upload_id m.
Proof.
  induction l as [|old l IH]; simpl.
  - intros [<-|[]]. now right.
  - destruct (same_marks (mk_roll_no m) (mk_exam m) (mk_subject m) old).
    + intros [<-|I]; auto.
    + intros [<-|I]; [auto|]. destruct (IH I); auto.
Qed.

Lemma upload_exists_In (u : Z) (db : DB) :
  upload_exists u db = true <-> In u (map up_id (uploads db)).
Proof.
  unfold upload_exists. rewrite existsb_exists, in_map_iff. split.
  - intros (x & I & E). apply Z.eqb_eq in E. eauto.
  - intros (x & E & I). exists x. split; [exact I|]. now apply Z.eqb_eq.
Qed.

Lemma upload_exists_ids (u : Z) (db db' : DB) :
  map up_id (uploads db') = map up_id (uploads db) ->
  upload_exists u db' = upload_exists u db.
Proof.
  intros E. destruct (upload_exists u db) eqn:X.
  - apply upload_exists_In. rewrite E. now apply upload_exists_In.
  - destruct (upload_exists u db') eqn:Y; [|reflexivity].
    apply upload_exists_In in Y. rewrite E in Y.
    apply upload_exists_In in Y. congruence.
Qed.

Lemma refs_ok_same (db db' : DB) :
  map up_id (uploads db') = map up_id (uploads db) ->
  students db' = students db ->
  upload_students_map db' = upload_students_map db ->
  attendance db' = attendance db -> marks db' = marks db ->
  remarks db' = remarks db ->
  refs_ok db -> refs_ok db'.
Proof.
  intros U S M A K R (Hm & Ha & Hk & Hr). unfold refs_ok.
  rewrite M, A, K, R.
  repeat match goal with |- _ /\ _ => split end.
  - intros m I. rewrite (upload_exists_ids _ _ _ U). now apply Hm.
  - intros a u I E. rewrite (upload_exists_ids _ _ _ U). eapply Ha; eauto.
  - intros m u I E. rewrite (upload_exists_ids _ _ _ U). eapply Hk; eauto.
  - intros r I. rewrite (student_exists_students _ _ _ S). now apply Hr.
Qed.

Lemma create_upload_record_refs (fn kind t u : string) (db : DB) :
  refs_ok db -> refs_ok (snd (create_upload_record fn kind t u db)).
Proof.
  intros H. unfold create_upload_record.
  destruct (_ <? _); [|exact H]. cbn [snd].
  destruct H as (Hm & Ha & Hk & Hr).
  set (db1 := set_uploads _ _ db).
  assert (X : forall i, upload_exists i db = true ->
                        upload_exists i db1 = true).
  { intros i E. unfold upload_exists, db1. simpl.
    rewrite existsb_app. unfold upload_exists in E. now rewrite E. }
  unfold refs_ok.
  repeat match goal with |- _ /\ _ => split end.
  - intros m I. apply X. now apply Hm.
  - intros a i I E. apply X. eapply Ha; eauto.
  - intros m i I E. apply X. eapply Hk; eauto.
  - exact Hr.
Qed.

Lemma bump_rowcount_refs (uid n : Z) (db : DB) :
  refs_ok db -> refs_ok (bump_rowcount uid n db).
Proof.
  apply refs_ok_same; try reflexivity. apply bump_rowcount_ids.
Qed.

Lemma apply_student_refs (uid : Z) (s : student_row) (db db' : DB) :
  refs_ok db -> apply_student uid s db = Ok db' -> refs_ok db'.
Proof.
  intros (Hm & Ha & Hk & Hr). unfold apply_student. intros H. bind_inv H.
  destruct (upload_exists uid _) eqn:U; [|discriminate].
  injection H as <-. unfold refs_ok.
  repeat match goal with |- _ /\ _ => split end; simpl.
  - intros m I. apply in_app_or in I. destruct I as [I|[<-|[]]].
    + now apply Hm.
    + exact U.
  - exact Ha.
  - exact Hk.
  - intros r I. unfold student_exists. simpl.
    rewrite existsb_upsert_student. apply orb_true_iff. right. now apply Hr.
Qed.

Lemma apply_attendance_refs (a : attendance_row) (db db' : DB) :
  refs_ok db -> apply_attendance a db = Ok db' -> refs_ok db'.
Proof.
  intros (Hm & Ha & Hk & Hr). unfold apply_attendance. intros H.
  repeat bind_inv H.
  destruct (_ && _) eqn:C; [|discriminate]. injection H as <-.
  apply andb_true_iff in C. destruct C as [C _]. unfold refs_ok.
  repeat match goal with |- _ /\ _ => split end; simpl; auto.
  intros row u I Es. apply upsert_attendance_source in I.
  destruct I as [I|I]; [eapply Ha; eauto|].
  rewrite Es in I. now rewrite <- I in C.
Qed.

Lemma apply_marks_refs (m : marks_row) (db db' : DB) :
  refs_ok db -> apply_marks m db = Ok db' -> refs_ok db'.
Proof.
  intros (Hm & Ha & Hk & Hr). unfold apply_marks. intros H.
  repeat bind_inv H.
  destruct (_ && _) eqn:C; [|discriminate]. injection H as <-.
  apply andb_true_iff in C. destruct C as [C _]. unfold refs_ok.
  repeat match goal with |- _ /\ _ => split end; simpl; auto.
  intros row u I Es. apply upsert_marks_source in I.
  destruct I as [I|I]; [eapply Hk; eauto|].
  rewrite Es in I. now rewrite <- I in C.
Qed.

Lemma upload_exists_after_rollback (u uid : Z) (db : DB) :
  upload_exists u db = true -> u <> uid ->
  upload_exists u (after_rollback uid db) = true.
Proof.
  unfold upload_exists. simpl. intros E N.
  apply existsb_exists in E. destruct E as (x & I & E).
  apply existsb_exists. exists x. split; [|exact E].
  apply filter_In. split; [exact I|].
  apply Z.eqb_eq in E. apply negb_true_iff, Z.eqb_neq. congruence.
Qed.

Lemma student_exists_after_rollback (roll : string) (uid : Z) (db : DB) :
  student_exists roll db = true ->
  negb (mem roll (created_rolls uid db)) = true ->
  student_exists roll (after_rollback uid db) = true.
Proof.
  intros X N. unfold student_exists in *. simpl.
  apply existsb_exists in X. destruct X as (s & I & E).
  apply existsb_exists. exists s. split; [|exact E].
  apply filter_In. split; [exact I|].
  apply String.eqb_eq in E. now rewrite E.
Qed.

Lemma eq_opt_Some (u uid : Z) :
  negb (eq_opt (Some u) uid) = true -> u <> uid.
Proof. simpl. intros H. now apply negb_true_iff, Z.eqb_neq in H. Qed.

Lemma after_rollback_refs (uid : Z) (db : DB) :
  refs_ok db -> refs_ok (after_rollback uid db).
Proof.
  intros (Hm & Ha & Hk & Hr). unfold refs_ok.
  repeat match goal with |- _ /\ _ => split end; simpl.
  - intros m I. apply filter_In in I. destruct I as [I N].
    apply upload_exists_after_rollback; [now apply Hm|].
    now apply negb_true_iff, Z.eqb_neq in N.
  - intros a u I E. apply filter_In in I. destruct I as [I _].
    apply filter_In in I. destruct I as [I N]. rewrite E in N.
    apply upload_exists_after_rollback; [eapply Ha; eauto|].
    now apply eq_opt_Some.
  - intros m u I E. apply filter_In in I. destruct I as [I _].
    apply filter_In in I. destruct I as [I N]. rewrite E in N.
    apply upload_exists_after_rollback; [eapply Hk; eauto|].
    now apply eq_opt_Some.
  - intros r I. apply filter_In in I. destruct I as [I N].
    apply student_exists_after_rollback; [now apply Hr|exact N].
Qed.

Lemma add_remark_refs (r : remark_row) (db : DB) :
  refs_ok db -> student_exists (rm_roll_no r) db = true ->
  refs_ok (set_remarks (remarks db ++ [r]) db).
Proof.
  intros (Hm & Ha & Hk & Hr) X. unfold refs_ok.
  repeat match goal with |- _ /\ _ => split end; simpl.
  - exact Hm.
  - exact Ha.
  - exact Hk.
  - intros x I. apply in_app_or in I. destruct I as [I|[<-|[]]].
    + now apply Hr.
    + exact X.
Qed.

Lemma refs_ok_empty : refs_ok empty_db.
Proof. repeat split; simpl; intros; contradiction. Qed.

Lemma reachable_refs_ok (db : DB) : reachable db -> refs_ok db.
Proof.
  apply reachable_inv;
    [apply create_upload_record_refs | apply bump_rowcount_refs
    | apply apply_student_refs | apply apply_attendance_refs
    | apply apply_marks_refs
    | intros uid d K _; now apply after_rollback_refs
    | apply add_remark_refs | apply refs_ok_empty].
Qed.

(** In every store the program reaches no reference dangles: every
    provenance row and every non-null [source_upload_id] of an attendance or
    marks row names an upload that is in the ledger, and every remark
    names a student of the store. *)
Theorem reachable_references (db : DB) :
  reachable db ->
  (forall m, In m (upload_students_map db) ->
             exists u, find_upload (mp_upload_id m) db = Some u) /\
  (forall a uid, In a (attendance db) -> at_source_upload_id a = Some uid ->
                 exists u, find_upload uid db = Some u) /\
  (forall m uid, In m (marks db) -> mk_source_upload_id m = Some uid ->
                 exists u, find_upload uid db = Some u) /\
  (forall r, In r (remarks db) ->
             exists s, find_student (rm_roll_no r) db = Some s).
Proof.
  intros R. destruct (reachable_refs_ok db R) as (Hm & Ha & Hk & Hr).
  repeat match goal with |- _ /\ _ => split end.
  - intros m I. now apply find_upload_exists, Hm.
  - intros a uid I E. eapply find_upload_exists, Ha; eauto.
  - intros m uid I E. eapply find_upload_exists, Hk; eauto.
  - intros r I. specialize (Hr r I). unfold student_exists in Hr.
    unfold find_student.
    destruct (find _ (students db)) as [s|] eqn:F; [eauto|].
    apply existsb_exists in Hr. destruct Hr as (s & Is & E).
    apply (find_none _ _ F) in Is. congruence.
Qed.

End References.

(** The attendance row of the sample store was written by upload 2, which
    the ledger holds. *)
Lemma reachable_references_witness :
  exists u, Store.find_upload 2 SampleReimport.base = Some u.
Proof.
  assert (R : Routes.reachable (B := Literal.builtins) SampleReimport.base).
  { unfold SampleReimport.base. apply reachable_run_all.
    apply (Routes.reach_init (B := Literal.builtins)). }
  destruct (reachable_references (B := Literal.builtins) _ R)
    as (_ & A & _ & _).
  apply (A (Store.mkAttendance "R1" "Math" 10 20 (Some 3) (Some 2)) 2);
    [vm_compute; left; reflexivity|reflexivity].
Defined.

(** ** The ledger of uploads *)

Section Ledger.
Import Frame Store Importers Routes.
Context {B : Py.Builtins}.

Lemma StronglySorted_snoc {A : Type} (R : A -> A -> Prop) (l : list A) (y : A) :
  StronglySorted R l -> (forall x, In x l -> R x y) ->
  StronglySorted R (l ++ [y]).
Proof.
  induction 1 as [|a l S IH F]; simpl; intros H.
  - repeat constructor.
  - constructor; [apply IH; auto|].
    apply Forall_app. split; [exact F|]. repeat constructor. apply H. now left.
Qed.

Lemma StronglySorted_map_filter {A K : Type} (R : K -> K -> Prop)
    (key : A -> K) (f : A -> bool) (l : list A) :
  StronglySorted R (map key l) -> StronglySorted R (map key (filter f l)).
Proof.
  induction l as [|x l IH]; simpl; intros S; [constructor|].
  inversion S as [|? ? S' F]; subst.
  destruct (f x); simpl; [|auto].
  constructor; [auto|].
  rewrite Forall_forall in *. intros k I. apply F.
  apply in_map_iff in I. destruct I as (y & <- & I). apply filter_In in I.
  apply in_map. tauto.
Qed.

Lemma StronglySorted_lt_NoDup (l : list Z) : StronglySorted Z.lt l -> NoDup l.
Proof.
  induction 1 as [|a l S IH F]; constructor; [|exact IH].
  intros I. rewrite Forall_forall in F. specialize (F a I). lia.
Qed.

Lemma counted_ids (uid n : Z) (l : list upload_row) :
  map up_id (counted uid n l) = map up_id l.
Proof.
  unfold counted. rewrite map_map. apply map_ext.
  intros u. now destruct (up_id u =? uid).
Qed.

Lemma import_students_ledger (df : DataFrame) (uid : Z) (db db' : DB) :
  import_students df uid db = Ok db' ->
  uploads_seq db' = uploads_seq db /\
  exists n, uploads db' = counted uid n (uploads db).
Proof.
  unfold import_students. generalize (students_frame df). intros fr H.
  cbv zeta in H. bind_inv H. bind_inv H. injection H as <-.
  destruct (students_loop_effect _ _ _ _ _ _ E0) as (U & Q & _).
  split; [exact Q|]. exists (snd x0).
  unfold bump_rowcount, counted. simpl. now rewrite U.
Qed.

Lemma import_attendance_ledger (df : DataFrame) (uid : Z) (db db' : DB) :
  import_attendance df uid db = Ok db' ->
  uploads_seq db' = uploads_seq db /\
  exists n, uploads db' = counted uid n (uploads db).
Proof.
  unfold import_attendance. generalize (attendance_frame df). intros fr H.
  cbv zeta in H. bind_inv H. bind_inv H. injection H as <-.
  destruct (attendance_loop_effect _ _ _ _ _ _ E0) as (U & Q & _).
  split; [exact Q|]. exists (snd x0).
  unfold bump_rowcount, counted. simpl. now rewrite U.
Qed.

Lemma import_marks_ledger (df : DataFrame) (uid : Z) (db db' : DB) :
  import_marks df uid db = Ok db' ->
  uploads_seq db' = uploads_seq db /\
  exists n, uploads db' = counted uid n (uploads db).
Proof.
  unfold import_marks. generalize (marks_frame df). intros fr H.
  cbv zeta in H. bind_inv H. bind_inv H. injection H as <-.
  destruct (marks_loop_effect _ _ _ _ _ _ E0) as (U & Q & _).
  split; [exact Q|]. exists (snd x0).
  unfold bump_rowcount, counted. simpl. now rewrite U.
Qed.

Lemma ledger_step_refl (db : DB) : ledger_ok db -> ledger_step db db.
Proof. intros H. split; [exact H|]. split; [lia|auto]. Qed.

Lemma ledger_step_same (db db' : DB) :
  uploads db' = uploads db -> uploads_seq db' = uploads_seq db ->
  ledger_ok db -> ledger_step db db'.
Proof.
  intros U Q H. unfold ledger_step, ledger_ok. rewrite U, Q.
  split; [exact H|]. split; [lia|auto].
Qed.

Lemma upload_with_ledger (kind choose : string)
    (importer : DataFrame -> Z -> DB -> res DB) (rq : Request) (db : DB) :
  (forall df uid d d', importer df uid d = Ok d' ->
                       uploads_seq d' = uploads_seq d /\
                       exists n, uploads d' = counted uid n (uploads d)) ->
  ledger_ok db ->
  ledger_step db (fst (upload_with kind choose importer rq db)).
Proof.
  intros Himp Hok. unfold upload_with.
  destruct (negb (is_admin rq)); [now apply ledger_step_refl|].
  destruct (posted rq) as [f|]; [|now apply ledger_step_refl].
  destruct (String.eqb (filename f) ""); [now apply ledger_step_refl|].
  destruct (negb (allowed_ext (filename f))); [now apply ledger_step_refl|].
  unfold create_upload_record.
  destruct (uploads_seq db <? 2 ^ 63 - 1); [|now apply ledger_step_refl].
  cbn [bind].
  set (db1 := set_uploads _ _ db).
  destruct Hok as (S & Hb & Q).
  assert (L1 : ledger_ok db1).
  { split; [|split]; simpl.
    - rewrite map_app. apply StronglySorted_snoc; [exact S|].
      intros i I. apply in_map_iff in I. destruct I as (u & <- & I).
      apply Hb in I. simpl. lia.
    - intros u I. apply in_app_or in I. destruct I as [I|[<-|[]]].
      + apply Hb in I. lia.
      + simpl. lia.
    - lia. }
  assert (S1 : ledger_step db db1).
  { split; [exact L1|]. split; [simpl; lia|]. intros u I. simpl in I.
    apply in_app_or in I. destruct I as [I|[<-|[]]]; [now left|now right]. }
  destruct (bind (loaded f) _) as [db2|e] eqn:E; [|exact S1].
  bind_inv E. apply Himp in E. destruct E as (Q2 & n & U2). cbn [fst].
  assert (Ids : map up_id (uploads db2) = map up_id (uploads db1))
    by (rewrite U2; apply counted_ids).
  destruct L1 as (S1' & Hb1 & Q1).
  split; [split; [|split]|split].
  - now rewrite Ids.
  - intros u I. rewrite Q2.
    assert (J : In (up_id u) (map up_id (uploads db1)))
      by (rewrite <- Ids; now apply in_map).
    apply in_map_iff in J. destruct J as (u' & <- & J). now apply Hb1.
  - now rewrite Q2.
  - rewrite Q2. simpl. lia.
  - intros u I. rewrite U2 in I. unfold counted in I.
    apply in_map_iff in I. destruct I as (u0 & Eu & I).
    destruct (up_id u0 =? uploads_seq db + 1) eqn:T.
    + right. subst u. simpl. now apply Z.eqb_eq.
    + subst u. simpl in I. apply in_app_or in I.
      destruct I as [I|[<-|[]]]; [now left|].
      simpl in T. rewrite Z.eqb_refl in T. discriminate.
Qed.

Lemma after_rollback_ledger (uid : Z) (db : DB) :
  ledger_ok db -> ledger_step db (after_rollback uid db).
Proof.
  intros (S & Hb & Q). split; [split; [|split]|split]; simpl.
  - now apply StronglySorted_map_filter.
  - intros u I. apply filter_In in I. now apply Hb.
  - exact Q.
  - lia.
  - intros u I. apply filter_In in I. tauto.
Qed.

Lemma run_ledger (a : action) (db : DB) :
  ledger_ok db -> ledger_step db (run a db).
Proof.
  intros H. destruct a as [rq|rq|rq|rq uid|rq roll remark]; simpl.
  - apply upload_with_ledger; [apply import_students_ledger|exact H].
  - apply upload_with_ledger; [apply import_attendance_ledger|exact H].
  - apply upload_with_ledger; [apply import_marks_ledger|exact H].
  - unfold delete_upload_route.
    destruct (negb (is_admin rq)); [now apply ledger_step_refl|].
    destruct (delete_upload_cases uid db) as [[E ->]|(r0 & ->)]; cbn [fst];
      [now apply after_rollback_ledger|now apply ledger_step_refl].
  - unfold add_remark.
    destruct (String.eqb _ ""); [now apply ledger_step_refl|].
    destruct (student_exists roll db); [|now apply ledger_step_refl].
    now apply ledger_step_same.
Qed.

Lemma run_all_ledger (l : list action) :
  forall db : DB,
    ledger_ok db ->
    ledger_ok (run_all l db) /\
    uploads_seq db <= uploads_seq (run_all l db) /\
    (forall u, In u (uploads (run_all l db)) ->
               up_id u <= uploads_seq db -> In u (uploads db)).
Proof.
  induction l as [|a l IH]; simpl; intros db H.
  - split; [exact H|]. split; [lia|auto].
  - destruct (run_ledger a db H) as (H1 & Q1 & U1).
    destruct (IH _ H1) as (H2 & Q2 & U2).
    split; [exact H2|]. split; [lia|].
    intros u I Le. apply U2 in I; [|lia].
    destruct (U1 u I) as [J|J]; [exact J|lia].
Qed.

Lemma ledger_ok_empty : ledger_ok empty_db.
Proof. split; [constructor|]. split; [intros u []|simpl; lia]. Qed.

Lemma reachable_ledger_ok (db : DB) : reachable db -> ledger_ok db.
Proof.
  induction 1 as [|a db R IH]; [apply ledger_ok_empty|].
  exact (proj1 (run_ledger a db IH)).
Qed.

(** In every store the program reaches, the ledger lists its uploads by
    strictly increasing id, so no two records share an id, and every id
    lies between 1 and the AUTOINCREMENT counter. Whatever requests follow,
    a record found later under an id that was already given out is a
    record of this store, unchanged: an id is never given to a second
    upload, not even after a rollback, and a record is not modified once
    its request is over. *)
Theorem ledger_ids_stable (db : DB) :
  reachable db ->
  StronglySorted Z.lt (map up_id (uploads db)) /\
  NoDup (map up_id (uploads db)) /\
  (forall u, In u (uploads db) -> 1 <= up_id u <= uploads_seq db) /\
  (forall l u, In u (uploads (run_all l db)) ->
               up_id u <= uploads_seq db -> In u (uploads db)).
Proof.
  intros R. pose proof (reachable_ledger_ok db R) as H.
  pose proof H as (S & Hb & Q).
  split; [exact S|]. split; [now apply StronglySorted_lt_NoDup|].
  split; [exact Hb|].
  intros l. exact (proj2 (proj2 (run_all_ledger l db H))).
Qed.

End Ledger.

(** The three uploads of the sample store have distinct ids. *)
Lemma ledger_ids_stable_witness :
  NoDup (map Store.up_id (Store.uploads SampleReimport.base)).
Proof.
  assert (R : Routes.reachable (B := Literal.builtins) SampleReimport.base).
  { unfold SampleReimport.base. apply reachable_run_all.
    apply (Routes.reach_init (B := Literal.builtins)). }
  exact (proj1 (proj2 (ledger_ids_stable (B := Literal.builtins) _ R))).
Defined.

(** ** A rollback is complete *)

Section RollbackComplete.
Import Frame Store Importers Routes.
Context {B : Py.Builtins}.

Lemma find_upload_after_rollback (uid : Z) (db : DB) :
  find_upload uid (after_rollback uid db) = None.
Proof.
  unfold find_upload. simpl.
  destruct (find _ (filter _ (uploads db))) as [u|] eqn:F; [|reflexivity].
  apply find_some in F. destruct F as [I E].
  apply filter_In in I. destruct I as [_ N].
  rewrite E in N. discriminate.
Qed.

(** The rollback of an upload of the ledger, whose id fits SQLite's 64
    bits and which created no more students than one statement takes
    parameters, answers [True] and removes every trace of its id: the
    record, its provenance rows, and the attendance and marks rows it
    wrote; it adds no row to any table; and a second rollback of the same
    id answers [False] and changes nothing. *)
Theorem rollback_complete (uid : Z) (db : DB) :
  - 2 ^ 63 <= uid < 2 ^ 63 ->
  upload_exists uid db = true ->
  (N.of_nat (List.length (created_rolls uid db)) <= Py.max_variable_number)%N ->
  fst (delete_upload uid db) = Ok true /\
  find_upload uid (snd (delete_upload uid db)) = None /\
  (forall m, In m (upload_students_map (snd (delete_upload uid db))) ->
             mp_upload_id m <> uid /\ In m (upload_students_map db)) /\
  (forall a, In a (attendance (snd (delete_upload uid db))) ->
             at_source_upload_id a <> Some uid /\ In a (attendance db)) /\
  (forall m, In m (marks (snd (delete_upload uid db))) ->
             mk_source_upload_id m <> Some uid /\ In m (marks db)) /\
  (forall u, In u (uploads (snd (delete_upload uid db))) -> In u (uploads db)) /\
  (forall s, In s (students (snd (delete_upload uid db))) ->
             In s (students db)) /\
  (forall r, In r (remarks (snd (delete_upload uid db))) -> In r (remarks db)) /\
  delete_upload uid (snd (delete_upload uid db)) =
    (Ok false, snd (delete_upload uid db)).
Proof.
  intros R E V. rewrite (delete_upload_known uid db R E V). cbn [fst snd].
  split; [reflexivity|].
  split; [apply find_upload_after_rollback|].
  split.
  { intros m I. simpl in I. apply filter_In in I. destruct I as [I N].
    split; [now apply negb_true_iff, Z.eqb_neq in N|exact I]. }
  split.
  { intros a I. simpl in I. apply filter_In in I. destruct I as [I _].
    apply filter_In in I. destruct I as [I N]. split; [|exact I].
    intros S. rewrite S in N. simpl in N. rewrite Z.eqb_refl in N.
    discriminate. }
  split.
  { intros m I. simpl in I. apply filter_In in I. destruct I as [I _].
    apply filter_In in I. destruct I as [I N]. split; [|exact I].
    intros S. rewrite S in N. simpl in N. rewrite Z.eqb_refl in N.
    discriminate. }
  split; [intros u I; simpl in I; apply filter_In in I; tauto|].
  split; [intros s I; simpl in I; apply filter_In in I; tauto|].
  split; [intros r I; simpl in I; apply filter_In in I; tauto|].
  unfold delete_upload at 1. rewrite (sqlite_int_fits uid R).
  now rewrite find_upload_after_rollback.
Qed.

End RollbackComplete.

(** Upload 1 of the sample store: after its rollback a second one reports
    that the upload is not found. *)
Lemma rollback_complete_witness :
  Importers.delete_upload (B := Literal.builtins) 1
    (snd (Importers.delete_upload (B := Literal.builtins) 1
            SampleReimport.base))
  = (Ok false,
     snd (Importers.delete_upload (B := Literal.builtins) 1
            SampleReimport.base)).
Proof.
  assert (R : - 2 ^ 63 <= 1 < 2 ^ 63) by lia.
  assert (E : Store.upload_exists 1 SampleReimport.base = true)
    by (vm_compute; reflexivity).
  assert (V : (N.of_nat (List.length
                           (Importers.created_rolls 1 SampleReimport.base))
               <= Py.max_variable_number (Builtins := Literal.builtins))%N)
    by (vm_compute; discriminate).
  apply (rollback_complete (B := Literal.builtins) 1 SampleReimport.base R E V).
Defined.

(** ** An upload followed by its rollback *)

Section UploadRollback.
Import Frame Store Importers Routes.
Context {B : Py.Builtins}.

Lemma filter_none {A : Type} (f : A -> bool) (l : list A) :
  (forall x, In x l -> f x = false) -> filter f l = [].
Proof.
  induction l as [|x l IH]; simpl; intros H; [reflexivity|].
  rewrite (H x (or_introl eq_refl)). apply IH. auto.
Qed.

Lemma filter_andb {A : Type} (f g : A -> bool) (l : list A) :
  filter f (filter g l) = filter (fun x => g x && f x) l.
Proof.
  induction l as [|x l IH]; simpl; [reflexivity|].
  destruct (g x); simpl; [|exact IH].
  destruct (f x); now rewrite IH.
Qed.

Lemma same_attendance_comm (a x : attendance_row) :
  same_attendance (at_roll_no a) (at_subject a) x =
  same_attendance (at_roll_no x) (at_subject x) a.
Proof.
  unfold same_attendance.
  now rewrite (String.eqb_sym (at_roll_no x)), (String.eqb_sym (at_subject x)).
Qed.

Lemma same_marks_comm (a x : marks_row) :
  same_marks (mk_roll_no a) (mk_exam a) (mk_subject a) x =
  same_marks (mk_roll_no x) (mk_exam x) (mk_subject x) a.
Proof.
  unfold same_marks.
  now rewrite (String.eqb_sym (mk_roll_no x)), (String.eqb_sym (mk_exam x)),
    (String.eqb_sym (mk_subject x)).
Qed.

(** The rows of other uploads that the upsert of a row of [uid] leaves are
    those that do not have the row's key. *)
Lemma kept_upsert_attendance (uid : Z) (a : attendance_row)
    (l : list attendance_row) :
  at_source_upload_id a = Some uid ->
  NoDup (map attendance_key l) ->
  filter (fun x => negb (eq_opt (at_source_upload_id x) uid))
         (upsert_attendance a l) =
  filter (fun x => negb (same_attendance (at_roll_no a) (at_subject a) x))
         (filter (fun x => negb (eq_opt (at_source_upload_id x) uid)) l).
Proof.
  intros Sa. induction l as [|old l IH]; simpl; intros N.
  - rewrite Sa. simpl. now rewrite Z.eqb_refl.
  - inversion N as [|? ? Ho Nl]; subst.
    destruct (same_attendance (at_roll_no a) (at_subject a) old) eqn:E; simpl.
    + rewrite Sa. simpl. rewrite Z.eqb_refl. simpl.
      assert (K : filter (fun x => negb (same_attendance (at_roll_no a)
                                                         (at_subject a) x))
                         (filter (fun x => negb (eq_opt (at_source_upload_id x)
                                                        uid)) l) =
                  filter (fun x => negb (eq_opt (at_source_upload_id x) uid)) l).
      { apply filter_all. intros x I. apply filter_In in I. destruct I as [I _].
        apply negb_true_iff.
        destruct (same_attendance (at_roll_no a) (at_subject a) x) eqn:Ex;
          [|reflexivity].
        exfalso. apply Ho. apply same_attendance_key in E, Ex.
        rewrite E, <- Ex. now apply in_map. }
      destruct (negb (eq_opt (at_source_upload_id old) uid)); simpl.
      * rewrite E. simpl. now rewrite K.
      * now rewrite K.
    + destruct (negb (eq_opt (at_source_upload_id old) uid)); simpl.
      * rewrite E. simpl. f_equal. now apply IH.
      * now apply IH.
Qed.

(** The keys of the rows of [uid] after the upsert of one more. *)
Lemma written_upsert_attendance (uid : Z) (a : attendance_row)
    (l : list attendance_row) (roll subj : string) :
  at_source_upload_id a = Some uid ->
  existsb (same_attendance roll subj)
          (written_by_a uid (upsert_attendance a l)) =
  same_attendance roll subj a ||
  existsb (same_attendance roll subj) (written_by_a uid l).
Proof.
  intros Sa. unfold written_by_a.
  induction l as [|old l IH]; simpl.
  - rewrite Sa. simpl. rewrite Z.eqb_refl. reflexivity.
  - destruct (same_attendance (at_roll_no a) (at_subject a) old) eqn:E; simpl.
    + rewrite Sa. simpl. rewrite Z.eqb_refl. simpl.
      destruct (same_attendance_sym _ _ E) as [E1 E2].
      assert (K : same_attendance roll subj old = same_attendance roll subj a)
        by (unfold same_attendance; now rewrite E1, E2).
      unfold same_attendance at 1. simpl. fold (same_attendance roll subj old).
      rewrite K.
      destruct (eq_opt (at_source_upload_id old) uid); simpl; [|reflexivity].
      rewrite K. now destruct (same_attendance roll subj a).
    + destruct (eq_opt (at_source_upload_id old) uid); simpl.
      * rewrite IH.
        destruct (same_attendance roll subj old),
          (same_attendance roll subj a); reflexivity.
      * exact IH.
Qed.

Lemma upsert_attendance_trip (uid : Z) (a : attendance_row)
    (l0 l : list attendance_row) :
  at_source_upload_id a = Some uid ->
  NoDup (map attendance_key l) ->
  filter (fun x => negb (eq_opt (at_source_upload_id x) uid)) l =
    untouched_a (written_by_a uid l) l0 ->
  filter (fun x => negb (eq_opt (at_source_upload_id x) uid))
         (upsert_attendance a l) =
    untouched_a (written_by_a uid (upsert_attendance a l)) l0.
Proof.
  intros Sa N H. rewrite (kept_upsert_attendance uid a l Sa N), H.
  unfold untouched_a. rewrite filter_andb. apply filter_ext.
  intros x. rewrite (written_upsert_attendance uid a l _ _ Sa).
  rewrite (same_attendance_comm a x).
  destruct (same_attendance (at_roll_no x) (at_subject x) a); simpl.
  - apply andb_false_r.
  - apply andb_true_r.
Qed.

Lemma upsert_attendance_NoDup (a : attendance_row) (l : list attendance_row) :
  NoDup (map attendance_key l) ->
  NoDup (map attendance_key (upsert_attendance a l)).
Proof.
  intros N. rewrite upsert_attendance_keys.
  destruct (existsb _ l) eqn:E; [exact N|].
  apply NoDup_app; [exact N|repeat constructor; intros []|].
  intros k I [<-|[]]. now apply (existsb_same_attendance a l E).
Qed.

Lemma apply_attendance_shape (a : attendance_row) (db db' : DB) :
  apply_attendance a db = Ok db' ->
  db' = set_attendance (upsert_attendance a (attendance db)) db.
Proof.
  unfold apply_attendance. intros H. repeat bind_inv H.
  destruct (_ && _); [|discriminate]. now injection H as <-.
Qed.

Lemma attendance_loop_trip (df : DataFrame) (uid : Z)
    (l0 : list attendance_row) (rs : list (list cell)) :
  forall db n st,
    NoDup (map attendance_key (attendance db)) ->
    filter (fun x => negb (eq_opt (at_source_upload_id x) uid)) (attendance db) =
      untouched_a (written_by_a uid (attendance db)) l0 ->
    attendance_loop df uid rs db n = Ok st ->
    exists l',
      fst st = set_attendance l' db /\
      filter (fun x => negb (eq_opt (at_source_upload_id x) uid)) l' =
        untouched_a (written_by_a uid l') l0.
Proof.
  induction rs as [|r rest IH]; simpl; intros db n st N Hi H.
  - injection H as <-. exists (attendance db). split; [now destruct db|exact Hi].
  - bind_inv H. destruct x as [a|]; [|eapply IH; eassumption].
    bind_inv H. apply attendance_of_row_source in E.
    apply apply_attendance_shape in E0. subst x.
    destruct (IH (set_attendance (upsert_attendance a (attendance db)) db) _ _
                 (upsert_attendance_NoDup a _ N)
                 (upsert_attendance_trip uid a l0 _ E N Hi) H)
      as (l' & F & Hl).
    exists l'. split; [exact F|exact Hl].
Qed.

(** The same for the marks table. *)
Lemma kept_upsert_marks (uid : Z) (a : marks_row) (l : list marks_row) :
  mk_source_upload_id a = Some uid ->
  NoDup (map marks_key l) ->
  filter (fun x => negb (eq_opt (mk_source_upload_id x) uid))
         (upsert_marks a l) =
  filter (fun x => negb (same_marks (mk_roll_no a) (mk_exam a) (mk_subject a) x))
         (filter (fun x => negb (eq_opt (mk_source_upload_id x) uid)) l).
Proof.
  intros Sa. induction l as [|old l IH]; simpl; intros N.
  - rewrite Sa. simpl. now rewrite Z.eqb_refl.
  - inversion N as [|? ? Ho Nl]; subst.
    destruct (same_marks (mk_roll_no a) (mk_exam a) (mk_subject a) old) eqn:E;
      simpl.
    + rewrite Sa. simpl. rewrite Z.eqb_refl. simpl.
      assert (K : filter (fun x => negb (same_marks (mk_roll_no a) (mk_exam a)
                                                    (mk_subject a) x))
                         (filter (fun x => negb (eq_opt (mk_source_upload_id x)
                                                        uid)) l) =
                  filter (fun x => negb (eq_opt (mk_source_upload_id x) uid)) l).
      { apply filter_all. intros x I. apply filter_In in I. destruct I as [I _].
        apply negb_true_iff.
        destruct (same_marks (mk_roll_no a) (mk_exam a) (mk_subject a) x) eqn:Ex;
          [|reflexivity].
        exfalso. apply Ho. apply same_marks_key in E, Ex.
        rewrite E, <- Ex. now apply in_map. }
      destruct (negb (eq_opt (mk_source_upload_id old) uid)); simpl.
      * rewrite E. simpl. now rewrite K.
      * now rewrite K.
    + destruct (negb (eq_opt (mk_source_upload_id old) uid)); simpl.
      * rewrite E. simpl. f_equal. now apply IH.
      * now apply IH.
Qed.

Lemma written_upsert_marks (uid : Z) (a : marks_row) (l : list marks_row)
    (roll exam subj : string) :
  mk_source_upload_id a = Some uid ->
  existsb (same_marks roll exam subj) (written_by_m uid (upsert_marks a l)) =
  same_marks roll exam subj a ||
  existsb (same_marks roll exam subj) (written_by_m uid l).
Proof.
  intros Sa. unfold written_by_m.
  induction l as [|old l IH]; simpl.
  - rewrite Sa. simpl. rewrite Z.eqb_refl. reflexivity.
  - destruct (same_marks (mk_roll_no a) (mk_exam a) (mk_subject a) old) eqn:E;
      simpl.
    + rewrite Sa. simpl. rewrite Z.eqb_refl. simpl.
      destruct (same_marks_sym _ _ E) as (E1 & E2 & E3).
      assert (K : same_marks roll exam subj old = same_marks roll exam subj a)
        by (unfold same_marks; now rewrite E1, E2, E3).
      unfold same_marks at 1. simpl. fold (same_marks roll exam subj old).
      rewrite K.
      destruct (eq_opt (mk_source_upload_id old) uid); simpl; [|reflexivity].
      rewrite K. now destruct (same_marks roll exam subj a).
    + destruct (eq_opt (mk_source_upload_id old) uid); simpl.
      * rewrite IH.
        destruct (same_marks roll exam subj old),
          (same_marks roll exam subj a); reflexivity.
      * exact IH.
Qed.

Lemma upsert_marks_trip (uid : Z) (a : marks_row) (l0 l : list marks_row) :
  mk_source_upload_id a = Some uid ->
  NoDup (map marks_key l) ->
  filter (fun x => negb (eq_opt (mk_source_upload_id x) uid)) l =
    untouched_m (written_by_m uid l) l0 ->
  filter (fun x => negb (eq_opt (mk_source_upload_id x) uid))
         (upsert_marks a l) =
    untouched_m (written_by_m uid (upsert_marks a l)) l0.
Proof.
  intros Sa N H. rewrite (kept_upsert_marks uid a l Sa N), H.
  unfold untouched_m. rewrite filter_andb. apply filter_ext.
  intros x. rewrite (written_upsert_marks uid a l _ _ _ Sa).
  rewrite (same_marks_comm a x).
  destruct (same_marks (mk_roll_no x) (mk_exam x) (mk_subject x) a); simpl.
  - apply andb_false_r.
  - apply andb_true_r.
Qed.

Lemma upsert_marks_NoDup (a : marks_row) (l : list marks_row) :
  NoDup (map marks_key l) -> NoDup (map marks_key (upsert_marks a l)).
Proof.
  intros N. rewrite upsert_marks_keys.
  destruct (existsb _ l) eqn:E; [exact N|].
  apply NoDup_app; [exact N|repeat constructor; intros []|].
  intros k I [<-|[]]. apply in_map_iff in I. destruct I as (x & K & I).
  apply same_marks_key in K.
  assert (T : existsb (same_marks (mk_roll_no a) (mk_exam a) (mk_subject a)) l
              = true) by (apply existsb_exists; eauto).
  congruence.
Qed.

Lemma apply_marks_shape (m : marks_row) (db db' : DB) :
  apply_marks m db = Ok db' ->
  db' = set_marks (upsert_marks m (marks db)) db.
Proof.
  unfold apply_marks. intros H. repeat bind_inv H.
  destruct (_ && _); [|discriminate]. now injection H as <-.
Qed.

Lemma marks_loop_trip (df : DataFrame) (uid : Z) (l0 : list marks_row)
    (rs : list (list cell)) :
  forall db n st,
    NoDup (map marks_key (marks db)) ->
    filter (fun x => negb (eq_opt (mk_source_upload_id x) uid)) (marks db) =
      untouched_m (written_by_m uid (marks db)) l0 ->
    marks_loop df uid rs db n = Ok st ->
    exists l',
      fst st = set_marks l' db /\
      filter (fun x => negb (eq_opt (mk_source_upload_id x) uid)) l' =
        untouched_m (written_by_m uid l') l0.
Proof.
  induction rs as [|r rest IH]; simpl; intros db n st N Hi H.
  - injection H as <-. exists (marks db). split; [now destruct db|exact Hi].
  - bind_inv H. destruct x as [a|]; [|eapply IH; eassumption].
    bind_inv H. apply marks_of_row_source in E.
    apply apply_marks_shape in E0. subst x.
    destruct (IH (set_marks (upsert_marks a (marks db)) db) _ _
                 (upsert_marks_NoDup a _ N)
                 (upsert_marks_trip uid a l0 _ E N Hi) H)
      as (l' & F & Hl).
    exists l'. split; [exact F|exact Hl].
Qed.

(** A table that no row of [uid] is in. *)
Lemma untouched_start_a (uid : Z) (l : list attendance_row) :
  (forall a, In a l -> eq_opt (at_source_upload_id a) uid = false) ->
  filter (fun x => negb (eq_opt (at_source_upload_id x) uid)) l = l /\
  untouched_a (written_by_a uid l) l = l.
Proof.
  intros H. split.
  - apply filter_all. intros x I. now rewrite (H x I).
  - unfold written_by_a. rewrite (filter_none _ _ H).
    apply filter_all. reflexivity.
Qed.

Lemma untouched_start_m (uid : Z) (l : list marks_row) :
  (forall a, In a l -> eq_opt (mk_source_upload_id a) uid = false) ->
  filter (fun x => negb (eq_opt (mk_source_upload_id x) uid)) l = l /\
  untouched_m (written_by_m uid l) l = l.
Proof.
  intros H. split.
  - apply filter_all. intros x I. now rewrite (H x I).
  - unfold written_by_m. rewrite (filter_none _ _ H).
    apply filter_all. reflexivity.
Qed.

Lemma import_attendance_trip (df : DataFrame) (uid : Z) (db db1 : DB) :
  NoDup (map attendance_key (attendance db)) ->
  (forall a, In a (attendance db) ->
             eq_opt (at_source_upload_id a) uid = false) ->
  import_attendance df uid db = Ok db1 ->
  exists n l',
    db1 = bump_rowcount uid n (set_attendance l' db) /\
    filter (fun x => negb (eq_opt (at_source_upload_id x) uid)) l' =
      untouched_a (written_by_a uid l') (attendance db).
Proof.
  intros N W. unfold import_attendance. generalize (attendance_frame df).
  intros fr H. cbv zeta in H. bind_inv H. bind_inv H. injection H as <-.
  destruct (untouched_start_a uid _ W) as [W1 W2].
  assert (Hi : filter (fun x => negb (eq_opt (at_source_upload_id x) uid))
                      (attendance db) =
               untouched_a (written_by_a uid (attendance db)) (attendance db))
    by (now rewrite W1, W2).
  destruct (attendance_loop_trip fr uid (attendance db) _ db 0 x0 N Hi E0)
    as (l' & F & Hl).
  exists (snd x0), l'. rewrite F. split; [reflexivity|exact Hl].
Qed.

Lemma import_marks_trip (df : DataFrame) (uid : Z) (db db1 : DB) :
  NoDup (map marks_key (marks db)) ->
  (forall a, In a (marks db) -> eq_opt (mk_source_upload_id a) uid = false) ->
  import_marks df uid db = Ok db1 ->
  exists n l',
    db1 = bump_rowcount uid n (set_marks l' db) /\
    filter (fun x => negb (eq_opt (mk_source_upload_id x) uid)) l' =
      untouched_m (written_by_m uid l') (marks db).
Proof.
  intros N W. unfold import_marks. generalize (marks_frame df).
  intros fr H. cbv zeta in H. bind_inv H. bind_inv H. injection H as <-.
  destruct (untouched_start_m uid _ W) as [W1 W2].
  assert (Hi : filter (fun x => negb (eq_opt (mk_source_upload_id x) uid))
                      (marks db) =
               untouched_m (written_by_m uid (marks db)) (marks db))
    by (now rewrite W1, W2).
  destruct (marks_loop_trip fr uid (marks db) _ db 0 x0 N Hi E0)
    as (l' & F & Hl).
  exists (snd x0), l'. rewrite F. split; [reflexivity|exact Hl].
Qed.

(** *** The rollback of the upload that was just made *)

Lemma reachable_fresh (db : DB) :
  reachable db -> fresh (uploads_seq db + 1) db.
Proof.
  intros R. pose proof (reachable_ok db R) as Hok.
  destruct (reachable_refs_ok db R) as (_ & Ha & Hk & _).
  pose proof Hok as [[Hu Hm] _]. unfold fresh.
  repeat match goal with |- _ /\ _ => split end.
  - intros u I. apply Hu in I. lia.
  - intros m I. apply Hm in I. lia.
  - intros a I. destruct (at_source_upload_id a) as [u|] eqn:E; [|reflexivity].
    simpl. apply Z.eqb_neq.
    pose proof (upload_exists_le _ _ Hok (Ha a u I E)). lia.
  - intros m I. destruct (mk_source_upload_id m) as [u|] eqn:E; [|reflexivity].
    simpl. apply Z.eqb_neq.
    pose proof (upload_exists_le _ _ Hok (Hk m u I E)). lia.
Qed.

Lemma fresh_not_exists (uid : Z) (db : DB) :
  fresh uid db -> upload_exists uid db = false.
Proof.
  intros (Hu & _). unfold upload_exists.
  destruct (existsb _ (uploads db)) eqn:E; [|reflexivity].
  apply existsb_exists in E. destruct E as (u & I & E).
  apply Z.eqb_eq in E. now apply Hu in I.
Qed.

Lemma after_rollback_no_created (uid : Z) (db : DB) :
  created_rolls uid db = [] ->
  after_rollback uid db =
  mkDB (filter (fun u => negb (up_id u =? uid)) (uploads db))
       (uploads_seq db) (students db)
       (filter (fun m => negb (mp_upload_id m =? uid)) (upload_students_map db))
       (filter (fun a => negb (eq_opt (at_source_upload_id a) uid))
               (attendance db))
       (filter (fun m => negb (eq_opt (mk_source_upload_id m) uid)) (marks db))
       (remarks db).
Proof.
  intros C. unfold after_rollback. rewrite C. cbv zeta.
  f_equal; apply filter_all; reflexivity.
Qed.

Lemma filter_counted (uid n : Z) (l : list upload_row) :
  filter (fun u => negb (up_id u =? uid)) (counted uid n l) =
  filter (fun u => negb (up_id u =? uid)) l.
Proof.
  unfold counted. induction l as [|u l IH]; simpl; [reflexivity|].
  destruct (up_id u =? uid) eqn:E; simpl; rewrite E; simpl; now rewrite IH.
Qed.

Lemma filter_new_upload (uid : Z) (new : upload_row) (l : list upload_row) :
  (forall u, In u l -> up_id u <> uid) -> up_id new = uid ->
  filter (fun u => negb (up_id u =? uid)) (l ++ [new]) = l.
Proof.
  intros H E. rewrite filter_app. simpl. rewrite E, Z.eqb_refl. simpl.
  rewrite app_nil_r. apply filter_all. intros u I.
  apply negb_true_iff, Z.eqb_neq. now apply H.
Qed.

(** The rollback of [uid] in a store [d1] that differs from a store where
    [uid] is fresh by the record of [uid] and by attendance and marks
    rows. *)
Lemma rollback_fields (uid : Z) (db d1 : DB) :
  fresh uid db ->
  - 2 ^ 63 <= uid < 2 ^ 63 ->
  filter (fun u => negb (up_id u =? uid)) (uploads d1) = uploads db ->
  upload_exists uid d1 = true ->
  students d1 = students db ->
  upload_students_map d1 = upload_students_map db ->
  remarks d1 = remarks db ->
  snd (delete_upload uid d1) =
  mkDB (uploads db) (uploads_seq d1) (students db) (upload_students_map db)
       (filter (fun a => negb (eq_opt (at_source_upload_id a) uid))
               (attendance d1))
       (filter (fun m => negb (eq_opt (mk_source_upload_id m) uid)) (marks d1))
       (remarks db).
Proof.
  intros (Hu & Hm & Ha & Hk) Rg U X S M R.
  assert (Cn : created_rolls uid d1 = []).
  { unfold created_rolls. rewrite M.
    rewrite filter_none; [reflexivity|].
    intros m I. apply andb_false_iff. left. apply Z.eqb_neq. now apply Hm. }
  rewrite (delete_upload_known uid d1 Rg X) by (rewrite Cn; simpl; lia).
  cbn [snd].
  assert (F : filter (fun m => negb (mp_upload_id m =? uid))
                     (upload_students_map db) = upload_students_map db).
  { apply filter_all. intros m I. apply negb_true_iff, Z.eqb_neq.
    now apply Hm. }
  rewrite (after_rollback_no_created _ _ Cn).
  now rewrite U, S, M, R, F.
Qed.

Lemma rollback_rejected (uid : Z) (db : DB) :
  fresh uid db ->
  snd (delete_upload uid db) =
  mkDB (uploads db) (uploads_seq db) (students db) (upload_students_map db)
       (attendance db) (marks db) (remarks db).
Proof.
  intros F. destruct (delete_upload_cases uid db) as [[E _]|(r0 & ->)].
  - rewrite (fresh_not_exists uid db F) in E. discriminate.
  - now destruct db.
Qed.

Lemma upload_exists_new (fn kind t u : string) (db : DB) :
  upload_exists (uploads_seq db + 1)
                (set_uploads
                   (uploads db ++ [mkUpload (uploads_seq db + 1) fn kind 0 t u])
                   (uploads_seq db + 1) db) = true.
Proof.
  unfold upload_exists. simpl.
  rewrite existsb_app. simpl. rewrite Z.eqb_refl. apply orb_true_iff. right.
  reflexivity.
Qed.

(** An Attendance or Marks upload followed by the rollback of the id it
    was given: the ledger, the students, the provenance rows, the other
    table and the remarks are as before the upload (the id counter stays
    advanced), and the table the upload wrote to has lost the rows under
    whose key the upload wrote. The rollback deletes what the upload
    overwrote; it restores no earlier value. A request that was refused,
    or whose import failed, leaves every table as before. *)
Theorem upload_then_rollback (rq : Request) (db : DB) :
  reachable db ->
  snd (delete_upload (uploads_seq db + 1) (fst (upload_attendance rq db))) =
    mkDB (uploads db) (uploads_seq (fst (upload_attendance rq db)))
         (students db) (upload_students_map db)
         (untouched_a
            (written_by_a (uploads_seq db + 1)
                          (attendance (fst (upload_attendance rq db))))
            (attendance db))
         (marks db) (remarks db) /\
  snd (delete_upload (uploads_seq db + 1) (fst (upload_marks rq db))) =
    mkDB (uploads db) (uploads_seq (fst (upload_marks rq db)))
         (students db) (upload_students_map db) (attendance db)
         (untouched_m
            (written_by_m (uploads_seq db + 1)
                          (marks (fst (upload_marks rq db))))
            (marks db))
         (remarks db).
Proof.
  intros R. pose proof (reachable_fresh db R) as F.
  pose proof F as (Hu & Hm & Ha & Hk).
  destruct (untouched_start_a _ _ Ha) as [A1 A2].
  destruct (untouched_start_m _ _ Hk) as [K1 K2].
  destruct (reachable_ok db R) as [_ [Na _]].
  destruct (reachable_keys_ok db R) as [_ [Nk _]].
  assert (Rg : uploads_seq db < 2 ^ 63 - 1 ->
               - 2 ^ 63 <= uploads_seq db + 1 < 2 ^ 63)
    by (pose proof (reachable_seq db R); lia).
  split.
  - unfold upload_attendance.
    destruct (upload_with_cases "Attendance"
                "Choose an Attendance Excel/CSV file." import_attendance rq db)
      as [->|(f & Q & [->|(df & E)])];
      try rewrite (create_upload_record_ok _ _ _ _ _ Q) in *; cbn [snd] in *.
    + rewrite A2. now apply rollback_rejected.
    + rewrite (rollback_fields (uploads_seq db + 1) db _ F (Rg Q));
        try reflexivity.
      * simpl. now rewrite A1, A2, K1.
      * now apply filter_new_upload.
      * apply upload_exists_new.
    + apply import_attendance_trip in E; [|exact Na|exact Ha].
      destruct E as (n & l' & E & Hl).
      set (d1 := fst (upload_with _ _ _ rq db)) in *.
      assert (Ea : attendance d1 = l') by (now rewrite E).
      assert (Ek : marks d1 = marks db) by (now rewrite E).
      rewrite (rollback_fields (uploads_seq db + 1) db d1 F (Rg Q)).
      * now rewrite Ea, Ek, Hl, K1.
      * rewrite E.
        change (filter (fun u => negb (up_id u =? uploads_seq db + 1))
                       (counted (uploads_seq db + 1) n (uploads db ++ [mkUpload (uploads_seq db + 1) (saved_name f)
                          "Attendance" 0 (now rq) (actor rq)])) = uploads db).
        rewrite filter_counted. now apply filter_new_upload.
      * rewrite E.
        rewrite (upload_exists_ids _ _ _ (bump_rowcount_ids (uploads_seq db + 1) n _)).
        apply (upload_exists_new (saved_name f) "Attendance" (now rq) (actor rq)).
      * now rewrite E.
      * now rewrite E.
      * now rewrite E.
  - unfold upload_marks.
    destruct (upload_with_cases "Marks" "Choose a Marks Excel/CSV file."
                                import_marks rq db)
      as [->|(f & Q & [->|(df & E)])];
      try rewrite (create_upload_record_ok _ _ _ _ _ Q) in *; cbn [snd] in *.
    + rewrite K2. now apply rollback_rejected.
    + rewrite (rollback_fields (uploads_seq db + 1) db _ F (Rg Q));
        try reflexivity.
      * simpl. now rewrite A1, K1, K2.
      * now apply filter_new_upload.
      * apply upload_exists_new.
    + apply import_marks_trip in E; [|exact Nk|exact Hk].
      destruct E as (n & l' & E & Hl).
      set (d1 := fst (upload_with _ _ _ rq db)) in *.
      assert (Ea : attendance d1 = attendance db) by (now rewrite E).
      assert (Ek : marks d1 = l') by (now rewrite E).
      rewrite (rollback_fields (uploads_seq db + 1) db d1 F (Rg Q)).
      * now rewrite Ea, Ek, Hl, A1.
      * rewrite E.
        change (filter (fun u => negb (up_id u =? uploads_seq db + 1))
                       (counted (uploads_seq db + 1) n (uploads db ++ [mkUpload (uploads_seq db + 1) (saved_name f)
                          "Marks" 0 (now rq) (actor rq)])) = uploads db).
        rewrite filter_counted. now apply filter_new_upload.
      * rewrite E.
        rewrite (upload_exists_ids _ _ _ (bump_rowcount_ids (uploads_seq db + 1) n _)).
        apply (upload_exists_new (saved_name f) "Marks" (now rq) (actor rq)).
      * now rewrite E.
      * now rewrite E.
      * now rewrite E.
Qed.

(** *** A Students upload and its rollback *)

Lemma student_exists_In (s : student_row) (db : DB) :
  In s (students db) -> student_exists (st_roll_no s) db = true.
Proof.
  intros I. apply existsb_exists. exists s. split; [exact I|].
  apply String.eqb_refl.
Qed.

Lemma map_filter_key {A K : Type} (key : A -> K) (g : K -> bool) (l : list A) :
  map key (filter (fun x => g (key x)) l) = filter g (map key l).
Proof.
  induction l as [|x l IH]; simpl; [reflexivity|].
  destruct (g (key x)); simpl; now rewrite IH.
Qed.

Lemma upsert_student_In (s x : student_row) (l : list student_row) :
  In x (upsert_student s l) -> In x l \/ st_roll_no x = st_roll_no s.
Proof.
  induction l as [|old l IH]; simpl.
  - intros [<-|[]]. now right.
  - destruct (String.eqb (st_roll_no old) (st_roll_no s)) eqn:E.
    + intros [<-|I]; [|auto]. right. simpl. now apply String.eqb_eq.
    + intros [<-|I]; [auto|]. destruct (IH I); auto.
Qed.

Lemma apply_student_full (uid : Z) (s : student_row) (db db' : DB) :
  apply_student uid s db = Ok db' ->
  db' = set_map (upload_students_map db ++
                 [mkMap uid (st_roll_no s)
                        (if student_exists (st_roll_no s) db then 0 else 1)])
                (set_students (upsert_student s (students db)) db).
Proof.
  unfold apply_student. intros H. bind_inv H.
  destruct (upload_exists uid _); [|discriminate]. now injection H as <-.
Qed.

(** What the loop of [import_students] keeps true, relative to the store
    [db0] before the upload: the students of [db0] are there, in their
    order; the provenance rows it adds carry [uid], and one flagged
    [created_new] names a roll number that [db0] did not hold; and every
    student that [db0] did not hold has such a row. *)
Lemma students_loop_trip (df : DataFrame) (uid : Z) (db0 : DB)
    (rs : list (list cell)) :
  forall db n st added,
    (forall roll, student_exists roll db0 = true ->
                  student_exists roll db = true) ->
    filter (fun r => student_exists r db0) (map st_roll_no (students db)) =
      map st_roll_no (students db0) ->
    upload_students_map db = (upload_students_map db0 ++ added)%list ->
    Forall (fun m => mp_upload_id m = uid /\
                     (mp_created_new m = 1 ->
                      student_exists (mp_roll_no m) db0 = false)) added ->
    (forall s, In s (students db) ->
               student_exists (st_roll_no s) db0 = true \/
               In (st_roll_no s) (created_rolls uid db)) ->
    students_loop df uid rs db n = Ok st ->
    exists ls added',
      fst st = set_map (upload_students_map db0 ++ added') (set_students ls db) /\
      filter (fun r => student_exists r db0) (map st_roll_no ls) =
        map st_roll_no (students db0) /\
      Forall (fun m => mp_upload_id m = uid /\
                       (mp_created_new m = 1 ->
                        student_exists (mp_roll_no m) db0 = false)) added' /\
      (forall s, In s ls ->
                 student_exists (st_roll_no s) db0 = true \/
                 In (st_roll_no s) (created_rolls uid (fst st))).
Proof.
  induction rs as [|r rest IH]; simpl; intros db n st added Mono Fl Ma Fa C H.
  - injection H as <-. exists (students db), added. simpl.
    split; [rewrite <- Ma; now destruct db|]. auto.
  - bind_inv H. destruct x as [s|]; [|eapply IH; eassumption].
    bind_inv H. apply apply_student_full in E0. subst x.
    set (flag := if student_exists (st_roll_no s) db then 0 else 1) in *.
    set (d' := set_map _ _) in H.
    assert (Mono' : forall roll, student_exists roll db0 = true ->
                                 student_exists roll d' = true).
    { intros roll X. unfold student_exists. simpl.
      rewrite existsb_upsert_student. apply orb_true_iff. right.
      now apply Mono. }
    assert (Fl' : filter (fun r => student_exists r db0)
                         (map st_roll_no (students d')) =
                  map st_roll_no (students db0)).
    { change (students d') with (upsert_student s (students db)).
      rewrite upsert_student_rolls.
      change (existsb (fun x => String.eqb (st_roll_no x) (st_roll_no s))
                      (students db))
        with (student_exists (st_roll_no s) db).
      destruct (student_exists (st_roll_no s) db) eqn:X; [exact Fl|].
      rewrite filter_app, Fl. simpl.
      destruct (student_exists (st_roll_no s) db0) eqn:X0.
      - apply Mono in X0. congruence.
      - apply app_nil_r. }
    assert (Ma' : upload_students_map d' =
                  (upload_students_map db0 ++
                   (added ++ [mkMap uid (st_roll_no s) flag]))%list).
    { simpl. now rewrite Ma, app_assoc. }
    assert (Fa' : Forall (fun m => mp_upload_id m = uid /\
                                   (mp_created_new m = 1 ->
                                    student_exists (mp_roll_no m) db0 = false))
                         (added ++ [mkMap uid (st_roll_no s) flag])).
    { apply Forall_app. split; [exact Fa|]. constructor; [|constructor].
      simpl. split; [reflexivity|]. unfold flag.
      destruct (student_exists (st_roll_no s) db) eqn:X; [discriminate|].
      intros _. destruct (student_exists (st_roll_no s) db0) eqn:X0;
        [|reflexivity].
      apply Mono in X0. congruence. }
    assert (Cm : forall roll, In roll (created_rolls uid db) ->
                              In roll (created_rolls uid d')).
    { intros roll I. apply created_rolls_In in I.
      destruct I as (m & I & K). apply created_rolls_In. exists m.
      split; [|exact K]. simpl. apply in_or_app. now left. }
    assert (C' : forall x, In x (students d') ->
                           student_exists (st_roll_no x) db0 = true \/
                           In (st_roll_no x) (created_rolls uid d')).
    { intros x I. simpl in I. apply upsert_student_In in I.
      destruct I as [I|Ex].
      - destruct (C x I) as [X|X]; [now left|right; now apply Cm].
      - rewrite Ex. destruct (student_exists (st_roll_no s) db) eqn:X.
        + apply existsb_exists in X. destruct X as (x0 & I0 & E0).
          apply String.eqb_eq in E0. rewrite <- E0.
          destruct (C x0 I0) as [X|X]; [now left|right; now apply Cm].
        + right. apply created_rolls_In.
          exists (mkMap uid (st_roll_no s) flag).
          split; [simpl; apply in_or_app; right; now left|].
          cbn [mp_upload_id mp_created_new mp_roll_no].
          unfold flag. repeat split. }
    destruct (IH d' _ _ _ Mono' Fl' Ma' Fa' C' H) as (ls & added' & F & R1 & R2 & R3).
    exists ls, added'. split; [exact F|]. auto.
Qed.

Lemma rollback_fields_students (uid : Z) (db d1 : DB)
    (added : list map_row) :
  fresh uid db -> children_ok db ->
  (forall r, In r (remarks db) -> student_exists (rm_roll_no r) db = true) ->
  - 2 ^ 63 <= uid < 2 ^ 63 ->
  (N.of_nat (List.length (created_rolls uid d1)) <= Py.max_variable_number)%N ->
  filter (fun u => negb (up_id u =? uid)) (uploads d1) = uploads db ->
  upload_exists uid d1 = true ->
  attendance d1 = attendance db -> marks d1 = marks db ->
  remarks d1 = remarks db ->
  upload_students_map d1 = (upload_students_map db ++ added)%list ->
  Forall (fun m => mp_upload_id m = uid /\
                   (mp_created_new m = 1 ->
                    student_exists (mp_roll_no m) db = false)) added ->
  (forall s, In s (students d1) ->
             student_exists (st_roll_no s) db = true \/
             In (st_roll_no s) (created_rolls uid d1)) ->
  snd (delete_upload uid d1) =
  mkDB (uploads db) (uploads_seq d1)
       (filter (fun s => student_exists (st_roll_no s) db) (students d1))
       (upload_students_map db) (attendance db) (marks db) (remarks db).
Proof.
  intros (Hu & Hm & Ha & Hk) [Ca Ck] Cr Rg V U X A K R M Fa C.
  rewrite (delete_upload_known uid d1 Rg X V). cbn [snd].
  rewrite Forall_forall in Fa.
  assert (Old : forall roll, student_exists roll db = true ->
                             negb (mem roll (created_rolls uid d1)) = true).
  { intros roll E. apply negb_true_iff.
    destruct (mem roll (created_rolls uid d1)) eqn:T; [|reflexivity].
    exfalso. apply mem_In, created_rolls_In in T.
    destruct T as (m & I & T1 & T2 & T3). rewrite M in I.
    apply in_app_or in I. destruct I as [I|I].
    - now apply Hm in I.
    - destruct (Fa m I) as [_ N]. rewrite T3 in N. specialize (N T2).
      congruence. }
  unfold after_rollback. rewrite U, A, K, R. f_equal.
  - apply filter_ext_in. intros s I.
    destruct (student_exists (st_roll_no s) db) eqn:E; [now apply Old|].
    destruct (C s I) as [T|T]; [congruence|].
    apply negb_false_iff. now apply mem_In.
  - rewrite M, filter_app.
    rewrite (filter_all _ (upload_students_map db)).
    + rewrite filter_none; [apply app_nil_r|].
      intros m I. destruct (Fa m I) as [-> _]. now rewrite Z.eqb_refl.
    + intros m I. apply negb_true_iff, Z.eqb_neq. now apply Hm.
  - rewrite (filter_all _ (attendance db)).
    + apply filter_all. intros a I. now apply Old, Ca.
    + intros a I. now rewrite (Ha a I).
  - rewrite (filter_all _ (marks db)).
    + apply filter_all. intros m I. now apply Old, Ck.
    + intros m I. now rewrite (Hk m I).
  - apply filter_all. intros r I. now apply Old, Cr.
Qed.

Lemma reachable_children_ok (db : DB) : reachable db -> children_ok db.
Proof.
  induction 1 as [|a db R IH]; [apply children_ok_empty|now apply run_children].
Qed.

Lemma filter_students_same (db : DB) :
  filter (fun s => student_exists (st_roll_no s) db) (students db) = students db.
Proof. apply filter_all. intros s I. now apply student_exists_In. Qed.

(** A Students upload followed by the rollback of the id it was given,
    when the upload created no more students than one statement takes
    parameters: the students are those the store held before the upload,
    in the same order, each with the values the upload left (what the
    upload wrote over an existing student stays; the students it created
    are gone), and every other table is as before the upload. *)
Theorem students_upload_then_rollback (rq : Request) (db : DB) :
  reachable db ->
  (N.of_nat (List.length (created_rolls (uploads_seq db + 1)
                                        (fst (upload_students rq db)))) <=
   Py.max_variable_number)%N ->
  snd (delete_upload (uploads_seq db + 1) (fst (upload_students rq db))) =
    mkDB (uploads db) (uploads_seq (fst (upload_students rq db)))
         (filter (fun s => student_exists (st_roll_no s) db)
                 (students (fst (upload_students rq db))))
         (upload_students_map db) (attendance db) (marks db) (remarks db) /\
  map st_roll_no
      (filter (fun s => student_exists (st_roll_no s) db)
              (students (fst (upload_students rq db)))) =
    map st_roll_no (students db).
Proof.
  intros R V. pose proof (reachable_fresh db R) as F.
  pose proof F as (Hu & Hm & Ha & Hk).
  destruct (untouched_start_a _ _ Ha) as [A1 _].
  destruct (untouched_start_m _ _ Hk) as [K1 _].
  pose proof (reachable_children_ok db R) as Ch.
  destruct (reachable_refs_ok db R) as (_ & _ & _ & Cr).
  assert (Rg : uploads_seq db < 2 ^ 63 - 1 ->
               - 2 ^ 63 <= uploads_seq db + 1 < 2 ^ 63)
    by (pose proof (reachable_seq db R); lia).
  unfold upload_students in *.
  destruct (upload_with_cases "Students" "Choose a Students Excel/CSV file."
                              import_students rq db)
    as [->|(f & Q & [->|(df & E)])];
    try rewrite (create_upload_record_ok _ _ _ _ _ Q) in *; cbn [snd] in *.
  - rewrite filter_students_same. split; [now apply rollback_rejected|reflexivity].
  - change (students (set_uploads
                        (uploads db ++ [mkUpload (uploads_seq db + 1)
                           (saved_name f) "Students" 0 (now rq) (actor rq)])
                        (uploads_seq db + 1) db))
      with (students db).
    rewrite filter_students_same. split; [|reflexivity].
    rewrite (rollback_fields (uploads_seq db + 1) db _ F (Rg Q));
      try reflexivity.
    + simpl. now rewrite A1, K1.
    + now apply filter_new_upload.
    + apply upload_exists_new.
  - set (d1 := fst (upload_with _ _ _ rq db)) in *.
    unfold import_students in E. revert E. generalize (students_frame df).
    intros fr E. cbv zeta in E. bind_inv E. bind_inv E. injection E as E.
    set (c := set_uploads
                (uploads db ++ [mkUpload (uploads_seq db + 1)
                   (saved_name f) "Students" 0 (now rq) (actor rq)])
                (uploads_seq db + 1) db) in *.
    assert (Fl0 : filter (fun r => student_exists r db)
                         (map st_roll_no (students c)) =
                  map st_roll_no (students db)).
    { change (students c) with (students db).
      rewrite <- (map_filter_key st_roll_no (fun r => student_exists r db)).
      now rewrite filter_students_same. }
    assert (Ma0 : upload_students_map c = (upload_students_map db ++ [])%list)
      by (simpl; now rewrite app_nil_r).
    assert (C0 : forall s, In s (students c) ->
                           student_exists (st_roll_no s) db = true \/
                           In (st_roll_no s)
                              (created_rolls (uploads_seq db + 1) c))
      by (intros s I; left; now apply student_exists_In).
    destruct (students_loop_trip fr (uploads_seq db + 1) db (iterrows fr) c 0 x0 []
                (fun roll X => X) Fl0 Ma0 (Forall_nil _) C0 E1)
      as (ls & added & St & Fl & Fa & C).
    rewrite St in E, C.
    assert (Es : students d1 = ls) by (now rewrite <- E).
    split.
    + rewrite (rollback_fields_students (uploads_seq db + 1) db d1 added F Ch Cr
                 (Rg Q) V).
      * reflexivity.
      * rewrite <- E.
        change (filter (fun u => negb (up_id u =? uploads_seq db + 1))
                       (counted (uploads_seq db + 1) (snd x0)
                          (uploads db ++ [mkUpload (uploads_seq db + 1)
                             (saved_name f) "Students" 0 (now rq) (actor rq)])) =
                uploads db).
        rewrite filter_counted. now apply filter_new_upload.
      * rewrite <- E.
        rewrite (upload_exists_ids _ _ _ (bump_rowcount_ids _ _ _)).
        apply (upload_exists_new (saved_name f) "Students" (now rq) (actor rq)).
      * now rewrite <- E.
      * now rewrite <- E.
      * now rewrite <- E.
      * now rewrite <- E.
      * exact Fa.
      * rewrite Es. intros s I. destruct (C s I) as [X|X]; [now left|right].
        now rewrite <- E.
    + rewrite Es, (map_filter_key st_roll_no (fun r => student_exists r db)).
      exact Fl.
Qed.

End UploadRollback.
(** The attendance of R1 in Math is uploaded again and the upload is
    rolled back: the row is gone, not restored to what upload 2 wrote. *)
Lemma upload_then_rollback_witness :
  Store.attendance
    (snd (Importers.delete_upload (B := Literal.builtins)
            (Store.uploads_seq SampleReimport.base + 1)
            (fst (Routes.upload_attendance (B := Literal.builtins)
                    SampleTrip.attendance_again SampleReimport.base)))) = [].
Proof.
  assert (R : Routes.reachable (B := Literal.builtins) SampleReimport.base).
  { unfold SampleReimport.base. apply reachable_run_all.
    apply (Routes.reach_init (B := Literal.builtins)). }
  rewrite (proj1 (upload_then_rollback (B := Literal.builtins)
                    SampleTrip.attendance_again SampleReimport.base R)).
  vm_compute. reflexivity.
Defined.

(** A Students file that renames R1 is uploaded and rolled back: R1 keeps
    the new name. *)
Lemma students_upload_then_rollback_witness :
  Store.students
    (snd (Importers.delete_upload (B := Literal.builtins)
            (Store.uploads_seq SampleReimport.base + 1)
            (fst (Routes.upload_students (B := Literal.builtins)
                    SampleTrip.students_again SampleReimport.base)))) =
  [Store.mkStudent "R1" "Alice B" None None None None None].
Proof.
  assert (R : Routes.reachable (B := Literal.builtins) SampleReimport.base).
  { unfold SampleReimport.base. apply reachable_run_all.
    apply (Routes.reach_init (B := Literal.builtins)). }
  assert (V : (N.of_nat
                 (List.length
                    (Importers.created_rolls
                       (Store.uploads_seq SampleReimport.base + 1)
                       (fst (Routes.upload_students (B := Literal.builtins)
                               SampleTrip.students_again
                               SampleReimport.base)))) <=
               Py.max_variable_number (Builtins := Literal.builtins))%N)
    by (vm_compute; discriminate).
  rewrite (proj1 (students_upload_then_rollback (B := Literal.builtins)
                    SampleTrip.students_again SampleReimport.base R V)).
  vm_compute. reflexivity.
Defined.

(** ** What an upload request touches *)

Section UploadFrame.
Import Frame Store Importers Routes.
Context {B : Py.Builtins}.

(** The three outcomes of an upload request: refused before anything is
    stored; accepted, the import failing after the upload record was
    committed; accepted and imported. *)
Lemma upload_with_outcome (kind choose : string)
    (importer : DataFrame -> Z -> DB -> res DB) (rq : Request) (db : DB) :
  (fst (upload_with kind choose importer rq db) = db /\
   snd (upload_with kind choose importer rq db) <>
     Some (kind ++ " imported/updated successfully.", "success")) \/
  exists f,
    uploads_seq db < 2 ^ 63 - 1 /\
    ((fst (upload_with kind choose importer rq db) =
        snd (create_upload_record (saved_name f) kind (now rq) (actor rq) db) /\
      snd (upload_with kind choose importer rq db) <>
        Some (kind ++ " imported/updated successfully.", "success")) \/
     (exists df,
        importer df (uploads_seq db + 1)
                 (snd (create_upload_record (saved_name f) kind (now rq)
                                            (actor rq) db)) =
        Ok (fst (upload_with kind choose importer rq db)) /\
        snd (upload_with kind choose importer rq db) =
        Some (kind ++ " imported/updated successfully.", "success"))).
Proof.
  unfold upload_with.
  destruct (negb (is_admin rq)); [left; split; [reflexivity|discriminate]|].
  destruct (posted rq) as [f|];
    [|left; split; [reflexivity|discriminate]].
  destruct (String.eqb (filename f) "");
    [left; split; [reflexivity|discriminate]|].
  destruct (negb (allowed_ext (filename f)));
    [left; split; [reflexivity|discriminate]|].
  unfold create_upload_record.
  destruct (uploads_seq db <? 2 ^ 63 - 1) eqn:Q;
    [|left; split; [reflexivity|discriminate]].
  apply Z.ltb_lt in Q.
  right. exists f. split; [exact Q|]. cbn [snd bind].
  set (db1 := set_uploads _ _ db).
  destruct (bind (loaded f) _) as [db2|e] eqn:E.
  - right. bind_inv E. exists x. split; [exact E|reflexivity].
  - left. split; [reflexivity|]. cbn [snd]. discriminate.
Qed.

Lemma students_loop_shape (df : DataFrame) (uid : Z) (rs : list (list cell)) :
  forall db n st,
    students_loop df uid rs db n = Ok st ->
    exists ls lm, fst st = set_map lm (set_students ls db).
Proof.
  induction rs as [|r rest IH]; simpl; intros db n st H.
  - injection H as <-. exists (students db), (upload_students_map db).
    now destruct db.
  - bind_inv H. destruct x as [s|]; [|eapply IH; eassumption].
    bind_inv H. apply apply_student_full in E0. subst x.
    destruct (IH _ _ _ H) as (ls & lm & F). exists ls, lm. exact F.
Qed.

Lemma attendance_loop_shape (df : DataFrame) (uid : Z)
    (rs : list (list cell)) :
  forall db n st,
    attendance_loop df uid rs db n = Ok st ->
    exists l, fst st = set_attendance l db.
Proof.
  induction rs as [|r rest IH]; simpl; intros db n st H.
  - injection H as <-. exists (attendance db). now destruct db.
  - bind_inv H. destruct x as [a|]; [|eapply IH; eassumption].
    bind_inv H. apply apply_attendance_shape in E0. subst x.
    destruct (IH _ _ _ H) as (l & F). exists l. exact F.
Qed.

Lemma marks_loop_shape (df : DataFrame) (uid : Z) (rs : list (list cell)) :
  forall db n st,
    marks_loop df uid rs db n = Ok st ->
    exists l, fst st = set_marks l db.
Proof.
  induction rs as [|r rest IH]; simpl; intros db n st H.
  - injection H as <-. exists (marks db). now destruct db.
  - bind_inv H. destruct x as [a|]; [|eapply IH; eassumption].
    bind_inv H. apply apply_marks_shape in E0. subst x.
    destruct (IH _ _ _ H) as (l & F). exists l. exact F.
Qed.

Lemma import_students_shape (df : DataFrame) (uid : Z) (db db' : DB) :
  import_students df uid db = Ok db' ->
  exists n ls lm, db' = bump_rowcount uid n (set_map lm (set_students ls db)).
Proof.
  unfold import_students. generalize (students_frame df). intros fr H.
  cbv zeta in H. bind_inv H. bind_inv H. injection H as <-.
  destruct (students_loop_shape _ _ _ _ _ _ E0) as (ls & lm & F).
  exists (snd x0), ls, lm. now rewrite F.
Qed.

Lemma import_attendance_shape (df : DataFrame) (uid : Z) (db db' : DB) :
  import_attendance df uid db = Ok db' ->
  exists n l, db' = bump_rowcount uid n (set_attendance l db).
Proof.
  unfold import_attendance. generalize (attendance_frame df). intros fr H.
  cbv zeta in H. bind_inv H. bind_inv H. injection H as <-.
  destruct (attendance_loop_shape _ _ _ _ _ _ E0) as (l & F).
  exists (snd x0), l. now rewrite F.
Qed.

Lemma import_marks_shape (df : DataFrame) (uid : Z) (db db' : DB) :
  import_marks df uid db = Ok db' ->
  exists n l, db' = bump_rowcount uid n (set_marks l db).
Proof.
  unfold import_marks. generalize (marks_frame df). intros fr H.
  cbv zeta in H. bind_inv H. bind_inv H. injection H as <-.
  destruct (marks_loop_shape _ _ _ _ _ _ E0) as (l & F).
  exists (snd x0), l. now rewrite F.
Qed.

(** An upload request writes to the ledger and to the tables of its own
    kind only, and to those only when it ends with the success message:
    a Students upload never changes attendance, marks or remarks, an
    Attendance upload changes no table but attendance, a Marks upload no
    table but marks; and unless the request flashes "... imported/updated
    successfully." the students, the provenance rows, the attendance and
    the marks are all as before, whatever made it fail (no session, no
    file, a refused file name, an unreadable file, a missing column, a
    cell that is no number, a violated constraint). *)
Theorem upload_touches_own_table (rq : Request) (db : DB) :
  (attendance (fst (upload_students rq db)) = attendance db /\
   marks (fst (upload_students rq db)) = marks db /\
   remarks (fst (upload_students rq db)) = remarks db /\
   (snd (upload_students rq db) =
      Some ("Students imported/updated successfully.", "success") \/
    students (fst (upload_students rq db)) = students db /\
    upload_students_map (fst (upload_students rq db)) =
      upload_students_map db)) /\
  (students (fst (upload_attendance rq db)) = students db /\
   upload_students_map (fst (upload_attendance rq db)) =
     upload_students_map db /\
   marks (fst (upload_attendance rq db)) = marks db /\
   remarks (fst (upload_attendance rq db)) = remarks db /\
   (snd (upload_attendance rq db) =
      Some ("Attendance imported/updated successfully.", "success") \/
    attendance (fst (upload_attendance rq db)) = attendance db)) /\
  (students (fst (upload_marks rq db)) = students db /\
   upload_students_map (fst (upload_marks rq db)) = upload_students_map db /\
   attendance (fst (upload_marks rq db)) = attendance db /\
   remarks (fst (upload_marks rq db)) = remarks db /\
   (snd (upload_marks rq db) =
      Some ("Marks imported/updated successfully.", "success") \/
    marks (fst (upload_marks rq db)) = marks db)).
Proof.
  split; [|split].
  - unfold upload_students.
    destruct (upload_with_outcome "Students"
                "Choose a Students Excel/CSV file." import_students rq db)
      as [[-> _]|(f & Q & [[-> _]|(df & E & S)])];
      try rewrite (create_upload_record_ok _ _ _ _ _ Q) in *; cbn [snd] in *.
    + repeat split; auto.
    + repeat split; auto.
    + apply import_students_shape in E. destruct E as (n & ls & lm & ->).
      repeat split; auto.
  - unfold upload_attendance.
    destruct (upload_with_outcome "Attendance"
                "Choose an Attendance Excel/CSV file." import_attendance rq db)
      as [[-> _]|(f & Q & [[-> _]|(df & E & S)])];
      try rewrite (create_upload_record_ok _ _ _ _ _ Q) in *; cbn [snd] in *.
    + repeat split; auto.
    + repeat split; auto.
    + apply import_attendance_shape in E. destruct E as (n & l & ->).
      repeat split; auto.
  - unfold upload_marks.
    destruct (upload_with_outcome "Marks" "Choose a Marks Excel/CSV file."
                                  import_marks rq db)
      as [[-> _]|(f & Q & [[-> _]|(df & E & S)])];
      try rewrite (create_upload_record_ok _ _ _ _ _ Q) in *; cbn [snd] in *.
    + repeat split; auto.
    + repeat split; auto.
    + apply import_marks_shape in E. destruct E as (n & l & ->).
      repeat split; auto.
Qed.

End UploadFrame.

(** ** The same Students file, twice *)

Section SameFileTwice.
Import Frame Store Importers Routes.
Context {B : Py.Builtins}.

(** The rows of a file either leave the row of a roll number as it is or
    decide it, whatever it was. *)
Lemma last_written_cases (df : DataFrame) (k : string) (rs : list (list cell)) :
  (forall acc, last_written df k rs acc = acc) \/
  (exists s, forall acc, last_written df k rs acc = Some s).
Proof.
  induction rs as [|r rest IH]; simpl; [now left|].
  destruct (student_of_row df r) as [[s|]|]; try exact IH.
  destruct (String.eqb (st_roll_no s) k).
  - right. destruct IH as [L|(s0 & R)].
    + exists s. intros acc. apply L.
    + exists s0. intros acc. apply R.
  - exact IH.
Qed.

Lemma last_written_idem (df : DataFrame) (k : string) (rs : list (list cell))
    (acc : option student_row) :
  last_written df k rs (last_written df k rs acc) = last_written df k rs acc.
Proof.
  destruct (last_written_cases df k rs) as [L|(s & R)].
  - now rewrite !L.
  - now rewrite !R.
Qed.

(** After the loop every roll number the file applied is in the store. *)
Lemma students_loop_exists (df : DataFrame) (uid : Z) (rs : list (list cell)) :
  forall db n st,
    students_loop df uid rs db n = Ok st ->
    forall r s, In r rs -> student_of_row df r = Ok (Some s) ->
                student_exists (st_roll_no s) (fst st) = true.
Proof.
  induction rs as [|r rest IH]; simpl; intros db n st H r' s' I Hr;
    [destruct I|].
  bind_inv H. destruct x as [s|].
  - bind_inv H. destruct I as [<-|I]; [|eapply IH; eassumption].
    rewrite E in Hr. injection Hr as <-.
    destruct (apply_student_effect _ _ _ _ E0) as (_ & _ & _ & _ & X).
    destruct (students_loop_effect _ _ _ _ _ _ H) as (_ & _ & _ & _ & Mono).
    apply Mono. rewrite X, String.eqb_refl. reflexivity.
  - destruct I as [<-|I]; [congruence|eapply IH; eassumption].
Qed.

(** When every roll number the file applies is already in the store, the
    loop adds no student, and its provenance rows are flagged 0. *)
Lemma students_loop_known (df : DataFrame) (uid : Z) (rs : list (list cell)) :
  forall db n st,
    (forall r s, In r rs -> student_of_row df r = Ok (Some s) ->
                 student_exists (st_roll_no s) db = true) ->
    students_loop df uid rs db n = Ok st ->
    map st_roll_no (students (fst st)) = map st_roll_no (students db) /\
    exists added,
      upload_students_map (fst st) = (upload_students_map db ++ added)%list /\
      Forall (fun m => mp_upload_id m = uid /\ mp_created_new m = 0) added.
Proof.
  induction rs as [|r rest IH]; simpl; intros db n st All H.
  - injection H as <-. split; [reflexivity|]. exists []. simpl.
    now rewrite app_nil_r.
  - bind_inv H. destruct x as [s|].
    + bind_inv H.
      assert (X : student_exists (st_roll_no s) db = true)
        by (apply (All r s); [now left|exact E]).
      pose proof (apply_student_effect _ _ _ _ E0) as (_ & _ & _ & _ & Xs).
      apply apply_student_full in E0. rewrite X in E0. subst x.
      destruct (IH _ _ _
                   (fun r' s' I Hr =>
                      eq_trans (Xs (st_roll_no s'))
                               (proj2 (orb_true_iff _ _)
                                      (or_intror (All r' s' (or_intror I) Hr))))
                   H) as (R & added & M & F).
      split.
      * rewrite R. cbn [students set_map set_students].
        rewrite upsert_student_rolls.
        change (existsb (fun x => String.eqb (st_roll_no x) (st_roll_no s))
                        (students db))
          with (student_exists (st_roll_no s) db).
        now rewrite X.
      * exists (mkMap uid (st_roll_no s) 0 :: added). split.
        -- rewrite M. cbn [upload_students_map set_map].
           now rewrite <- app_assoc.
        -- constructor; [split; reflexivity|exact F].
    + apply (IH _ _ _ (fun r' s' I Hr => All r' s' (or_intror I) Hr) H).
Qed.

Lemma find_absent (k : string) (l : list student_row) :
  ~ In k (map st_roll_no l) ->
  find (fun s => String.eqb (st_roll_no s) k) l = None.
Proof.
  intros N. destruct (find _ l) as [s|] eqn:F; [|reflexivity].
  apply find_some in F. destruct F as [I E]. apply String.eqb_eq in E.
  exfalso. apply N. rewrite <- E. now apply in_map.
Qed.

(** Two tables with the same roll numbers in the same order, one row per
    roll number, whose lookups agree, are equal. *)
Lemma students_equal (l1 : list student_row) :
  forall l2 : list student_row,
    NoDup (map st_roll_no l1) ->
    map st_roll_no l1 = map st_roll_no l2 ->
    (forall k, find (fun s => String.eqb (st_roll_no s) k) l1 =
               find (fun s => String.eqb (st_roll_no s) k) l2) ->
    l1 = l2.
Proof.
  induction l1 as [|a l1 IH]; intros [|b l2] N R H; simpl in *;
    try discriminate; [reflexivity|].
  injection R as Rab R. inversion N as [|? ? Na N1]; subst.
  pose proof (H (st_roll_no a)) as Ha.
  rewrite String.eqb_refl, <- Rab, String.eqb_refl in Ha.
  injection Ha as <-. f_equal. apply IH; [exact N1|exact R|].
  intros k. specialize (H k).
  destruct (String.eqb (st_roll_no a) k) eqn:E; [|exact H].
  apply String.eqb_eq in E. subst k.
  rewrite !find_absent; [reflexivity| |assumption]. now rewrite <- R.
Qed.

Lemma import_students_NoDup (df : DataFrame) (uid : Z) (db db' : DB) :
  NoDup (map st_roll_no (students db)) ->
  import_students df uid db = Ok db' ->
  NoDup (map st_roll_no (students db')).
Proof.
  apply (import_students_inv (fun d => NoDup (map st_roll_no (students d)))).
  - intros u n d N. exact N.
  - intros u s d d' N H. apply apply_student_full in H. subst d'.
    now apply upsert_student_NoDup.
Qed.

(** Importing the same Students file a second time changes no student:
    the students table after the second import is the table after the
    first, and the provenance rows the second import adds all carry
    [created_new] = 0, so that its rollback deletes no student. *)
Theorem same_students_file_twice (df : DataFrame) (u1 u2 : Z)
    (db db1 db2 : DB) :
  NoDup (map st_roll_no (students db)) ->
  import_students df u1 db = Ok db1 ->
  import_students df u2 db1 = Ok db2 ->
  students db2 = students db1 /\
  exists added,
    upload_students_map db2 = (upload_students_map db1 ++ added)%list /\
    Forall (fun m => mp_upload_id m = u2 /\ mp_created_new m = 0) added.
Proof.
  intros N H1 H2.
  pose proof (import_students_NoDup df u1 db db1 N H1) as N1.
  unfold import_students in H1, H2. revert H1 H2.
  generalize (students_frame df). intros fr H1 H2. cbv zeta in H1, H2.
  bind_inv H1. bind_inv H1. injection H1 as <-.
  bind_inv H2. bind_inv H2. injection H2 as <-.
  pose proof (students_loop_exists _ _ _ _ _ _ E0) as Ex.
  destruct (students_loop_known fr u2 (iterrows fr)
              (bump_rowcount u1 (snd x0) (fst x0)) 0 x2 Ex E2)
    as (R & added & M & F).
  split; [|exists added; split; [exact M|exact F]].
  symmetry. apply students_equal; [exact N1|symmetry; exact R|].
  intros k.
  change (find_student k (bump_rowcount u1 (snd x0) (fst x0)) =
          find_student k (bump_rowcount u2 (snd x2) (fst x2))).
  rewrite !find_student_bump.
  rewrite (students_loop_find _ _ _ _ _ _ k E2), find_student_bump.
  rewrite (students_loop_find _ _ _ _ _ _ k E0).
  now rewrite last_written_idem.
Qed.

End SameFileTwice.

(** The first Students file of the samples, imported as upload 1 and
    again as upload 2: the students are those the first import left. *)
Lemma same_students_file_twice_witness :
  Store.students SampleTwice.again = Store.students Sample.after_students1.
Proof.
  assert (N : NoDup (map Store.st_roll_no (Store.students Sample.two_uploads)))
    by constructor.
  assert (H1 : Importers.import_students (B := Literal.builtins)
                 Sample.students1 1 Sample.two_uploads =
               Ok Sample.after_students1) by (vm_compute; reflexivity).
  assert (H2 : Importers.import_students (B := Literal.builtins)
                 Sample.students1 2 Sample.after_students1 =
               Ok SampleTwice.again) by (vm_compute; reflexivity).
  exact (proj1 (same_students_file_twice (B := Literal.builtins)
                  Sample.students1 1 2 Sample.two_uploads
                  Sample.after_students1 SampleTwice.again N H1 H2)).
Defined.

(** ** The attendance grid, for every student *)

Section AttendanceGridStructure.
Import Store Grid AttendanceGrid.

Lemma subject_leb_total (a b : attendance_row) :
  subject_leb a b = true \/ subject_leb b a = true.
Proof. apply String.leb_total. Qed.

Lemma subject_leb_trans (a b c : attendance_row) :
  subject_leb a b = true -> subject_leb b c = true -> subject_leb a c = true.
Proof. apply string_leb_trans. Qed.

Lemma attendance_of_In (roll : string) (db : DB) (a : attendance_row) :
  In a (attendance_of roll db) <-> In a (attendance db) /\ at_roll_no a = roll.
Proof.
  unfold attendance_of. rewrite sort_In, filter_In, String.eqb_eq. tauto.
Qed.

(** One row per (roll number, subject): the subjects of a student are
    pairwise distinct. *)
Lemma subjects_NoDup (roll : string) (l : list attendance_row) :
  NoDup (map attendance_key l) ->
  NoDup (map at_subject
             (filter (fun a => String.eqb (at_roll_no a) roll) l)).
Proof.
  induction l as [|a l IH]; simpl; intros N; [constructor|].
  inversion N as [|? ? Na Nl]; subst.
  destruct (String.eqb (at_roll_no a) roll) eqn:E; [|now apply IH].
  simpl. constructor; [|now apply IH].
  intros I. apply Na. apply in_map_iff in I. destruct I as (b & Eb & Ib).
  apply filter_In in Ib. destruct Ib as [Ib Rb].
  apply String.eqb_eq in E, Rb.
  apply in_map_iff. exists b. split; [|exact Ib].
  unfold attendance_key. congruence.
Qed.

Lemma sort_map_NoDup {A K : Type} (leb : A -> A -> bool) (key : A -> K)
    (l : list A) :
  NoDup (map key l) -> NoDup (map key (sort leb l)).
Proof.
  induction l as [|x l IH]; simpl; intros N; [constructor|].
  inversion N as [|? ? Nx Nl]; subst. specialize (IH Nl).
  assert (Hx : ~ In (key x) (map key (sort leb l))).
  { intros I. apply Nx. apply in_map_iff in I. destruct I as (y & E & I).
    apply sort_In in I. apply in_map_iff. eauto. }
  revert IH Hx. generalize (sort leb l). intros s.
  induction s as [|y s IHs]; simpl; intros D Hx.
  - repeat constructor. intros [].
  - destruct (leb x y); simpl.
    + constructor; [exact Hx|exact D].
    + inversion D as [|? ? Ny Ds]; subst. constructor.
      * intros I. apply in_map_iff in I. destruct I as (z & E & I).
        apply insert_In in I. destruct I as [->|I].
        -- apply Hx. left. now symmetry.
        -- apply Ny. apply in_map_iff. eauto.
      * apply IHs; [exact Ds|]. intros I. apply Hx. now right.
Qed.

Lemma attendance_of_subjects (roll : string) (db : DB) :
  NoDup (map attendance_key (attendance db)) ->
  increasing (map at_subject (attendance_of roll db)).
Proof.
  intros N. unfold attendance_of.
  pose proof (sort_sorted subject_leb subject_leb_total subject_leb_trans
                (filter (fun a => String.eqb (at_roll_no a) roll)
                        (attendance db))) as S.
  pose proof (sort_map_NoDup subject_leb at_subject _
                (subjects_NoDup roll _ N)) as D.
  revert S D. generalize (sort subject_leb
                            (filter (fun a => String.eqb (at_roll_no a) roll)
                                    (attendance db))).
  intros l S. induction S as [|x t S IH F]; simpl; intros D; [constructor|].
  inversion D as [|? ? Nx Dt]; subst. constructor; [now apply IH|].
  apply Forall_forall. intros s Is. apply in_map_iff in Is.
  destruct Is as (b & <- & Ib). apply string_ltb_leb.
  rewrite Forall_forall in F. split; [exact (F b Ib)|].
  intros E. apply Nx. rewrite E. now apply in_map.
Qed.

Lemma dict_get_fold_absent {A : Type} (key val : A -> string) (k : string)
    (l : list A) :
  forall d : dict,
    ~ In k (map key l) ->
    dict_get k (fold_left (fun row r => dict_set (key r) (val r) row) l d) =
    dict_get k d.
Proof.
  induction l as [|a l IH]; intros d N; simpl; [reflexivity|].
  rewrite IH by (intros I; apply N; now right).
  apply dict_get_set_other. intros E. apply N. left. exact E.
Qed.

Lemma dict_get_fold_rows {A : Type} (key val : A -> string) (l : list A) :
  forall (d : dict) (r : A),
    NoDup (map key l) -> In r l ->
    dict_get (key r)
             (fold_left (fun row r => dict_set (key r) (val r) row) l d) =
    Some (val r).
Proof.
  induction l as [|a l IH]; intros d r N I; simpl; [destruct I|].
  inversion N as [|? ? Na Nl]; subst. destruct I as [->|I].
  - rewrite dict_get_fold_absent by exact Na. apply dict_get_set_same.
  - now apply IH.
Qed.

(** The attendance view of a student, in a store with one attendance row
    per (roll number, subject): empty without attendance; otherwise the
    headers are "Row" and the student's subjects in increasing order, and
    the single row maps the subject of each of the student's attendance
    rows to "<attended>/<total> (<percentage>%)", the percentage printed
    without decimals, and maps "Row" to "Attendance" unless a subject has
    that name. *)
Theorem attendance_grid_structure (roll : string) (db : DB) :
  NoDup (map attendance_key (attendance db)) ->
  ((forall a, In a (attendance db) -> at_roll_no a <> roll) ->
   build_attendance_grid roll db = ([], [])) /\
  ((exists a, In a (attendance db) /\ at_roll_no a = roll) ->
   exists subjects row,
     build_attendance_grid roll db = ("Row" :: subjects, [row]) /\
     increasing subjects /\
     (forall s, In s subjects <->
                exists a, In a (attendance db) /\ at_roll_no a = roll /\
                          at_subject a = s) /\
     (forall a, In a (attendance db) -> at_roll_no a = roll ->
                dict_get (at_subject a) row = Some (render a)) /\
     (~ In "Row" subjects -> dict_get "Row" row = Some "Attendance")).
Proof.
  intros N. split.
  - intros H. unfold build_attendance_grid.
    destruct (attendance_of roll db) as [|a t] eqn:E; [reflexivity|].
    exfalso. assert (I : In a (attendance_of roll db)) by (rewrite E; now left).
    apply attendance_of_In in I. destruct I as [I R]. now apply (H a I).
  - intros (a0 & I0 & R0).
    exists (map at_subject (attendance_of roll db)),
           (attendance_row_of (attendance_of roll db)).
    pose proof (attendance_of_subjects roll db N) as Inc.
    assert (D : NoDup (map at_subject (attendance_of roll db))).
    { unfold attendance_of. apply sort_map_NoDup. now apply subjects_NoDup. }
    repeat match goal with |- _ /\ _ => split end.
    + unfold build_attendance_grid.
      destruct (attendance_of roll db) as [|a t] eqn:E; [|reflexivity].
      exfalso.
      assert (I : In a0 (attendance_of roll db))
        by (apply attendance_of_In; auto).
      rewrite E in I. destruct I.
    + exact Inc.
    + intros s. rewrite in_map_iff. split.
      * intros (a & Ea & Ia). apply attendance_of_In in Ia. exists a. tauto.
      * intros (a & Ia & Ra & Ea). exists a. split; [exact Ea|].
        apply attendance_of_In. auto.
    + intros a Ia Ra. unfold attendance_row_of.
      apply (dict_get_fold_rows at_subject render); [exact D|].
      apply attendance_of_In. auto.
    + intros NR. unfold attendance_row_of.
      rewrite (dict_get_fold_absent at_subject render) by exact NR.
      reflexivity.
Qed.

End AttendanceGridStructure.

(** The view of R1 in the sample store: the subjects in alphabetical
    order; 1 of 8 is 12.5 percent, printed as 12, 3 of 8 is 37.5 percent,
    printed as 38, and a total of 0 gives 0 percent. *)
Lemma attendance_grid_structure_witness :
  AttendanceGrid.build_attendance_grid "R1" SampleAttendanceGrid.store =
  (["Row"; "Art"; "Biology"; "Chemistry"],
   [[("Row", "Attendance"); ("Art", "1/8 (12%)"); ("Biology", "3/8 (38%)");
     ("Chemistry", "0/0 (0%)")]]).
Proof.
  assert (N : NoDup (map Store.attendance_key
                         (Store.attendance SampleAttendanceGrid.store))).
  { assert (R : Routes.reachable (B := Literal.builtins)
                  SampleAttendanceGrid.store).
    { unfold SampleAttendanceGrid.store. apply reachable_run_all.
      apply (Routes.reach_init (B := Literal.builtins)). }
    exact (proj1 (proj2 (reachable_ok _ R))). }
  destruct (proj2 (attendance_grid_structure "R1" SampleAttendanceGrid.store N))
    as (subjects & row & E & _).
  - exists (Store.mkAttendance "R1" "Biology" 3 8 None (Some 2)).
    split; [vm_compute; left; reflexivity|reflexivity].
  - vm_compute. reflexivity.
Defined.

(** ** Row counts and provenance rows *)

Section Counts.
Import Frame Store Importers Routes.
Context {B : Py.Builtins}.

Lemma students_loop_added (df : DataFrame) (uid : Z) (rs : list (list cell)) :
  forall db n st,
    students_loop df uid rs db n = Ok st ->
    exists added,
      upload_students_map (fst st) = (upload_students_map db ++ added)%list /\
      Forall (fun m => mp_upload_id m = uid) added /\
      snd st = n + Z.of_nat (List.length added).
Proof.
  induction rs as [|r rest IH]; simpl; intros db n st H.
  - injection H as <-. exists []. simpl. rewrite app_nil_r.
    repeat split; [constructor|lia].
  - bind_inv H. destruct x as [s|]; [|eapply IH; eassumption].
    bind_inv H. apply apply_student_full in E0. subst x.
    destruct (IH _ _ _ H) as (added & M & F & C).
    exists (mkMap uid (st_roll_no s)
                  (if student_exists (st_roll_no s) db then 0 else 1) :: added).
    split; [|split].
    + rewrite M. cbn [upload_students_map set_map]. now rewrite <- app_assoc.
    + constructor; [reflexivity|exact F].
    + rewrite C. simpl List.length. lia.
Qed.

(** What an importer of a given kind does to the ledger and to the
    provenance rows. *)
Lemma import_students_counts (df : DataFrame) (uid : Z) (db db' : DB) :
  import_students df uid db = Ok db' ->
  exists n added,
    uploads db' = counted uid n (uploads db) /\
    upload_students_map db' = (upload_students_map db ++ added)%list /\
    Forall (fun m => mp_upload_id m = uid) added /\
    Z.of_nat (List.length added) =
      if String.eqb "Students" "Students" then n else 0.
Proof.
  unfold import_students. generalize (students_frame df). intros fr H.
  cbv zeta in H. bind_inv H. bind_inv H. injection H as <-.
  destruct (students_loop_effect _ _ _ _ _ _ E0) as (U & _).
  destruct (students_loop_added _ _ _ _ _ _ E0) as (added & M & F & C).
  exists (snd x0), added. simpl.
  split; [unfold counted; now rewrite U|]. split; [exact M|].
  split; [exact F|lia].
Qed.

Lemma import_attendance_counts (df : DataFrame) (uid : Z) (db db' : DB) :
  import_attendance df uid db = Ok db' ->
  exists n added,
    uploads db' = counted uid n (uploads db) /\
    upload_students_map db' = (upload_students_map db ++ added)%list /\
    Forall (fun m => mp_upload_id m = uid) added /\
    Z.of_nat (List.length added) =
      if String.eqb "Attendance" "Students" then n else 0.
Proof.
  intros H. apply import_attendance_shape in H. destruct H as (n & l & ->).
  exists n, []. simpl. rewrite app_nil_r. repeat split. constructor.
Qed.

Lemma import_marks_counts (df : DataFrame) (uid : Z) (db db' : DB) :
  import_marks df uid db = Ok db' ->
  exists n added,
    uploads db' = counted uid n (uploads db) /\
    upload_students_map db' = (upload_students_map db ++ added)%list /\
    Forall (fun m => mp_upload_id m = uid) added /\
    Z.of_nat (List.length added) =
      if String.eqb "Marks" "Students" then n else 0.
Proof.
  intros H. apply import_marks_shape in H. destruct H as (n & l & ->).
  exists n, []. simpl. rewrite app_nil_r. repeat split. constructor.
Qed.

Lemma provenance_count_app (uid : Z) (db db' : DB) (added : list map_row) :
  upload_students_map db' = (upload_students_map db ++ added)%list ->
  provenance_count uid db' =
  provenance_count uid db +
  Z.of_nat (List.length (filter (fun m => mp_upload_id m =? uid) added)).
Proof.
  intros M. unfold provenance_count. rewrite M, filter_app, length_app. lia.
Qed.

Lemma counts_ok_same (db db' : DB) :
  uploads db' = uploads db ->
  upload_students_map db' = upload_students_map db ->
  counts_ok db -> counts_ok db'.
Proof.
  intros U M H u I. rewrite U in I. unfold provenance_count. rewrite M.
  now apply H.
Qed.

Lemma upload_with_counts (kind choose : string)
    (importer : DataFrame -> Z -> DB -> res DB) (rq : Request) (db : DB) :
  (forall df uid d d',
      importer df uid d = Ok d' ->
      exists n added,
        uploads d' = counted uid n (uploads d) /\
        upload_students_map d' = (upload_students_map d ++ added)%list /\
        Forall (fun m => mp_upload_id m = uid) added /\
        Z.of_nat (List.length added) =
          if String.eqb kind "Students" then n else 0) ->
  ids_ok db -> counts_ok db ->
  counts_ok (fst (upload_with kind choose importer rq db)).
Proof.
  intros Himp [Hu Hm] Hc.
  destruct (upload_with_cases kind choose importer rq db)
    as [->|(f & Q & [->|(df & E)])]; [exact Hc| |];
    rewrite (create_upload_record_ok _ _ _ _ _ Q) in *; cbn [snd] in *.
  - intros u I. simpl in I.
    change (provenance_count (up_id u) db =
            if String.eqb (up_upload_type u) "Students" then up_row_count u
            else 0).
    apply in_app_or in I. destruct I as [I|[<-|[]]]; [now apply Hc|].
    simpl. unfold provenance_count. rewrite filter_none.
    + now destruct (String.eqb kind "Students").
    + intros m I. apply Z.eqb_neq. apply Hm in I. lia.
  - apply Himp in E. destruct E as (n & added & U & M & F & L).
    set (d2 := fst (upload_with kind choose importer rq db)) in *.
    simpl in U, M. rewrite Forall_forall in F.
    intros u I. rewrite U in I. unfold counted in I.
    apply in_map_iff in I. destruct I as (u0 & Eu & I).
    rewrite (provenance_count_app _ db d2 added M).
    apply in_app_or in I. destruct I as [I|[<-|[]]].
    + pose proof (Hu u0 I) as Le.
      destruct (up_id u0 =? uploads_seq db + 1) eqn:T;
        [apply Z.eqb_eq in T; lia|]. subst u.
      rewrite filter_none; [simpl; rewrite Z.add_0_r; now apply Hc|].
      intros m Im. rewrite (F m Im). apply Z.eqb_neq. lia.
    + simpl in Eu. rewrite Z.eqb_refl in Eu. subst u. simpl.
      rewrite (filter_all _ added)
        by (intros m Im; rewrite (F m Im); apply Z.eqb_refl).
      unfold provenance_count. rewrite filter_none.
      * simpl. rewrite L. now destruct (String.eqb kind "Students").
      * intros m Im. apply Z.eqb_neq. apply Hm in Im. lia.
Qed.

Lemma after_rollback_counts (uid : Z) (db : DB) :
  counts_ok db -> counts_ok (after_rollback uid db).
Proof.
  intros Hc u I. simpl in I. apply filter_In in I. destruct I as [I N].
  rewrite <- (Hc u I). unfold provenance_count. simpl.
  rewrite filter_andb. f_equal. f_equal. apply filter_ext. intros m.
  destruct (mp_upload_id m =? up_id u) eqn:E; [|apply andb_false_r].
  apply Z.eqb_eq in E. rewrite E. now rewrite N.
Qed.

Lemma run_counts (a : action) (db : DB) :
  ids_ok db -> counts_ok db -> counts_ok (run a db).
Proof.
  intros Hi Hc. destruct a as [rq|rq|rq|rq uid|rq roll remark]; simpl.
  - apply upload_with_counts; [apply import_students_counts|exact Hi|exact Hc].
  - apply upload_with_counts;
      [apply import_attendance_counts|exact Hi|exact Hc].
  - apply upload_with_counts; [apply import_marks_counts|exact Hi|exact Hc].
  - unfold delete_upload_route.
    destruct (negb (is_admin rq)); [exact Hc|].
    destruct (delete_upload_cases uid db) as [[E ->]|(r0 & ->)]; cbn [fst];
      [now apply after_rollback_counts|exact Hc].
  - unfold add_remark.
    destruct (String.eqb _ ""); [exact Hc|].
    destruct (student_exists roll db); [|exact Hc].
    now apply (counts_ok_same db).
Qed.

(** In every store the program reaches, the row count of a Students
    upload is the number of rows that [upload_students_map] holds for it,
    and an Attendance or Marks upload has no such row. *)
Theorem row_count_matches_provenance (db : DB) (u : upload_row) :
  reachable db -> In u (uploads db) ->
  Z.of_nat (List.length (filter (fun m => mp_upload_id m =? up_id u)
                                (upload_students_map db))) =
  if String.eqb (up_upload_type u) "Students" then up_row_count u else 0.
Proof.
  intros R. revert u. change (counts_ok db).
  induction R as [|a db R IH].
  - intros u [].
  - apply run_counts; [|exact IH].
    exact (proj1 (reachable_ok db R)).
Qed.

End Counts.

(** Upload 1 of the sample store is a Students upload that counted one
    row: it has one provenance row. *)
Lemma row_count_matches_provenance_witness :
  Z.of_nat (List.length (filter (fun m => Store.mp_upload_id m =? 1)
                                (Store.upload_students_map SampleReimport.base)))
  = 1.
Proof.
  assert (R : Routes.reachable (B := Literal.builtins) SampleReimport.base).
  { unfold SampleReimport.base. apply reachable_run_all.
    apply (Routes.reach_init (B := Literal.builtins)). }
  assert (I : In (Store.mkUpload 1 "1767607200000_students.csv" "Students" 1
                                 "2026-01-05T10:00:00" "admin")
                 (Store.uploads SampleReimport.base))
    by (vm_compute; left; reflexivity).
  exact (row_count_matches_provenance (B := Literal.builtins)
           SampleReimport.base _ R I).
Defined.

(** ** The stored texts are trimmed *)

Section Trimmed.
Import Frame Store Importers Routes.
Context {B : Py.Builtins}.

Lemma text_trimmed (df : DataFrame) (r : list cell) (col t : string) :
  text df r col = Ok t -> String.eqb t "" = false -> trimmed t.
Proof.
  unfold text. intros H N. bind_inv H. injection H as <-.
  split; [now apply String.eqb_neq|eexists; reflexivity].
Qed.

Lemma student_of_row_trimmed (df : DataFrame) (r : list cell) (s : student_row) :
  student_of_row df r = Ok (Some s) -> trimmed (st_roll_no s).
Proof.
  unfold student_of_row. intros H. bind_inv H.
  destruct (String.eqb x "") eqn:N; [discriminate|].
  repeat bind_inv H. injection H as <-. simpl.
  eapply text_trimmed; eassumption.
Qed.

Lemma attendance_of_row_trimmed (df : DataFrame) (uid : Z) (r : list cell)
    (a : attendance_row) :
  attendance_of_row df uid r = Ok (Some a) ->
  trimmed (at_roll_no a) /\ trimmed (at_subject a).
Proof.
  unfold attendance_of_row. intros H. do 2 bind_inv H.
  destruct (String.eqb x "") eqn:N1; [discriminate|].
  destruct (String.eqb x0 "") eqn:N2; [discriminate|].
  simpl in H. repeat bind_inv H. injection H as <-. simpl.
  split; eapply text_trimmed; eassumption.
Qed.

Lemma marks_of_row_trimmed (df : DataFrame) (uid : Z) (r : list cell)
    (m : marks_row) :
  marks_of_row df uid r = Ok (Some m) ->
  trimmed (mk_roll_no m) /\ trimmed (mk_exam m) /\ trimmed (mk_subject m).
Proof.
  unfold marks_of_row. intros H. do 3 bind_inv H.
  destruct (String.eqb x "") eqn:N1; [discriminate|].
  destruct (String.eqb x0 "") eqn:N2; [discriminate|].
  destruct (String.eqb x1 "") eqn:N3; [discriminate|].
  simpl in H. repeat bind_inv H. injection H as <-. simpl.
  repeat split; eapply text_trimmed; eassumption.
Qed.

Lemma upsert_attendance_texts (Q : string -> string -> Prop)
    (a : attendance_row) (l : list attendance_row) :
  (forall x, In x l -> Q (at_roll_no x) (at_subject x)) ->
  Q (at_roll_no a) (at_subject a) ->
  forall x, In x (upsert_attendance a l) -> Q (at_roll_no x) (at_subject x).
Proof.
  intros Hl Ha. induction l as [|old l IH]; simpl.
  - intros x [<-|[]]. exact Ha.
  - destruct (same_attendance _ _ old).
    + intros x [<-|I]; simpl; [apply (Hl old)|apply Hl]; simpl; auto.
    + intros x [<-|I]; [apply Hl; now left|].
      apply IH; [|exact I]. intros y Iy. apply Hl. now right.
Qed.

Lemma upsert_marks_texts (Q : string -> string -> string -> Prop)
    (m : marks_row) (l : list marks_row) :
  (forall x, In x l -> Q (mk_roll_no x) (mk_exam x) (mk_subject x)) ->
  Q (mk_roll_no m) (mk_exam m) (mk_subject m) ->
  forall x, In x (upsert_marks m l) ->
            Q (mk_roll_no x) (mk_exam x) (mk_subject x).
Proof.
  intros Hl Hm. induction l as [|old l IH]; simpl.
  - intros x [<-|[]]. exact Hm.
  - destruct (same_marks _ _ _ old).
    + intros x [<-|I]; simpl; [apply (Hl old)|apply Hl]; simpl; auto.
    + intros x [<-|I]; [apply Hl; now left|].
      apply IH; [|exact I]. intros y Iy. apply Hl. now right.
Qed.

Lemma students_loop_texts (df : DataFrame) (uid : Z) (rs : list (list cell)) :
  forall db n st,
    texts_ok db -> students_loop df uid rs db n = Ok st -> texts_ok (fst st).
Proof.
  induction rs as [|r rest IH]; simpl; intros db n st Hp H.
  - now injection H as <-.
  - bind_inv H. destruct x as [s|]; [|eapply IH; eassumption].
    bind_inv H. eapply IH; [|eassumption].
    apply apply_student_full in E0. subst x.
    destruct Hp as (Hs & Ha & Hm & Hr).
    split; [|split; [exact Ha|split; [exact Hm|exact Hr]]].
    intros y I. cbn [students set_map set_students] in I.
    apply upsert_student_In in I. destruct I as [I| ->]; [now apply Hs|].
    eapply student_of_row_trimmed; eassumption.
Qed.

Lemma attendance_loop_texts (df : DataFrame) (uid : Z)
    (rs : list (list cell)) :
  forall db n st,
    texts_ok db -> attendance_loop df uid rs db n = Ok st -> texts_ok (fst st).
Proof.
  induction rs as [|r rest IH]; simpl; intros db n st Hp H.
  - now injection H as <-.
  - bind_inv H. destruct x as [a|]; [|eapply IH; eassumption].
    bind_inv H. eapply IH; [|eassumption].
    apply apply_attendance_shape in E0. subst x.
    destruct Hp as (Hs & Ha & Hm & Hr).
    split; [exact Hs|split; [|split; [exact Hm|exact Hr]]].
    cbn [attendance set_attendance].
    apply (upsert_attendance_texts (fun r s => trimmed r /\ trimmed s));
      [exact Ha|].
    eapply attendance_of_row_trimmed; eassumption.
Qed.

Lemma marks_loop_texts (df : DataFrame) (uid : Z) (rs : list (list cell)) :
  forall db n st,
    texts_ok db -> marks_loop df uid rs db n = Ok st -> texts_ok (fst st).
Proof.
  induction rs as [|r rest IH]; simpl; intros db n st Hp H.
  - now injection H as <-.
  - bind_inv H. destruct x as [m|]; [|eapply IH; eassumption].
    bind_inv H. eapply IH; [|eassumption].
    apply apply_marks_shape in E0. subst x.
    destruct Hp as (Hs & Ha & Hm & Hr).
    split; [exact Hs|split; [exact Ha|split; [|exact Hr]]].
    cbn [marks set_marks].
    apply (upsert_marks_texts
             (fun r e s => trimmed r /\ trimmed e /\ trimmed s));
      [exact Hm|].
    eapply marks_of_row_trimmed; eassumption.
Qed.

Lemma import_students_texts (df : DataFrame) (uid : Z) (db db' : DB) :
  texts_ok db -> import_students df uid db = Ok db' -> texts_ok db'.
Proof.
  intros Hp. unfold import_students. generalize (students_frame df).
  intros fr H. cbv zeta in H. bind_inv H. bind_inv H. injection H as <-.
  exact (students_loop_texts _ _ _ _ _ _ Hp E0).
Qed.

Lemma import_attendance_texts (df : DataFrame) (uid : Z) (db db' : DB) :
  texts_ok db -> import_attendance df uid db = Ok db' -> texts_ok db'.
Proof.
  intros Hp. unfold import_attendance. generalize (attendance_frame df).
  intros fr H. cbv zeta in H. bind_inv H. bind_inv H. injection H as <-.
  exact (attendance_loop_texts _ _ _ _ _ _ Hp E0).
Qed.

Lemma import_marks_texts (df : DataFrame) (uid : Z) (db db' : DB) :
  texts_ok db -> import_marks df uid db = Ok db' -> texts_ok db'.
Proof.
  intros Hp. unfold import_marks. generalize (marks_frame df).
  intros fr H. cbv zeta in H. bind_inv H. bind_inv H. injection H as <-.
  exact (marks_loop_texts _ _ _ _ _ _ Hp E0).
Qed.

Lemma upload_with_texts (kind choose : string)
    (importer : DataFrame -> Z -> DB -> res DB) (rq : Request) (db : DB) :
  (forall df uid d d', texts_ok d -> importer df uid d = Ok d' -> texts_ok d') ->
  texts_ok db -> texts_ok (fst (upload_with kind choose importer rq db)).
Proof.
  intros Himp Hp.
  destruct (upload_with_cases kind choose importer rq db)
    as [->|(f & Q & [->|(df & E)])]; [exact Hp| |];
    rewrite (create_upload_record_ok _ _ _ _ _ Q) in *; cbn [snd] in *;
    [exact Hp|].
  eapply Himp; [|exact E]. exact Hp.
Qed.

Lemma after_rollback_texts (uid : Z) (db : DB) :
  texts_ok db -> texts_ok (after_rollback uid db).
Proof.
  intros (Hs & Ha & Hm & Hr). unfold texts_ok. simpl.
  split; [|split; [|split]]; intros x I;
    repeat (apply filter_In in I; destruct I as [I _]).
  - now apply Hs.
  - now apply Ha.
  - now apply Hm.
  - now apply Hr.
Qed.

Lemma add_remark_texts (rq : Request) (roll remark : string) (db : DB) :
  texts_ok db -> texts_ok (add_remark rq roll remark db).
Proof.
  intros Hp. unfold add_remark.
  destruct (String.eqb (Py.strip remark) "") eqn:N; [exact Hp|].
  destruct (student_exists roll db) eqn:X; [|exact Hp].
  destruct Hp as (Hs & Ha & Hm & Hr).
  split; [exact Hs|split; [exact Ha|split; [exact Hm|]]].
  intros r I. cbn [remarks set_remarks] in I. apply in_app_or in I.
  destruct I as [I|[<-|[]]]; [now apply Hr|]. simpl. split.
  - apply existsb_exists in X. destruct X as (s & Is & Es).
    apply String.eqb_eq in Es. subst roll. now apply Hs.
  - split; [now apply String.eqb_neq|eexists; reflexivity].
Qed.

Lemma run_texts (a : action) (db : DB) : texts_ok db -> texts_ok (run a db).
Proof.
  intros Hp. destruct a as [rq|rq|rq|rq uid|rq roll remark]; simpl.
  - apply upload_with_texts; [apply import_students_texts|exact Hp].
  - apply upload_with_texts; [apply import_attendance_texts|exact Hp].
  - apply upload_with_texts; [apply import_marks_texts|exact Hp].
  - unfold delete_upload_route.
    destruct (negb (is_admin rq)); [exact Hp|].
    destruct (delete_upload_cases uid db) as [[E ->]|(r0 & ->)]; cbn [fst];
      [now apply after_rollback_texts|exact Hp].
  - now apply add_remark_texts.
Qed.

(** Every key text the program stores is trimmed: in every reachable
    store the roll numbers of students, attendance rows, marks and
    remarks, the subjects, the exams and the remark texts are not empty
    and are texts that [str.strip] returned. *)
Theorem stored_texts_trimmed (db : DB) :
  reachable db ->
  (forall s, In s (students db) -> trimmed (st_roll_no s)) /\
  (forall a, In a (attendance db) ->
             trimmed (at_roll_no a) /\ trimmed (at_subject a)) /\
  (forall m, In m (marks db) ->
             trimmed (mk_roll_no m) /\ trimmed (mk_exam m) /\
             trimmed (mk_subject m)) /\
  (forall r, In r (remarks db) ->
             trimmed (rm_roll_no r) /\ trimmed (rm_remark_text r)).
Proof.
  intros R. change (texts_ok db). induction R as [|a db R IH].
  - split; [|split; [|split]]; intros x [].
  - now apply run_texts.
Qed.

End Trimmed.

(** The attendance row of the sample store has a trimmed roll number and
    a trimmed subject. *)
Lemma stored_texts_trimmed_witness :
  trimmed (B := Literal.builtins) "R1" /\
  trimmed (B := Literal.builtins) "Math".
Proof.
  assert (R : Routes.reachable (B := Literal.builtins) SampleReimport.base).
  { unfold SampleReimport.base. apply reachable_run_all.
    apply (Routes.reach_init (B := Literal.builtins)). }
  assert (I : In (Store.mkAttendance "R1" "Math" 10 20 (Some 3) (Some 2))
                 (Store.attendance SampleReimport.base))
    by (vm_compute; left; reflexivity).
  exact (proj1 (proj2 (stored_texts_trimmed (B := Literal.builtins)
                         SampleReimport.base R)) _ I).
Defined.

(** ** Requests without an admin session, and the life of a remark *)

Section Access.
Import Frame Store Importers Routes.
Context {B : Py.Builtins}.

Lemma upload_with_visitor (kind choose : string)
    (importer : DataFrame -> Z -> DB -> res DB) (rq : Request) (db : DB) :
  is_admin rq = false -> fst (upload_with kind choose importer rq db) = db.
Proof.
  intros A. unfold upload_with. now rewrite A.
Qed.

Lemma run_visitor (a : action) (db : DB) :
  is_admin (request_of a) = false ->
  run a db = db \/
  exists roll remark,
    student_exists roll db = true /\ Py.strip remark <> "" /\
    run a db =
      set_remarks (remarks db ++
                   [mkRemark roll (Py.strip remark) (actor (request_of a))
                             (now (request_of a))]) db.
Proof.
  destruct a as [rq|rq|rq|rq uid|rq roll remark]; simpl; intros A.
  - left. now apply upload_with_visitor.
  - left. now apply upload_with_visitor.
  - left. now apply upload_with_visitor.
  - left. unfold delete_upload_route. now rewrite A.
  - unfold add_remark.
    destruct (String.eqb (Py.strip remark) "") eqn:N; [now left|].
    destruct (student_exists roll db) eqn:X; [|now left].
    right. exists roll, remark. apply String.eqb_neq in N. auto.
Qed.

(** Without an admin session no sequence of requests changes the ledger,
    the students, the provenance rows, the attendance or the marks: all
    such requests can do is append remarks, each on a stored student and
    with a text that is not blank. *)
Theorem visitors_only_add_remarks (l : list action) (db : DB) :
  Forall (fun a => is_admin (request_of a) = false) l ->
  uploads (run_all l db) = uploads db /\
  uploads_seq (run_all l db) = uploads_seq db /\
  students (run_all l db) = students db /\
  upload_students_map (run_all l db) = upload_students_map db /\
  attendance (run_all l db) = attendance db /\
  marks (run_all l db) = marks db /\
  exists added,
    remarks (run_all l db) = (remarks db ++ added)%list /\
    Forall (fun r => student_exists (rm_roll_no r) db = true /\
                     rm_remark_text r <> "") added.
Proof.
  revert db. induction l as [|a l IH]; intros db F.
  - simpl. repeat split. exists []. now rewrite app_nil_r.
  - inversion F as [|? ? A F']; subst. unfold run_all. simpl.
    fold (run_all l (run a db)).
    destruct (run_visitor a db A) as [->|(roll & remark & X & N & ->)];
      [now apply IH|].
    destruct (IH (set_remarks
                    (remarks db ++
                     [mkRemark roll (Py.strip remark) (actor (request_of a))
                               (now (request_of a))]) db) F')
      as (U & S & St & M & At & Mk & added & R & Fa).
    repeat (split; [assumption|]).
    exists (mkRemark roll (Py.strip remark) (actor (request_of a))
                     (now (request_of a)) :: added).
    split.
    + rewrite R. cbn [remarks set_remarks]. now rewrite <- app_assoc.
    + constructor; [split; assumption|exact Fa].
Qed.

Lemma upload_with_remarks (kind choose : string)
    (importer : DataFrame -> Z -> DB -> res DB) (rq : Request) (db : DB) :
  (forall df uid d d', importer df uid d = Ok d' -> remarks d' = remarks d) ->
  remarks (fst (upload_with kind choose importer rq db)) = remarks db.
Proof.
  intros Himp.
  destruct (upload_with_cases kind choose importer rq db)
    as [->|(f & Q & [->|(df & E)])]; [reflexivity| |];
    rewrite (create_upload_record_ok _ _ _ _ _ Q) in *; cbn [snd] in *;
    [reflexivity|].
  now apply Himp in E.
Qed.

(** What one request does to a remark: an upload keeps it, a rollback
    keeps it when it keeps its student, [add_remark] appends to it. *)
Lemma run_remarks (a : action) (db : DB) (r : remark_row) :
  In r (remarks db) ->
  student_exists (rm_roll_no r) (run a db) = true ->
  In r (remarks (run a db)).
Proof.
  intros I. destruct a as [rq|rq|rq|rq uid|rq roll remark]; simpl.
  - intros _. unfold upload_students. rewrite upload_with_remarks; [exact I|].
    intros df u d d' H. apply import_students_shape in H.
    now destruct H as (n & ls & lm & ->).
  - intros _. unfold upload_attendance.
    rewrite upload_with_remarks; [exact I|].
    intros df u d d' H. apply import_attendance_shape in H.
    now destruct H as (n & l & ->).
  - intros _. unfold upload_marks. rewrite upload_with_remarks; [exact I|].
    intros df u d d' H. apply import_marks_shape in H.
    now destruct H as (n & l & ->).
  - unfold delete_upload_route.
    destruct (negb (is_admin rq)); [intros _; exact I|].
    destruct (delete_upload_cases uid db) as [[E ->]|(r0 & ->)]; cbn [fst];
      [|intros _; exact I].
    intros X. apply existsb_exists in X. destruct X as (s & Is & Es).
    cbn [students after_rollback] in Is. apply filter_In in Is.
    destruct Is as [_ K]. apply String.eqb_eq in Es. rewrite Es in K.
    cbn [remarks after_rollback]. apply filter_In. split; [exact I|exact K].
  - intros _. unfold add_remark.
    destruct (String.eqb _ ""); [exact I|].
    destruct (student_exists roll db); [|exact I].
    cbn [remarks set_remarks]. apply in_or_app. now left.
Qed.

(** A remark lives as long as its student: after any one request on a
    store the program can be in, a remark of that store is still there
    exactly when its student is. Only a rollback that deletes the student
    takes the remark away. *)
Theorem remark_lives_with_student (a : action) (db : DB) (r : remark_row) :
  reachable db -> In r (remarks db) ->
  (In r (remarks (run a db)) <->
   student_exists (rm_roll_no r) (run a db) = true).
Proof.
  intros R I. split.
  - intros I'.
    destruct (reachable_refs_ok (run a db) (reach_step a db R))
      as (_ & _ & _ & Hr).
    now apply Hr.
  - now apply run_remarks.
Qed.

End Access.

(** A visitor posts a Students file, asks for a rollback and writes a
    remark: the students of the sample store are as they were. *)
Lemma visitors_only_add_remarks_witness :
  Store.students SampleVisitor.after = Store.students SampleReimport.base.
Proof.
  assert (F : Forall (fun a => Routes.is_admin (request_of a) = false)
                     SampleVisitor.requests)
    by (repeat constructor).
  exact (proj1 (proj2 (proj2
           (visitors_only_add_remarks (B := Literal.builtins)
              SampleVisitor.requests SampleReimport.base F)))).
Defined.

(** The remark the visitor wrote on R1 outlives the rollback of the
    attendance upload 2, and is deleted with R1 by the rollback of the
    Students upload 1. *)
Lemma remark_lives_with_student_witness :
  (In (Store.mkRemark "R1" "see me" "admin" "2026-01-06T09:00:00")
      (Store.remarks
         (Routes.run (B := Literal.builtins)
            (Routes.DeleteUpload (Sample.admin_request None) 2)
            SampleVisitor.after)) <->
   Store.student_exists "R1"
     (Routes.run (B := Literal.builtins)
        (Routes.DeleteUpload (Sample.admin_request None) 2)
        SampleVisitor.after) = true) /\
  ~ In (Store.mkRemark "R1" "see me" "admin" "2026-01-06T09:00:00")
       (Store.remarks
          (Routes.run (B := Literal.builtins)
             (Routes.DeleteUpload (Sample.admin_request None) 1)
             SampleVisitor.after)).
Proof.
  assert (R : Routes.reachable (B := Literal.builtins) SampleVisitor.after).
  { unfold SampleVisitor.after. apply reachable_run_all.
    unfold SampleReimport.base. apply reachable_run_all.
    apply (Routes.reach_init (B := Literal.builtins)). }
  assert (I : In (Store.mkRemark "R1" "see me" "admin" "2026-01-06T09:00:00")
                 (Store.remarks SampleVisitor.after))
    by (vm_compute; left; reflexivity).
  split.
  - exact (remark_lives_with_student (B := Literal.builtins)
             (Routes.DeleteUpload (Sample.admin_request None) 2)
             SampleVisitor.after _ R I).
  - vm_compute. intros [].
Defined.

(** ** The same Attendance or Marks file, twice *)

Section SameRowsTwice.
Import Frame Store Importers Routes.
Context {B : Py.Builtins}.

(** Two tables with the same keys in the same order, one row per key,
    whose rows under each key are related, are related row by row. *)
Lemma tables_related {A K : Type} (key : A -> K) (same : K -> A -> bool)
    (R : A -> A -> Prop) :
  (forall k a, same k a = true <-> key a = k) ->
  forall l1 l2 : list A,
    NoDup (map key l1) ->
    map key l1 = map key l2 ->
    (forall k a, find (same k) l1 = Some a ->
                 exists b, find (same k) l2 = Some b /\ R a b) ->
    Forall2 R l1 l2.
Proof.
  intros Hs. induction l1 as [|a l1 IH]; intros [|b l2] N E H; simpl in *;
    try discriminate; [constructor|].
  injection E as Eab E. inversion N as [|? ? Na N1]; subst.
  assert (Sa : same (key a) a = true) by now apply Hs.
  assert (Sb : same (key a) b = true) by (apply Hs; now symmetry).
  constructor.
  - destruct (H (key a) a) as (b' & F & Rab); [now rewrite Sa|].
    rewrite Sb in F. now injection F as <-.
  - apply IH; [exact N1|exact E|]. intros k a' F.
    assert (Ka : key a' = k).
    { apply find_some in F. now apply Hs. }
    assert (I : In a' l1) by (apply find_some in F; tauto).
    assert (Nk : same k a = false).
    { destruct (same k a) eqn:S; [|reflexivity]. apply Hs in S.
      exfalso. apply Na. rewrite S, <- Ka. now apply in_map. }
    assert (Nb : same k b = false).
    { destruct (same k b) eqn:S; [|reflexivity]. apply Hs in S.
      exfalso. apply Na. rewrite Eab, S, <- Ka. now apply in_map. }
    destruct (H k a') as (b' & F' & Rab); [now rewrite Nk|].
    rewrite Nb in F'. eauto.
Qed.

(** *** Attendance *)

(** The upload id of an import only shows in the source of its rows. *)
Lemma attendance_of_row_uid (df : DataFrame) (u u' : Z) (r : list cell) :
  attendance_of_row df u' r =
  match attendance_of_row df u r with
  | Ok (Some a) => Ok (Some (with_source_a u' a))
  | Ok None => Ok None
  | Err e => Err e
  end.
Proof.
  unfold attendance_of_row.
  destruct (text df r "roll_no") as [roll|]; simpl; [|reflexivity].
  destruct (text df r "subject") as [subj|]; simpl; [|reflexivity].
  destruct (_ || _); [reflexivity|].
  destruct (getitem df r "attended") as [ca|]; simpl; [|reflexivity].
  destruct (count_int ca) as [x|]; simpl; [|reflexivity].
  destruct (getitem df r "total") as [ct|]; simpl; [|reflexivity].
  destruct (count_int ct) as [y|]; simpl; [|reflexivity].
  destruct (optional_int df r "semester") as [s|]; simpl; reflexivity.
Qed.

Lemma attendance_of_row_other (df : DataFrame) (u u' : Z) (r : list cell)
    (a : attendance_row) :
  attendance_of_row df u' r = Ok (Some a) ->
  exists a0, attendance_of_row df u r = Ok (Some a0) /\
             attendance_key a0 = attendance_key a.
Proof.
  rewrite (attendance_of_row_uid df u u').
  destruct (attendance_of_row df u r) as [[a0|]|]; try discriminate.
  intros [= <-]. now exists a0.
Qed.

Lemma coalesce_assoc {A : Type} (x y z : option A) :
  coalesce x (coalesce y z) = coalesce (coalesce x y) z.
Proof. now destruct x. Qed.

Lemma coalesce_twice {A : Type} (x y : option A) :
  coalesce x (coalesce x y) = coalesce x y.
Proof. now destruct x. Qed.

(** All the rows of a file do to the row stored under a key is what one
    upsert would do: they leave it alone, or they write the counts of the
    last row with that key and the last semester any of them supplies. *)
Lemma written_attendance_cases (df : DataFrame) (roll subj : string)
    (rs : list (list cell)) :
  (forall u acc, written_attendance df u roll subj rs acc = acc) \/
  (exists att tot sem, forall u acc,
      written_attendance df u roll subj rs acc =
      Some (merge_attendance (mkAttendance roll subj att tot sem (Some u))
                             acc)).
Proof.
  induction rs as [|r rest IH]; [now left|].
  destruct (attendance_of_row df 0 r) as [[a|]|e] eqn:E.
  - destruct (same_attendance roll subj a) eqn:K.
    + assert (Ka : at_roll_no a = roll /\ at_subject a = subj).
      { unfold same_attendance in K. apply andb_true_iff in K.
        now rewrite !String.eqb_eq in K. }
      destruct Ka as [Kr Ks]. right.
      destruct IH as [L|(att & tot & sem & Rt)].
      * exists (at_attended a), (at_total a), (at_semester a).
        intros u acc. simpl.
        rewrite (attendance_of_row_uid df 0 u), E.
        unfold with_source_a at 1. unfold same_attendance at 1. simpl.
        fold (same_attendance roll subj a). rewrite K, L.
        unfold with_source_a. now rewrite Kr, Ks.
      * exists att, tot, (coalesce sem (at_semester a)).
        intros u acc. simpl.
        rewrite (attendance_of_row_uid df 0 u), E.
        unfold with_source_a at 1. unfold same_attendance at 1. simpl.
        fold (same_attendance roll subj a). rewrite K, Rt.
        destruct acc as [old|]; simpl.
        -- now rewrite coalesce_assoc.
        -- now rewrite Kr, Ks.
    + destruct IH as [L|(att & tot & sem & Rt)]; [left|right].
      * intros u acc. simpl. rewrite (attendance_of_row_uid df 0 u), E.
        unfold with_source_a at 1. unfold same_attendance at 1. simpl.
        fold (same_attendance roll subj a). rewrite K. apply L.
      * exists att, tot, sem. intros u acc. simpl.
        rewrite (attendance_of_row_uid df 0 u), E.
        unfold with_source_a at 1. unfold same_attendance at 1. simpl.
        fold (same_attendance roll subj a). rewrite K. apply Rt.
  - destruct IH as [L|(att & tot & sem & Rt)]; [left|right].
    + intros u acc. simpl. rewrite (attendance_of_row_uid df 0 u), E.
      apply L.
    + exists att, tot, sem. intros u acc. simpl.
      rewrite (attendance_of_row_uid df 0 u), E. apply Rt.
  - destruct IH as [L|(att & tot & sem & Rt)]; [left|right].
    + intros u acc. simpl. rewrite (attendance_of_row_uid df 0 u), E.
      apply L.
    + exists att, tot, sem. intros u acc. simpl.
      rewrite (attendance_of_row_uid df 0 u), E. apply Rt.
Qed.

Lemma written_attendance_twice (df : DataFrame) (u1 u2 : Z)
    (roll subj : string) (rs : list (list cell))
    (acc : option attendance_row) (a : attendance_row) :
  written_attendance df u1 roll subj rs acc = Some a ->
  exists b, written_attendance df u2 roll subj rs (Some a) = Some b /\
            resourced_a u2 a b.
Proof.
  destruct (written_attendance_cases df roll subj rs)
    as [L|(att & tot & sem & Rt)].
  - intros _. exists a. split; [apply L|now left].
  - rewrite !Rt. intros [= <-]. eexists. split; [reflexivity|]. right.
    destruct acc as [old|]; unfold with_source_a; simpl;
      now destruct sem.
Qed.

Lemma upsert_attendance_incl (a : attendance_row) (l : list attendance_row)
    (k : string * string) :
  In k (map attendance_key l) \/ k = attendance_key a ->
  In k (map attendance_key (upsert_attendance a l)).
Proof.
  rewrite upsert_attendance_keys.
  destruct (existsb _ l) eqn:X.
  - intros [I| ->]; [exact I|]. apply existsb_exists in X.
    destruct X as (x & I & S). apply same_attendance_key in S.
    rewrite <- S. now apply in_map.
  - intros [I| ->]; apply in_or_app; [now left|right; now left].
Qed.

(** After the loop every key the store held and every key the file
    applied is in the table. *)
Lemma attendance_loop_exists (df : DataFrame) (uid : Z)
    (rs : list (list cell)) :
  forall db n st,
    attendance_loop df uid rs db n = Ok st ->
    (forall k, In k (map attendance_key (attendance db)) ->
               In k (map attendance_key (attendance (fst st)))) /\
    (forall r a, In r rs -> attendance_of_row df uid r = Ok (Some a) ->
                 In (attendance_key a)
                    (map attendance_key (attendance (fst st)))).
Proof.
  induction rs as [|r rest IH]; simpl; intros db n st H.
  - injection H as <-. split; [auto|intros r a []].
  - bind_inv H. destruct x as [a|].
    + bind_inv H. apply apply_attendance_shape in E0. subst x.
      destruct (IH _ _ _ H) as [Mono Ex]. split.
      * intros k I. apply Mono. cbn [attendance set_attendance].
        apply upsert_attendance_incl. now left.
      * intros r' a' [<-|I] Hr; [|now apply (Ex r')].
        rewrite E in Hr. injection Hr as <-. apply Mono.
        cbn [attendance set_attendance]. apply upsert_attendance_incl.
        now right.
    + destruct (IH _ _ _ H) as [Mono Ex]. split; [exact Mono|].
      intros r' a' [<-|I] Hr; [congruence|now apply (Ex r')].
Qed.

(** When the table holds every key the file applies, the loop adds no
    row. *)
Lemma attendance_loop_known (df : DataFrame) (uid : Z)
    (rs : list (list cell)) :
  forall db n st,
    (forall r a, In r rs -> attendance_of_row df uid r = Ok (Some a) ->
                 In (attendance_key a) (map attendance_key (attendance db))) ->
    attendance_loop df uid rs db n = Ok st ->
    map attendance_key (attendance (fst st)) =
    map attendance_key (attendance db).
Proof.
  induction rs as [|r rest IH]; simpl; intros db n st All H.
  - now injection H as <-.
  - bind_inv H. destruct x as [a|].
    + bind_inv H. apply apply_attendance_shape in E0. subst x.
      assert (K : map attendance_key (upsert_attendance a (attendance db)) =
                  map attendance_key (attendance db)).
      { rewrite upsert_attendance_keys.
        destruct (existsb _ (attendance db)) eqn:X; [reflexivity|].
        exfalso. apply (existsb_same_attendance a _ X).
        apply (All r a); [now left|exact E]. }
      rewrite <- K.
      apply (IH (set_attendance (upsert_attendance a (attendance db)) db)
                (n + 1) st); [|exact H].
      intros r' a' I Hr. cbn [attendance set_attendance]. rewrite K.
      apply (All r' a'); [now right|exact Hr].
    + apply (IH _ _ _ (fun r' a' I Hr => All r' a' (or_intror I) Hr) H).
Qed.

Lemma import_attendance_NoDup (df : DataFrame) (uid : Z) (db db' : DB) :
  NoDup (map attendance_key (attendance db)) ->
  import_attendance df uid db = Ok db' ->
  NoDup (map attendance_key (attendance db')).
Proof.
  apply (import_attendance_inv
           (fun d => NoDup (map attendance_key (attendance d)))).
  - intros u n d N. exact N.
  - intros a d d' N H. apply apply_attendance_shape in H. subst d'.
    now apply upsert_attendance_NoDup.
Qed.

(** Importing the same Attendance file a second time changes no count
    and no semester and adds no row: row by row the attendance table is
    as the first import left it, but that the rows of the file now name
    the second upload as their source. *)
Theorem same_attendance_file_twice (df : DataFrame) (u1 u2 : Z)
    (db db1 db2 : DB) :
  NoDup (map attendance_key (attendance db)) ->
  import_attendance df u1 db = Ok db1 ->
  import_attendance df u2 db1 = Ok db2 ->
  Forall2 (resourced_a u2) (attendance db1) (attendance db2).
Proof.
  intros N H1 H2.
  pose proof (import_attendance_NoDup df u1 db db1 N H1) as N1.
  unfold import_attendance in H1, H2. revert H1 H2.
  generalize (attendance_frame df). intros fr H1 H2. cbv zeta in H1, H2.
  bind_inv H1. bind_inv H1. injection H1 as <-.
  bind_inv H2. bind_inv H2. injection H2 as <-.
  destruct (attendance_loop_exists _ _ _ _ _ _ E0) as [_ Ex].
  apply (tables_related attendance_key
           (fun k => same_attendance (fst k) (snd k))).
  - intros [roll subj] a. unfold same_attendance, attendance_key. simpl.
    rewrite andb_true_iff, !String.eqb_eq. split.
    + now intros [-> ->].
    + now intros [= -> ->].
  - exact N1.
  - symmetry.
    apply (attendance_loop_known fr u2 (iterrows fr)
             (bump_rowcount u1 (snd x0) (fst x0)) 0 x2); [|exact E2].
    intros r a I Hr.
    destruct (attendance_of_row_other fr u1 u2 r a Hr) as (a0 & H0 & <-).
    now apply (Ex r).
  - intros [roll subj] a F. cbn [fst snd] in *.
    change (find_attendance roll subj (fst x0) = Some a) in F.
    change (exists b, find_attendance roll subj (fst x2) = Some b /\
                      resourced_a u2 a b).
    rewrite (attendance_loop_find _ _ _ _ _ _ roll subj E2).
    change (find_attendance roll subj (bump_rowcount u1 (snd x0) (fst x0)))
      with (find_attendance roll subj (fst x0)).
    rewrite F. rewrite (attendance_loop_find _ _ _ _ _ _ roll subj E0) in F.
    eapply written_attendance_twice. exact F.
Qed.

(** *** Marks *)

Lemma marks_of_row_uid (df : DataFrame) (u u' : Z) (r : list cell) :
  marks_of_row df u' r =
  match marks_of_row df u r with
  | Ok (Some m) => Ok (Some (with_source_m u' m))
  | Ok None => Ok None
  | Err e => Err e
  end.
Proof.
  unfold marks_of_row.
  destruct (text df r "roll_no") as [roll|]; simpl; [|reflexivity].
  destruct (text df r "exam") as [exam|]; simpl; [|reflexivity].
  destruct (text df r "subject") as [subj|]; simpl; [|reflexivity].
  destruct (_ || _); [reflexivity|].
  destruct (getitem df r "max_marks") as [cm|]; simpl; [|reflexivity].
  destruct (count_int cm) as [x|]; simpl; [|reflexivity].
  destruct (getitem df r "marks_obtained") as [cg|]; simpl; [|reflexivity].
  destruct (count_int cg) as [y|]; simpl; [|reflexivity].
  destruct (optional_int df r "credits") as [c|]; simpl; [|reflexivity].
  destruct (optional_int df r "semester") as [s|]; simpl; reflexivity.
Qed.

Lemma marks_of_row_other (df : DataFrame) (u u' : Z) (r : list cell)
    (m : marks_row) :
  marks_of_row df u' r = Ok (Some m) ->
  exists m0, marks_of_row df u r = Ok (Some m0) /\ marks_key m0 = marks_key m.
Proof.
  rewrite (marks_of_row_uid df u u').
  destruct (marks_of_row df u r) as [[m0|]|]; try discriminate.
  intros [= <-]. now exists m0.
Qed.

Lemma written_marks_cases (df : DataFrame) (roll exam subj : string)
    (rs : list (list cell)) :
  (forall u acc, written_marks df u roll exam subj rs acc = acc) \/
  (exists maxm got cr sem, forall u acc,
      written_marks df u roll exam subj rs acc =
      Some (merge_marks (mkMarks roll exam subj maxm got cr sem (Some u))
                        acc)).
Proof.
  induction rs as [|r rest IH]; [now left|].
  destruct (marks_of_row df 0 r) as [[m|]|e] eqn:E.
  - destruct (same_marks roll exam subj m) eqn:K.
    + assert (Km : mk_roll_no m = roll /\ mk_exam m = exam /\
                   mk_subject m = subj).
      { unfold same_marks in K. rewrite !andb_true_iff in K.
        rewrite !String.eqb_eq in K. tauto. }
      destruct Km as (Kr & Ke & Ks). right.
      destruct IH as [L|(maxm & got & cr & sem & Rt)].
      * exists (mk_max_marks m), (mk_marks_obtained m), (mk_credits m),
               (mk_semester m).
        intros u acc. simpl.
        rewrite (marks_of_row_uid df 0 u), E.
        unfold with_source_m at 1. unfold same_marks at 1. simpl.
        fold (same_marks roll exam subj m). rewrite K, L.
        unfold with_source_m. now rewrite Kr, Ke, Ks.
      * exists maxm, got, (coalesce cr (mk_credits m)),
               (coalesce sem (mk_semester m)).
        intros u acc. simpl.
        rewrite (marks_of_row_uid df 0 u), E.
        unfold with_source_m at 1. unfold same_marks at 1. simpl.
        fold (same_marks roll exam subj m). rewrite K, Rt.
        destruct acc as [old|]; simpl.
        -- now rewrite !coalesce_assoc.
        -- now rewrite Kr, Ke, Ks.
    + destruct IH as [L|(maxm & got & cr & sem & Rt)]; [left|right].
      * intros u acc. simpl. rewrite (marks_of_row_uid df 0 u), E.
        unfold with_source_m at 1. unfold same_marks at 1. simpl.
        fold (same_marks roll exam subj m). rewrite K. apply L.
      * exists maxm, got, cr, sem. intros u acc. simpl.
        rewrite (marks_of_row_uid df 0 u), E.
        unfold with_source_m at 1. unfold same_marks at 1. simpl.
        fold (same_marks roll exam subj m). rewrite K. apply Rt.
  - destruct IH as [L|(maxm & got & cr & sem & Rt)]; [left|right].
    + intros u acc. simpl. rewrite (marks_of_row_uid df 0 u), E. apply L.
    + exists maxm, got, cr, sem. intros u acc. simpl.
      rewrite (marks_of_row_uid df 0 u), E. apply Rt.
  - destruct IH as [L|(maxm & got & cr & sem & Rt)]; [left|right].
    + intros u acc. simpl. rewrite (marks_of_row_uid df 0 u), E. apply L.
    + exists maxm, got, cr, sem. intros u acc. simpl.
      rewrite (marks_of_row_uid df 0 u), E. apply Rt.
Qed.

Lemma written_marks_twice (df : DataFrame) (u1 u2 : Z)
    (roll exam subj : string) (rs : list (list cell))
    (acc : option marks_row) (a : marks_row) :
  written_marks df u1 roll exam subj rs acc = Some a ->
  exists b, written_marks df u2 roll exam subj rs (Some a) = Some b /\
            resourced_m u2 a b.
Proof.
  destruct (written_marks_cases df roll exam subj rs)
    as [L|(maxm & got & cr & sem & Rt)].
  - intros _. exists a. split; [apply L|now left].
  - rewrite !Rt. intros [= <-]. eexists. split; [reflexivity|]. right.
    destruct acc as [old|]; unfold with_source_m; simpl;
      now destruct cr, sem.
Qed.

Lemma upsert_marks_incl (m : marks_row) (l : list marks_row)
    (k : string * string * string) :
  In k (map marks_key l) \/ k = marks_key m ->
  In k (map marks_key (upsert_marks m l)).
Proof.
  rewrite upsert_marks_keys.
  destruct (existsb _ l) eqn:X.
  - intros [I| ->]; [exact I|]. apply existsb_exists in X.
    destruct X as (x & I & S). apply same_marks_key in S.
    rewrite <- S. now apply in_map.
  - intros [I| ->]; apply in_or_app; [now left|right; now left].
Qed.

Lemma marks_loop_exists (df : DataFrame) (uid : Z) (rs : list (list cell)) :
  forall db n st,
    marks_loop df uid rs db n = Ok st ->
    (forall k, In k (map marks_key (marks db)) ->
               In k (map marks_key (marks (fst st)))) /\
    (forall r m, In r rs -> marks_of_row df uid r = Ok (Some m) ->
                 In (marks_key m) (map marks_key (marks (fst st)))).
Proof.
  induction rs as [|r rest IH]; simpl; intros db n st H.
  - injection H as <-. split; [auto|intros r m []].
  - bind_inv H. destruct x as [m|].
    + bind_inv H. apply apply_marks_shape in E0. subst x.
      destruct (IH _ _ _ H) as [Mono Ex]. split.
      * intros k I. apply Mono. cbn [marks set_marks].
        apply upsert_marks_incl. now left.
      * intros r' m' [<-|I] Hr; [|now apply (Ex r')].
        rewrite E in Hr. injection Hr as <-. apply Mono.
        cbn [marks set_marks]. apply upsert_marks_incl. now right.
    + destruct (IH _ _ _ H) as [Mono Ex]. split; [exact Mono|].
      intros r' m' [<-|I] Hr; [congruence|now apply (Ex r')].
Qed.

Lemma marks_loop_known (df : DataFrame) (uid : Z) (rs : list (list cell)) :
  forall db n st,
    (forall r m, In r rs -> marks_of_row df uid r = Ok (Some m) ->
                 In (marks_key m) (map marks_key (marks db))) ->
    marks_loop df uid rs db n = Ok st ->
    map marks_key (marks (fst st)) = map marks_key (marks db).
Proof.
  induction rs as [|r rest IH]; simpl; intros db n st All H.
  - now injection H as <-.
  - bind_inv H. destruct x as [m|].
    + bind_inv H. apply apply_marks_shape in E0. subst x.
      assert (K : map marks_key (upsert_marks m (marks db)) =
                  map marks_key (marks db)).
      { rewrite upsert_marks_keys.
        destruct (existsb _ (marks db)) eqn:X; [reflexivity|].
        exfalso. pose proof (All r m (or_introl eq_refl) E) as I.
        apply in_map_iff in I. destruct I as (y & Ky & I).
        apply same_marks_key in Ky.
        assert (T : existsb (same_marks (mk_roll_no m) (mk_exam m)
                                        (mk_subject m)) (marks db) = true)
          by (apply existsb_exists; eauto).
        congruence. }
      rewrite <- K.
      apply (IH (set_marks (upsert_marks m (marks db)) db) (n + 1) st);
        [|exact H].
      intros r' m' I Hr. cbn [marks set_marks]. rewrite K.
      apply (All r' m'); [now right|exact Hr].
    + apply (IH _ _ _ (fun r' m' I Hr => All r' m' (or_intror I) Hr) H).
Qed.

Lemma import_marks_NoDup (df : DataFrame) (uid : Z) (db db' : DB) :
  NoDup (map marks_key (marks db)) ->
  import_marks df uid db = Ok db' ->
  NoDup (map marks_key (marks db')).
Proof.
  apply (import_marks_inv (fun d => NoDup (map marks_key (marks d)))).
  - intros u n d N. exact N.
  - intros m d d' N H. apply apply_marks_shape in H. subst d'.
    now apply upsert_marks_NoDup.
Qed.

(** Importing the same Marks file a second time changes no mark, no
    maximum, no credits and no semester and adds no row: row by row the
    marks table is as the first import left it, but that the rows of the
    file now name the second upload as their source. *)
Theorem same_marks_file_twice (df : DataFrame) (u1 u2 : Z)
    (db db1 db2 : DB) :
  NoDup (map marks_key (marks db)) ->
  import_marks df u1 db = Ok db1 ->
  import_marks df u2 db1 = Ok db2 ->
  Forall2 (resourced_m u2) (marks db1) (marks db2).
Proof.
  intros N H1 H2.
  pose proof (import_marks_NoDup df u1 db db1 N H1) as N1.
  unfold import_marks in H1, H2. revert H1 H2.
  generalize (marks_frame df). intros fr H1 H2. cbv zeta in H1, H2.
  bind_inv H1. bind_inv H1. injection H1 as <-.
  bind_inv H2. bind_inv H2. injection H2 as <-.
  destruct (marks_loop_exists _ _ _ _ _ _ E0) as [_ Ex].
  apply (tables_related marks_key
           (fun k => same_marks (fst (fst k)) (snd (fst k)) (snd k))).
  - intros [[roll exam] subj] m. unfold same_marks, marks_key. simpl.
    rewrite !andb_true_iff, !String.eqb_eq. split.
    + now intros [[-> ->] ->].
    + now intros [= -> -> ->].
  - exact N1.
  - symmetry.
    apply (marks_loop_known fr u2 (iterrows fr)
             (bump_rowcount u1 (snd x0) (fst x0)) 0 x2); [|exact E2].
    intros r m I Hr.
    destruct (marks_of_row_other fr u1 u2 r m Hr) as (m0 & H0 & <-).
    now apply (Ex r).
  - intros [[roll exam] subj] m F. cbn [fst snd] in *.
    change (find_marks roll exam subj (fst x0) = Some m) in F.
    change (exists b, find_marks roll exam subj (fst x2) = Some b /\
                      resourced_m u2 m b).
    rewrite (marks_loop_find _ _ _ _ _ _ roll exam subj E2).
    change (find_marks roll exam subj (bump_rowcount u1 (snd x0) (fst x0)))
      with (find_marks roll exam subj (fst x0)).
    rewrite F. rewrite (marks_loop_find _ _ _ _ _ _ roll exam subj E0) in F.
    eapply written_marks_twice. exact F.
Qed.

End SameRowsTwice.

(** The Attendance file of the samples imported twice: the one row of the
    table is the same, but for its source. *)
Lemma same_attendance_file_twice_witness :
  Forall2 (resourced_a 3) (Store.attendance SampleAgain.attendance_first)
          (Store.attendance SampleAgain.attendance_second).
Proof.
  assert (N : NoDup (map Store.attendance_key
                         (Store.attendance SampleReimport.base)))
    by (vm_compute; repeat constructor; intros []).
  assert (H1 : Importers.import_attendance (B := Literal.builtins)
                 SampleReimport.attendance1 2 SampleReimport.base =
               Ok SampleAgain.attendance_first) by (vm_compute; reflexivity).
  assert (H2 : Importers.import_attendance (B := Literal.builtins)
                 SampleReimport.attendance1 3 SampleAgain.attendance_first =
               Ok SampleAgain.attendance_second) by (vm_compute; reflexivity).
  exact (same_attendance_file_twice (B := Literal.builtins)
           SampleReimport.attendance1 2 3 SampleReimport.base
           SampleAgain.attendance_first SampleAgain.attendance_second
           N H1 H2).
Defined.
(** The Marks file of the samples imported twice. *)
Lemma same_marks_file_twice_witness :
  Forall2 (resourced_m 2) (Store.marks SampleAgain.marks_first)
          (Store.marks SampleAgain.marks_second).
Proof.
  assert (N : NoDup (map Store.marks_key (Store.marks SampleReimport.base)))
    by (vm_compute; repeat constructor; intros []).
  assert (H1 : Importers.import_marks (B := Literal.builtins)
                 SampleReimport.marks1 3 SampleReimport.base =
               Ok SampleAgain.marks_first) by (vm_compute; reflexivity).
  assert (H2 : Importers.import_marks (B := Literal.builtins)
                 SampleReimport.marks1 2 SampleAgain.marks_first =
               Ok SampleAgain.marks_second) by (vm_compute; reflexivity).
  exact (same_marks_file_twice (B := Literal.builtins)
           SampleReimport.marks1 3 2 SampleReimport.base
           SampleAgain.marks_first SampleAgain.marks_second N H1 H2).
Defined.

(** ** From the uploaded file to the student's page *)

Section UploadShown.
Import Frame Store Importers Routes Grid.
Context {B : Py.Builtins}.





End UploadShown.



(** ** Files of numbers only *)

(** An Attendance file whose columns are all numeric is iterated in the
    common dtype of its columns. With a fraction in one column that dtype
    is float64: the roll number 101 and the subject 5 arrive as 101.0 and
    5.0, [str] gives "101.0" and "5.0", and in a store whose student is
    "101" the import fails on the foreign key. The same file with whole
    numbers only is iterated as integers and is stored under "101". *)
Theorem numeric_file_keys_as_floats :
  map Store.st_roll_no (Store.students SampleNumeric.store) = ["101"] /\
  Frame.iterrows (Importers.attendance_frame (B := Literal.builtins)
                                             SampleNumeric.attendance) =
    [[Frame.CFloat 101; Frame.CFloat 5; Frame.CFloat 7.5; Frame.CFloat 10]] /\
  Importers.attendance_of_row (B := Literal.builtins)
    (Importers.attendance_frame (B := Literal.builtins)
                                SampleNumeric.attendance) 2
    [Frame.CFloat 101; Frame.CFloat 5; Frame.CFloat 7.5; Frame.CFloat 10] =
    Ok (Some (Store.mkAttendance "101.0" "5.0" 7 10 None (Some 2))) /\
  Importers.import_attendance (B := Literal.builtins)
    SampleNumeric.attendance 2 SampleNumeric.store =
    Err (IntegrityError "FOREIGN KEY constraint failed") /\
  option_map Store.attendance
    (match Importers.import_attendance (B := Literal.builtins)
             SampleNumeric.attendance_whole 2 SampleNumeric.store with
     | Ok db => Some db
     | Err _ => None
     end) = Some [Store.mkAttendance "101" "5" 7 10 None (Some 2)].
Proof. repeat split; vm_compute; reflexivity. Qed.
